(** * octodns.source.tinydns: the tinydns-data importer

    A shallow embedding of [octodns/source/tinydns.py] (the classes
    [TinyDnsBaseSource] and [TinyDnsFileSource]) and the properties of its
    parsing and record-synthesis pipeline.

    Conventions of the embedding.
    - A Python [str] read from a zone file is a [string]: the characters are the
      code points 0..255, the ones [str.encode('latin1')] accepts.  The text that
      [bytes.decode('unicode-escape')] returns can hold any code point and is a
      [list N].
    - A list of fields [line] is a [list string]; [line[i]] is [nth_error] and
      its [None] is Python's [IndexError].
    - A generator is the list of the triples it yields together with the
      exception that ended it, if one did.
    - [defaultdict]s are association lists in insertion order, the order in
      which Python iterates over them. *)

From Stdlib Require Import List String Ascii ZArith NArith Bool Arith Lia.
From Stdlib Require Import DecimalString.
Import ListNotations.

Local Open Scope string_scope.
Local Open Scope list_scope.

(** ** Python strings *)

Module PyStr.

Definition code (c : ascii) : N := N_of_ascii c.

Definition LF : ascii := ascii_of_N 10.

Definition DQUOTE : ascii := ascii_of_N 34.

(** [str.isspace] on the code points below 256. *)
Definition isspace (c : ascii) : bool :=
  let n := code c in
  ((9 <=? n) && (n <=? 13) || (28 <=? n) && (n <=? 32)
   || (n =? 133) || (n =? 160))%N.

(** [c in s] for a one-character [c]. *)
Fixpoint contains (c : ascii) (s : string) : bool :=
  match s with
  | EmptyString => false
  | String a s' => Ascii.eqb a c || contains c s'
  end.

(** [s[-1]]. *)
Fixpoint last (s : string) : option ascii :=
  match s with
  | EmptyString => None
  | String a EmptyString => Some a
  | String _ s' => last s'
  end.

Fixpoint rev_onto (s acc : string) : string :=
  match s with
  | EmptyString => acc
  | String a s' => rev_onto s' (String a acc)
  end.

Definition rev (s : string) : string := rev_onto s EmptyString.

Fixpoint lstrip (s : string) : string :=
  match s with
  | EmptyString => EmptyString
  | String a s' => if isspace a then lstrip s' else s
  end.

(** [s.strip()]. *)
Definition strip (s : string) : string := rev (lstrip (rev (lstrip s))).

(** [s.split(sep)] for a one-character [sep]: never empty, an empty piece
    between two adjacent separators. *)
Fixpoint split (sep : ascii) (s : string) : list string :=
  match s with
  | EmptyString => [EmptyString]
  | String a s' =>
      if Ascii.eqb a sep then EmptyString :: split sep s'
      else match split sep s' with
           | [] => [String a EmptyString]
           | p :: ps => String a p :: ps
           end
  end.

(** [s.split(sep, 1)[0]]: the text before the first [sep]. *)
Fixpoint before (sep : ascii) (s : string) : string :=
  match s with
  | EmptyString => EmptyString
  | String a s' => if Ascii.eqb a sep then EmptyString else String a (before sep s')
  end.

(** [s.endswith(suffix)]. *)
Definition endswith (s suffix : string) : bool :=
  prefix (rev suffix) (rev s).

(** [sep.join(parts)]. *)
Definition join (sep : string) (parts : list string) : string :=
  String.concat sep parts.

(** [s[:-1]]. *)
Fixpoint drop_last (s : string) : string :=
  match s with
  | EmptyString => EmptyString
  | String a EmptyString => EmptyString
  | String a s' => String a (drop_last s')
  end.

(** [bool(s)]: a string is true when it is not empty. *)
Definition truthy (s : string) : bool :=
  match s with EmptyString => false | _ => true end.

End PyStr.

(** ** The Python library functions the module calls *)

Module PyLib.
Import PyStr.

Definition is_digit (c : ascii) : bool := ((48 <=? code c) && (code c <=? 57))%N.

Definition is_octal (c : ascii) : bool := ((48 <=? code c) && (code c <=? 55))%N.

Definition hex_val (c : ascii) : option N :=
  let n := code c in
  if ((48 <=? n) && (n <=? 57))%N then Some (n - 48)%N
  else if ((97 <=? n) && (n <=? 102))%N then Some (n - 87)%N
  else if ((65 <=? n) && (n <=? 70))%N then Some (n - 55)%N
  else None.

Definition is_hex (c : ascii) : bool :=
  match hex_val c with Some _ => true | None => false end.

(** *** [int(s)]

    Surrounding whitespace is dropped, a sign may lead, and the digits may be
    separated by single underscores.  [None] is [ValueError]. *)

Fixpoint int_digits (s : string) (acc : Z) (after_digit : bool) : option Z :=
  match s with
  | EmptyString => if after_digit then Some acc else None
  | String c s' =>
      if is_digit c then int_digits s' (10 * acc + Z.of_N (code c - 48)) true
      else if Ascii.eqb c "_" then
             if after_digit then int_digits s' acc false else None
           else None
  end.

Definition int (s : string) : option Z :=
  match strip s with
  | String "+" r => int_digits r 0 false
  | String "-" r => option_map Z.opp (int_digits r 0 false)
  | r => int_digits r 0 false
  end.

(** *** [bytes.decode('unicode-escape')]

    The decoder of CPython read as an automaton over the bytes: the state
    says which escape is being read.  [None] is [UnicodeDecodeError], which
    the default error handler ('strict') raises for an escape that is cut
    short, malformed or names no character. *)

Inductive esc_state : Type :=
| Plain
| Backslash
| Octal (ch : N) (digits : nat)
| Hex (ch : N) (more : nat)
| NameOpen
| Name (acc : string).

Definition MAX_UNICODE : N := 1114111.

Section Decode.
(** [unicodedata.lookup], which resolves the name in [\N{name}]. *)
Variable ucn_getcode : string -> option N.

Definition emit (ch : N) (rest : option (list N)) : option (list N) :=
  option_map (cons ch) rest.

Fixpoint decode_from (st : esc_state) (s : string) : option (list N) :=
  match s with
  | EmptyString =>
      match st with
      | Plain => Some []
      | Octal ch _ => Some [ch]
      | _ => None
      end
  | String c s' =>
      match st with
      | Plain =>
          if Ascii.eqb c "\" then decode_from Backslash s'
          else emit (code c) (decode_from Plain s')
      | Backslash =>
          if Ascii.eqb c LF then decode_from Plain s'
          else if Ascii.eqb c "\" then emit 92 (decode_from Plain s')
          else if Ascii.eqb c "'" then emit 39 (decode_from Plain s')
          else if Ascii.eqb c DQUOTE then emit 34 (decode_from Plain s')
          else if Ascii.eqb c "b" then emit 8 (decode_from Plain s')
          else if Ascii.eqb c "f" then emit 12 (decode_from Plain s')
          else if Ascii.eqb c "t" then emit 9 (decode_from Plain s')
          else if Ascii.eqb c "n" then emit 10 (decode_from Plain s')
          else if Ascii.eqb c "r" then emit 13 (decode_from Plain s')
          else if Ascii.eqb c "v" then emit 11 (decode_from Plain s')
          else if Ascii.eqb c "a" then emit 7 (decode_from Plain s')
          else if is_octal c then decode_from (Octal (code c - 48) 1) s'
          else if Ascii.eqb c "x" then decode_from (Hex 0 2) s'
          else if Ascii.eqb c "u" then decode_from (Hex 0 4) s'
          else if Ascii.eqb c "U" then decode_from (Hex 0 8) s'
          else if Ascii.eqb c "N" then decode_from NameOpen s'
          else emit 92 (emit (code c) (decode_from Plain s'))
      | Octal ch digits =>
          if is_octal c then
            let ch' := (8 * ch + (code c - 48))%N in
            match digits with
            | 1%nat => decode_from (Octal ch' 2) s'
            | _ => emit ch' (decode_from Plain s')
            end
          else if Ascii.eqb c "\" then emit ch (decode_from Backslash s')
               else emit ch (emit (code c) (decode_from Plain s'))
      | Hex ch more =>
          match hex_val c with
          | None => None
          | Some d =>
              let ch' := (16 * ch + d)%N in
              match more with
              | S (S k) => decode_from (Hex ch' (S k)) s'
              | _ => if (ch' <=? MAX_UNICODE)%N
                     then emit ch' (decode_from Plain s') else None
              end
          end
      | NameOpen =>
          if Ascii.eqb c "{" then decode_from (Name EmptyString) s' else None
      | Name acc =>
          if Ascii.eqb c "}" then
            match acc with
            | EmptyString => None
            | _ => match ucn_getcode acc with
                   | Some ch => emit ch (decode_from Plain s')
                   | None => None
                   end
            end
          else decode_from (Name (acc ++ String c EmptyString)) s'
      end
  end.

(** [s.encode('latin1').decode('unicode-escape')]; the encoding is the
    identity on the code points a [string] holds. *)
Definition unicode_escape (s : string) : option (list N) :=
  decode_from Plain s.
End Decode.

(** [t.replace(";", "\;")] on decoded text. *)
Definition replace_semicolon (t : list N) : list N :=
  flat_map (fun ch => if (ch =? 59)%N then [92; 59]%N else [ch]) t.

(** *** [textwrap.wrap(text, 4)]

    A text without whitespace and without hyphen is a single word for
    [TextWrapper]; a word longer than the width is cut into pieces of the
    width ([break_long_words]), the last piece keeping what is left. *)

Definition one_word (s : string) : bool :=
  negb (existsb (fun c => isspace c || Ascii.eqb c "-") (list_ascii_of_string s)).

Fixpoint pieces4 (s : string) : list string :=
  match s with
  | EmptyString => []
  | String a (String b (String c (String d (String _ _ as rest)))) =>
      String a (String b (String c (String d EmptyString))) :: pieces4 rest
  | _ => [s]
  end.

Section Wrap.
(** [textwrap.wrap(text, 4)] for a text with whitespace or hyphens, where
    the word-splitting of the library decides. *)
Variable wrap_words : string -> list string.

Definition wrap4 (text : string) : list string :=
  if one_word text then pieces4 text else wrap_words text.
End Wrap.

(** *** [ipaddress.ip_address(s).reverse_pointer] *)

Definition parse_octet (o : string) : option N :=
  match o with
  | EmptyString => None
  | String c rest =>
      if negb (forallb is_digit (list_ascii_of_string o)) then None
      else if (3 <? String.length o)%nat then None
      else if Ascii.eqb c "0" && truthy rest then None
      else match int_digits o 0 false with
           | Some z => if (z <=? 255)%Z then Some (Z.to_N z) else None
           | None => None
           end
  end.

Definition str_of_N (n : N) : string := NilEmpty.string_of_uint (N.to_uint n).

Definition ipv4_octets (s : string) : option (list N) :=
  if contains "/" s then None
  else match map parse_octet (split "." s) with
       | [Some a; Some b; Some c; Some d] => Some [a; b; c; d]
       | _ => None
       end.

Section IpAddress.
(** [IPv6Address(s).reverse_pointer], [None] when [s] is no IPv6 literal. *)
Variable ipv6_reverse_pointer : string -> option string.

(** [None] is the [ValueError] of [ip_address]. *)
Definition reverse_pointer (s : string) : option string :=
  match ipv4_octets s with
  | Some octets =>
      Some (join "." (List.rev (map str_of_N octets)) ++ ".in-addr.arpa")%string
  | None => ipv6_reverse_pointer s
  end.
End IpAddress.

End PyLib.

(** ** The two name patterns

    [_process_lines] compiles [((?P<name>.+)\.)?{zone.name[:-1]}\.?$] and
    [_populate_in_addr_arpa] compiles [(?P<name>.+)\.{zone.name[:-1]}\.?$],
    the zone name being pasted into the pattern as it is.  A [.] of the zone
    name is therefore the pattern that matches any character but a newline.
    Every other character of the zone name is taken as itself: the model is
    that of [re] for zone names made of letters, digits, [-], [_] and [.]. *)

Module NameRe.
Import PyStr.

(** The pasted zone name matched at the start of [s]; what follows it. *)
Fixpoint body (pat s : string) : option string :=
  match pat with
  | EmptyString => Some s
  | String p pat' =>
      match s with
      | EmptyString => None
      | String c s' =>
          if (if Ascii.eqb p "." then negb (Ascii.eqb c LF) else Ascii.eqb c p)
          then body pat' s' else None
      end
  end.

(** [$]: the end of the string, or just before a newline that ends it. *)
Definition at_end (s : string) : bool :=
  match s with
  | EmptyString => true
  | String c EmptyString => Ascii.eqb c LF
  | _ => false
  end.

(** [{zone.name[:-1]}\.?$] matched at the start of [s]. *)
Definition tail (pat s : string) : bool :=
  match body pat s with
  | None => false
  | Some r =>
      match r with
      | String "." r' => at_end r' || at_end r
      | _ => at_end r
      end
  end.

(** The pattern of [_populate_in_addr_arpa] with a star for the plus of its
    group [name], matched at the start of [s]: the longest text the group
    can take, which is the one the greedy search of [re] finds first. *)
Fixpoint star_group (pat s : string) : option string :=
  match s with
  | EmptyString => None
  | String c s' =>
      let here := if Ascii.eqb c "." && tail pat s' then Some EmptyString else None in
      if Ascii.eqb c LF then here
      else match star_group pat s' with
           | Some x => Some (String c x)
           | None => here
           end
  end.

(** [(?P<name>.+)\.{zone.name[:-1]}\.?$]: the group [name] of the match. *)
Definition plus_group (pat s : string) : option string :=
  match star_group pat s with
  | Some EmptyString => None
  | r => r
  end.

(** [bool(name_re.match(s))] for the pattern of [_process_lines]. *)
Definition matches (zone_name s : string) : bool :=
  let pat := drop_last zone_name in
  match plus_group pat s with
  | Some _ => true
  | None => tail pat s
  end.

(** [name_re.match(s)] for the pattern of [_populate_in_addr_arpa], as the
    group [name] of the match. *)
Definition in_addr_match (zone_name s : string) : option string :=
  plus_group (drop_last zone_name) s.

End NameRe.

(** ** Data model *)

(** The exceptions the module can end with. *)
Inductive exn : Type :=
| IndexError
| ValueError
| UnicodeDecodeError
| NotImplementedError
| AttributeError.

Definition result (A : Type) : Type := (exn + A)%type.

Definition bind {A B : Type} (r : result A) (k : A -> result B) : result B :=
  match r with
  | inl e => inl e
  | inr a => k a
  end.

Notation "x <- r ;; k" := (bind r (fun x => k))
  (at level 61, r at next level, right associativity).

(** [l[i]], raising [IndexError] out of range. *)
Definition item {A : Type} (l : list A) (i : nat) : result A :=
  match nth_error l i with
  | Some a => inr a
  | None => inl IndexError
  end.

(** The fields of a tokenized line. *)
Definition line : Type := list string.

(** [line[3] or 0] is a field or the integer 0. *)
Inductive preference : Type :=
| PrefStr (s : string)
| PrefInt (z : Z).

(** A value of a record: text taken from the line, decoded text (TXT), or the
    dictionary [{'preference': ..., 'exchange': ...}] (MX). *)
Inductive value : Type :=
| Str (s : string)
| Text (t : list N)
| Mx (pref : preference) (exchange : string).

(** What a handler yields: [_type, name, values]. *)
Definition event : Type := (string * string * list value)%type.

(** A run that hands over items one after the other and may end with an
    exception: the items handed over, and the exception if one ended it.  The
    items handed over before the exception are kept. *)
Definition trace (A : Type) : Type := (list A * option exn)%type.

(** A generator that has run, with the triples it yielded. *)
Definition gen : Type := trace event.

Definition stop {A : Type} : trace A := ([], None).

Definition raise {A : Type} (e : exn) : trace A := ([], Some e).

Definition yield {A : Type} (a : A) (rest : trace A) : trace A :=
  (a :: fst rest, snd rest).

(** [yield from g1] followed by [g2]. *)
Definition yield_from {A : Type} (g1 g2 : trace A) : trace A :=
  match snd g1 with
  | Some e => g1
  | None => (fst g1 ++ fst g2, snd g2)
  end.

(** The zone object: only its name and [hostname_from_fqdn] are used; the
    class is [octodns.zone.Zone]. *)
Module Zone.
Record t : Type := { name : string; hostname_from_fqdn : string -> string }.
End Zone.

(** The dictionary handed to [Record.new]. *)
Inductive ttl_value : Type :=
| TtlInt (z : Z)
| TtlStr (s : string).

Inductive payload : Type :=
| Value (v : value)
| Values (vs : list value).

Record data : Type := { ttl : ttl_value; type : string; body : payload }.

(** ** Dictionaries in insertion order *)

Section Odict.
Context {K V : Type} (eqb : K -> K -> bool).

Definition odict : Type := list (K * V).

(** [d[k] = f(d[k])] on a [defaultdict] whose factory returns [dflt]: an
    absent key is added at the end. *)
Fixpoint od_update (k : K) (f : V -> V) (dflt : V) (d : odict) : odict :=
  match d with
  | [] => [(k, f dflt)]
  | (k', v) :: d' =>
      if eqb k' k then (k', f v) :: d' else (k', v) :: od_update k f dflt d'
  end.

Fixpoint od_get (k : K) (d : odict) : option V :=
  match d with
  | [] => None
  | (k', v) :: d' => if eqb k' k then Some v else od_get k d'
  end.
End Odict.

Arguments odict : clear implicits.

(** [symbol -> name -> lines], the result of [_process_lines]. *)
Definition symbols_t : Type := odict ascii (odict string (list line)).

(** [_type -> name -> values], the first result of [_process_symbols]. *)
Definition types_t : Type := odict string (odict string (list value)).

(** [_type -> name -> ttl], the second result of [_process_symbols]. *)
Definition ttls_t : Type := odict string (odict string Z).

(** ** The source object *)

(** An instance of the source class.  [split_re] is what looking up the
    attribute [self.split_re] finds, [None] when the lookup fails. *)
Record source : Type := {
  default_ttl : Z;
  split_re : option (string -> list string)
}.

(** [TinyDnsFileSource(id, directory, default_ttl)].  The two constructors
    assign [log], [directory], [_cache] and [default_ttl]; the two class
    bodies define [SUPPORTS_GEO], [SUPPORTS_DYNAMIC], [SUPPORTS], [SYMBOL_MAP]
    and the methods.  No [split_re] is among them, and the remaining ancestor
    [BaseSource] is the generic source interface. *)
Definition TinyDnsFileSource (default_ttl : Z) : source :=
  {| default_ttl := default_ttl; split_re := None |}.

(** [TinyDnsFileSource._lines]: the lines of every file of the directory whose
    name does not start with a dot, empty lines left out.  The directory is
    given as the pairs of a file name and of the text [fh.read()] returns. *)
Definition _lines (directory : list (string * string)) : list string :=
  flat_map
    (fun file : string * string =>
       match fst file with
       | String "." _ => []
       | _ => filter PyStr.truthy (PyStr.split PyStr.LF (snd file))
       end)
    directory.

Section TinyDnsBaseSource.
Import PyStr.

(** The parts of the Python library that are left open, see [PyLib]. *)
Variable ucn_getcode : string -> option N.
Variable wrap_words : string -> list string.
Variable ipv6_reverse_pointer : string -> option string.

Variable self : source.

(** The [_data_for_*] methods take a type and the records of one name,
    each record being a list of fields, and return the dictionary of a
    record.  Their ttl is the field of the first record as it is written, or
    the default of the source:
<<
      try:
          ttl = records[0][i]
      except IndexError:
          ttl = self.default_ttl
>> *)
Definition first_ttl (records : list line) (i : nat) : ttl_value :=
  match first <- item records 0 ;; item first i with
  | inr field => TtlStr field
  | inl _ => TtlInt (default_ttl self)
  end.

(** The loop of [_data_for_A]: [record[0]] of every record but the ones
    equal to the placeholder. *)
Fixpoint data_A_values (records : list line) : result (list string) :=
  match records with
  | [] => inr []
  | record :: records' =>
      ip <- item record 0 ;;
      values <- data_A_values records' ;;
      inr (if String.eqb ip "0.0.0.0" then values else ip :: values)
  end.

(** [_data_for_A]; [None] is its bare [return], for no value left. *)
Definition _data_for_A (_type : string) (records : list line)
  : result (option data) :=
  values <- data_A_values records ;;
  match values with
  | [] => inr None
  | _ => inr (Some {| ttl := first_ttl records 1; type := _type;
                      body := Values (map Str values) |})
  end.

Fixpoint data_AAAA_values (records : list line) : result (list string) :=
  match records with
  | [] => inr []
  | record :: records' =>
      s <- item record 0 ;;
      values <- data_AAAA_values records' ;;
      inr (join ":" (PyLib.wrap4 wrap_words s) :: values)
  end.

Definition _data_for_AAAA (_type : string) (records : list line) : result data :=
  values <- data_AAAA_values records ;;
  inr {| ttl := first_ttl records 1; type := _type; body := Values (map Str values) |}.

Fixpoint data_TXT_values (records : list line) : result (list (list N)) :=
  match records with
  | [] => inr []
  | record :: records' =>
      s <- item record 0 ;;
      match PyLib.unicode_escape ucn_getcode s with
      | None => inl UnicodeDecodeError
      | Some t =>
          values <- data_TXT_values records' ;;
          inr (PyLib.replace_semicolon t :: values)
      end
  end.

Definition _data_for_TXT (_type : string) (records : list line) : result data :=
  values <- data_TXT_values records ;;
  inr {| ttl := first_ttl records 1; type := _type; body := Values (map Text values) |}.

Definition _data_for_CNAME (_type : string) (records : list line) : result data :=
  first <- item records 0 ;;
  let t := match item first 1 with
           | inr field => TtlStr field
           | inl _ => TtlInt (default_ttl self)
           end in
  target <- item first 0 ;;
  inr {| ttl := t; type := _type; body := Value (Str (target ++ ".")) |}.

(** [[{'preference': r[1], 'exchange': f'{r[0]}.'} for r in records]]. *)
Fixpoint data_MX_values (records : list line) : result (list value) :=
  match records with
  | [] => inr []
  | r :: records' =>
      preference <- item r 1 ;;
      exchange <- item r 0 ;;
      values <- data_MX_values records' ;;
      inr (Mx (PrefStr preference) (exchange ++ ".") :: values)
  end.

Definition _data_for_MX (_type : string) (records : list line) : result data :=
  let t := first_ttl records 2 in
  values <- data_MX_values records ;;
  inr {| ttl := t; type := _type; body := Values values |}.

(** [[f'{r[0]}.' for r in records]]. *)
Fixpoint data_NS_values (records : list line) : result (list string) :=
  match records with
  | [] => inr []
  | r :: records' =>
      host <- item r 0 ;;
      values <- data_NS_values records' ;;
      inr ((host ++ ".")%string :: values)
  end.

Definition _data_for_NS (_type : string) (records : list line) : result data :=
  let t := first_ttl records 1 in
  values <- data_NS_values records ;;
  inr {| ttl := t; type := _type; body := Values (map Str values) |}.

(** The search for a ttl, the same loop in every handler but for the index
    [i] of the field:
<<
    ttl = self.default_ttl
    for line in lines:
        try:
            ttl = int(lines[0][i])
            break
        except IndexError:
            pass
>>
    [todo] is what the loop has still to visit. *)
Fixpoint find_ttl (lines : list line) (i : nat) (todo : list line) (ttl : Z)
  : result Z :=
  match todo with
  | [] => inr ttl
  | _ :: todo' =>
      match first <- item lines 0 ;; item first i with
      | inl _ => find_ttl lines i todo' ttl
      | inr field =>
          match PyLib.int field with
          | Some n => inr n
          | None => inl ValueError
          end
      end
  end.

(** The name of a name server or of a mail exchanger, as [_records_for_dot]
    and [_records_for_at] complete it:
<<
    if '.' not in ns:
        ns = f'{ns}.ns.{zone.name}'
    elif ns[-1] != '.':
        ns = f'{ns}.'
>> *)
Definition complete_host (zone : Zone.t) (ns : string) : string :=
  if negb (contains "." ns) then (ns ++ ".ns." ++ Zone.name zone)%string
  else match last ns with
       | Some "."%char => ns
       | _ => (ns ++ ".")%string
       end.

Fixpoint at_loop (zone : Zone.t) (name : string) (todo : list line)
  (values : list value) : gen :=
  match todo with
  | [] => yield ("MX", name, values) stop
  | line :: todo' =>
      match item line 2 with
      | inl e => raise e
      | inr mx =>
          let mx := complete_host zone mx in
          let dist :=
            match item line 3 with
            | inr d => if truthy d then PrefStr d else PrefInt 0
            | inl _ => PrefInt 0
            end in
          match item line 1 with
          | inl e => raise e
          | inr ip =>
              let rest := at_loop zone name todo' (values ++ [Mx dist mx]) in
              if truthy ip
              then yield ("A", Zone.hostname_from_fqdn zone mx, [Str ip]) rest
              else rest
          end
      end
  end.

Definition _records_for_at (zone : Zone.t) (name : string) (lines : list line)
  (in_addr : bool) : gen :=
  if in_addr then stop
  else match find_ttl lines 4 lines (default_ttl self) with
       | inl e => raise e
       | inr ttl => at_loop zone name lines []
       end.

Definition _records_for_C (zone : Zone.t) (name : string) (lines : list line)
  (in_addr : bool) : gen :=
  if in_addr then stop
  else
    match first <- item lines 0 ;; item first 1 with
    | inl e => raise e
    | inr value =>
        match last value with
        | None => raise IndexError
        | Some c =>
            let value := if Ascii.eqb c "." then value else (value ++ ".")%string in
            match find_ttl lines 2 lines (default_ttl self) with
            | inl e => raise e
            | inr ttl => yield ("CNAME", name, [Str value]) stop
            end
        end
    end.

Definition _records_for_caret (zone : Zone.t) (name : string)
  (lines : list line) (in_addr : bool) : gen :=
  if negb in_addr then stop
  else raise NotImplementedError.

Fixpoint dot_loop (zone : Zone.t) (name : string) (todo : list line)
  (values : list value) : gen :=
  match todo with
  | [] => yield ("NS", name, values) stop
  | line :: todo' =>
      match item line 2 with
      | inl e => raise e
      | inr ns =>
          let ns := complete_host zone ns in
          match item line 1 with
          | inl e => raise e
          | inr ip =>
              let rest := dot_loop zone name todo' (values ++ [Str ns]) in
              if truthy ip
              then yield ("A", Zone.hostname_from_fqdn zone ns, [Str ip]) rest
              else rest
          end
      end
  end.

Definition _records_for_dot (zone : Zone.t) (name : string) (lines : list line)
  (in_addr : bool) : gen :=
  if in_addr then stop
  else match find_ttl lines 3 lines (default_ttl self) with
       | inl e => raise e
       | inr ttl => dot_loop zone name lines []
       end.

Definition _records_for_amp := _records_for_dot.

(** [[l[1] for l in lines if l[1] != '0.0.0.0']]. *)
Fixpoint plus_ips (lines : list line) : result (list string) :=
  match lines with
  | [] => inr []
  | l :: lines' =>
      ip <- item l 1 ;;
      ips <- plus_ips lines' ;;
      inr (if String.eqb ip "0.0.0.0" then ips else ip :: ips)
  end.

Definition _records_for_plus (zone : Zone.t) (name : string)
  (lines : list line) (in_addr : bool) : gen :=
  if in_addr then stop
  else match plus_ips lines with
       | inl e => raise e
       | inr [] => stop
       | inr ips =>
           match find_ttl lines 2 lines (default_ttl self) with
           | inl e => raise e
           | inr ttl => yield ("A", name, map Str ips) stop
           end
       end.

(** [l[1].encode('latin1').decode('unicode-escape').replace(";", "\;")]. *)
Definition quote_value (l : line) : result (list N) :=
  s <- item l 1 ;;
  match PyLib.unicode_escape ucn_getcode s with
  | Some t => inr (PyLib.replace_semicolon t)
  | None => inl UnicodeDecodeError
  end.

Fixpoint quote_values (lines : list line) : result (list (list N)) :=
  match lines with
  | [] => inr []
  | l :: lines' =>
      v <- quote_value l ;;
      vs <- quote_values lines' ;;
      inr (v :: vs)
  end.

Definition _records_for_quote (zone : Zone.t) (name : string)
  (lines : list line) (in_addr : bool) : gen :=
  if in_addr then stop
  else match quote_values lines with
       | inl e => raise e
       | inr values =>
           match find_ttl lines 2 lines (default_ttl self) with
           | inl e => raise e
           | inr ttl => yield ("TXT", name, map Text values) stop
           end
       end.

(** [':'.join(textwrap.wrap(line[1], 4))]. *)
Definition three_ip (l : line) : result string :=
  s <- item l 1 ;;
  inr (join ":" (PyLib.wrap4 wrap_words s)).

Fixpoint three_ips (lines : list line) : result (list string) :=
  match lines with
  | [] => inr []
  | l :: lines' =>
      ip <- three_ip l ;;
      ips <- three_ips lines' ;;
      inr (ip :: ips)
  end.

Definition _records_for_three (zone : Zone.t) (name : string)
  (lines : list line) (in_addr : bool) : gen :=
  if in_addr then stop
  else match three_ips lines with
       | inl e => raise e
       | inr ips =>
           match find_ttl lines 2 lines (default_ttl self) with
           | inl e => raise e
           | inr ttl => yield ("AAAA", name, map Str ips) stop
           end
       end.

Definition _records_for_equal (zone : Zone.t) (name : string)
  (lines : list line) (in_addr : bool) : gen :=
  yield_from (_records_for_plus zone name lines in_addr)
             (_records_for_caret zone name lines in_addr).

Definition _records_for_six (zone : Zone.t) (name : string)
  (lines : list line) (in_addr : bool) : gen :=
  yield_from (_records_for_three zone name lines in_addr)
             (_records_for_caret zone name lines in_addr).

Definition handler : Type := Zone.t -> string -> list line -> bool -> gen.

(** [SYMBOL_MAP.get(symbol, None)]. *)
Definition SYMBOL_MAP (symbol : ascii) : option handler :=
  if Ascii.eqb symbol "=" then Some _records_for_equal
  else if Ascii.eqb symbol "^" then Some _records_for_caret
  else if Ascii.eqb symbol "." then Some _records_for_dot
  else if Ascii.eqb symbol "C" then Some _records_for_C
  else if Ascii.eqb symbol "+" then Some _records_for_plus
  else if Ascii.eqb symbol "@" then Some _records_for_at
  else if Ascii.eqb symbol "&" then Some _records_for_amp
  else if Ascii.eqb symbol "'" then Some _records_for_quote
  else if Ascii.eqb symbol "3" then Some _records_for_three
  else if Ascii.eqb symbol "6" then Some _records_for_six
  else None.

(** [line[1:].split('#', 1)[0]]: the text of a raw line without its symbol
    and without its comment. *)
Definition uncomment (rest : string) : string := before "#" rest.

(** [[p.strip() for p in line.split(':')]] on the text of the line. *)
Definition fields_of (rest : string) : line :=
  map strip (split ":" (uncomment rest)).

Fixpoint _process_lines_from (zone : Zone.t) (lines : list string)
  (data : symbols_t) : result symbols_t :=
  match lines with
  | [] => inr data
  | raw :: lines' =>
      match raw with
      | EmptyString => inl IndexError
      | String symbol rest =>
          let line := fields_of rest in
          name <- item line 0 ;;
          if negb (NameRe.matches (Zone.name zone) name)
          then _process_lines_from zone lines' data
          else
            let name := Zone.hostname_from_fqdn zone name in
            _process_lines_from zone lines'
              (od_update Ascii.eqb symbol
                 (od_update String.eqb name (fun ls => ls ++ [line]) []) [] data)
      end
  end.

Definition _process_lines (zone : Zone.t) (lines : list string)
  : result symbols_t :=
  _process_lines_from zone lines [].

(** [types[_type][name].extend(values)]. *)
Definition extend (types : types_t) (ev : event) : types_t :=
  let '(_type, name, values) := ev in
  od_update String.eqb _type
    (od_update String.eqb name (fun vs => vs ++ values) []) [] types.

(** The loop over [names.items()] for one symbol. *)
Fixpoint names_loop (records_for : handler) (zone : Zone.t)
  (names : odict string (list line)) (types : types_t) : result types_t :=
  match names with
  | [] => inr types
  | (name, lines) :: names' =>
      let g := records_for zone name lines false in
      let types := fold_left extend (fst g) types in
      match snd g with
      | Some e => inl e
      | None => names_loop records_for zone names' types
      end
  end.

(** The loop over [symbols.items()]. *)
Fixpoint symbols_loop (zone : Zone.t) (symbols : symbols_t) (types : types_t)
  : result types_t :=
  match symbols with
  | [] => inr types
  | (symbol, names) :: symbols' =>
      match SYMBOL_MAP symbol with
      | None => symbols_loop zone symbols' types
      | Some records_for =>
          types <- names_loop records_for zone names types ;;
          symbols_loop zone symbols' types
      end
  end.

(** [ttls] is created and returned, and nothing is stored in it. *)
Definition _process_symbols (zone : Zone.t) (symbols : symbols_t)
  : result (types_t * ttls_t) :=
  types <- symbols_loop zone symbols [] ;;
  inr (types, []).

(** [ttls[_type][name]] on the [defaultdict]s, whose innermost factory
    returns [self.default_ttl]. *)
Definition ttls_get (ttls : ttls_t) (_type name : string) : Z :=
  match od_get String.eqb _type ttls with
  | Some names =>
      match od_get String.eqb name names with
      | Some t => t
      | None => default_ttl self
      end
  | None => default_ttl self
  end.

(** The records of a run: name and data of every [Record.new] whose record
    went to [zone.add_record], in that order.  Both calls are the zone
    store's, as are the arguments [lenient] and [target], which only they
    and the log receive. *)
Definition records : Type := trace (string * data).

Fixpoint normal_names (ttls : ttls_t) (_type : string)
  (names : odict string (list value)) (next : records) : records :=
  match names with
  | [] => next
  | (name, values) :: names' =>
      let t := TtlInt (ttls_get ttls _type name) in
      if (1 <? List.length values)%nat
      then yield (name, {| ttl := t; type := _type; body := Values values |})
                 (normal_names ttls _type names' next)
      else match item values 0 with
           | inl e => raise e
           | inr v =>
               yield (name, {| ttl := t; type := _type; body := Value v |})
                     (normal_names ttls _type names' next)
           end
  end.

Fixpoint normal_types (ttls : ttls_t) (types : types_t) : records :=
  match types with
  | [] => stop
  | (_type, names) :: types' =>
      normal_names ttls _type names (normal_types ttls types')
  end.

Definition _populate_normal (zone : Zone.t) (lines : list string) : records :=
  match _process_lines zone lines with
  | inl e => raise e
  | inr symbols =>
      match _process_symbols zone symbols with
      | inl e => raise e
      | inr (types, ttls) => normal_types ttls types
      end
  end.

Fixpoint _populate_in_addr_arpa (zone : Zone.t) (lines : list string)
  : records :=
  match lines with
  | [] => stop
  | raw :: lines' =>
      match raw with
      | EmptyString => raise IndexError
      | String _type rest =>
          if negb (Ascii.eqb _type "=" || Ascii.eqb _type "^"
                   || Ascii.eqb _type "&")
          then _populate_in_addr_arpa zone lines'
          else
            let text := uncomment rest in
            match split_re self with
            | None => raise AttributeError
            | Some re_split =>
                let line := map strip (re_split text) in
                match
                  (field0 <- item line 0 ;;
                   if endswith field0 "in-addr.arpa"
                   then
                     value <- item line 1 ;;
                     inr (NameRe.in_addr_match (Zone.name zone) field0, value)
                   else
                     field1 <- item line 1 ;;
                     match PyLib.reverse_pointer ipv6_reverse_pointer field1 with
                     | None => inl ValueError
                     | Some pointer =>
                         inr (NameRe.in_addr_match (Zone.name zone) pointer,
                              field0)
                     end)
                with
                | inl e => raise e
                | inr (None, _) => _populate_in_addr_arpa zone lines'
                | inr (Some name, value) =>
                    let t := match item line 2 with
                             | inr field2 => TtlStr field2
                             | inl _ => TtlInt (default_ttl self)
                             end in
                    match last value with
                    | None => raise IndexError
                    | Some c =>
                        let value :=
                          if Ascii.eqb c "." then value
                          else (value ++ ".")%string in
                        yield (name, {| ttl := t; type := "PTR";
                                        body := Value (Str value) |})
                              (_populate_in_addr_arpa zone lines')
                    end
                end
            end
      end
  end.

(** [populate], on the lines [self._lines()] returns. *)
Definition populate_lines (zone : Zone.t) (lines : list string) : records :=
  if endswith (Zone.name zone) "in-addr.arpa."
  then _populate_in_addr_arpa zone lines
  else _populate_normal zone lines.

Definition populate (zone : Zone.t) (directory : list (string * string))
  : records :=
  populate_lines zone (_lines directory).

End TinyDnsBaseSource.

(** ** A zone object for the examples *)

(** Modelled from the spec: [Zone.hostname_from_fqdn] of [octodns.zone], which
    this module calls and does not define.  It is "a function to strip the zone
    suffix from a fully-qualified name yielding a zone-relative name": the
    name without the zone's name at its end and without the dot before it, the
    last dot of the name being optional; a name of another zone is returned as
    it is. *)
Definition strip_zone_suffix (zone_name fqdn : string) : string :=
  let z := PyStr.rev (PyStr.drop_last zone_name) in
  let f := PyStr.rev fqdn in
  let f := match f with String "." f' => f' | _ => f end in
  if prefix z f then
    match substring (String.length z) (String.length f) f with
    | EmptyString => EmptyString
    | String "." host => PyStr.rev host
    | _ => fqdn
    end
  else fqdn.

Definition zone_named (zone_name : string) : Zone.t :=
  {| Zone.name := zone_name;
     Zone.hostname_from_fqdn := strip_zone_suffix zone_name |}.

(** Stand-ins for the open parts of the Python library in the examples: no
    character name is known, a text that is not one word is not wrapped, and
    nothing is an IPv6 literal. *)
Definition no_ucn : string -> option N := fun _ => None.
Definition no_wrap : string -> list string := fun text => [text].
Definition no_ipv6 : string -> option string := fun _ => None.

(** ** Vocabulary of the statements *)

(** The field [i] of the first line of a group is absent or is an integer for
    [int]: the search for a ttl ends without an exception. *)
Definition ttl_readable (i : nat) (lines : list line) : bool :=
  match lines with
  | [] => true
  | first :: _ =>
      match nth_error first i with
      | None => true
      | Some field =>
          match PyLib.int field with Some _ => true | None => false end
      end
  end.

(** The addresses of the lines of a group that have one. *)
Definition addresses (lines : list line) : list string :=
  flat_map (fun l : line => match nth_error l 1 with Some ip => [ip] | None => [] end)
           lines.

Definition placeholder (ip : string) : bool := String.eqb ip "0.0.0.0".

(** The distance of an MX line: [line[3] or 0], and 0 for a line without the
    field. *)
Definition distance (l : line) : preference :=
  match nth_error l 3 with
  | Some d => if PyStr.truthy d then PrefStr d else PrefInt 0
  | None => PrefInt 0
  end.

(** A compressed IPv6 address: 32 hexadecimal digits. *)
Definition hex32 (s : string) : bool :=
  (String.length s =? 32)%nat && forallb PyLib.is_hex (list_ascii_of_string s).

(** The eight groups of four characters of a text of 32 characters. *)
Definition groups8 (s : string) : list string :=
  [substring 0 4 s; substring 4 4 s; substring 8 4 s; substring 12 4 s;
   substring 16 4 s; substring 20 4 s; substring 24 4 s; substring 28 4 s].

(** Two colons stand side by side in the text. *)
Fixpoint has_double_colon (s : string) : bool :=
  match s with
  | EmptyString => false
  | String a s' =>
      match s' with
      | EmptyString => false
      | String b _ => (Ascii.eqb a ":" && Ascii.eqb b ":") || has_double_colon s'
      end
  end.

(** The characters of DNS names as zone files write them: letters, digits,
    [-], [_] and [.]. *)
Definition dns_char (c : ascii) : bool :=
  let n := PyStr.code c in
  ((48 <=? n) && (n <=? 57) || (65 <=? n) && (n <=? 90)
   || (97 <=? n) && (n <=? 122) || (n =? 45) || (n =? 95) || (n =? 46))%N.

Definition dns_name (s : string) : bool :=
  forallb dns_char (list_ascii_of_string s).

(** No semicolon of a text stands without a backslash right before it. *)
Fixpoint semicolons_escaped (after_backslash : bool) (t : list N) : bool :=
  match t with
  | [] => true
  | ch :: t' =>
      (if (ch =? 59)%N then after_backslash else true)
      && semicolons_escaped (ch =? 92)%N t'
  end.

(** A raw line carries one of the symbols the reverse-zone path reads. *)
Definition address_bearing (raw : string) : bool :=
  match raw with
  | EmptyString => false
  | String c _ => Ascii.eqb c "=" || Ascii.eqb c "^" || Ascii.eqb c "&"
  end.

(** Two levels of dictionaries in insertion order, the inner one keyed by
    names and holding lists: the shape of [data] in [_process_lines] and of
    [types] in [_process_symbols]. *)
Section Odict2.
Context {K V : Type} (eqb : K -> K -> bool).

(** [d[k][name]] when both keys are there. *)
Definition lookup2 (d : odict K (odict string (list V))) (k : K) (name : string)
  : option (list V) :=
  match od_get eqb k d with
  | Some names => od_get String.eqb name names
  | None => None
  end.

(** [d[k][name].extend(vs)]. *)
Definition append2 (k : K) (name : string) (vs : list V)
  (d : odict K (odict string (list V))) : odict K (odict string (list V)) :=
  od_update eqb k (od_update String.eqb name (fun l => l ++ vs) []) [] d.

Definition found (o : option (list V)) : list V :=
  match o with Some l => l | None => [] end.

(** Every list of [d] is still in [d'], possibly with more at its end. *)
Definition grows (d d' : odict K (odict string (list V))) : Prop :=
  forall k name l,
    lookup2 d k name = Some l -> exists more, lookup2 d' k name = Some (l ++ more).

(** No key twice, at either level. *)
Definition keys_once (d : odict K (odict string (list V))) : Prop :=
  NoDup (map fst d) /\ Forall (fun kv => NoDup (map fst (snd kv))) d.

(** The lists of [d] with their two keys, in the order of iteration. *)
Definition entries (d : odict K (odict string (list V))) : list (K * string * list V) :=
  flat_map (fun kv => map (fun nv => (fst kv, fst nv, snd nv)) (snd kv)) d.

End Odict2.

(** The record [_populate_normal] makes of the values gathered under a type
    and a name: one value alone goes under [value], the others under
    [values], and the ttl is the default of the source. *)
Definition record_of (self : source) (e : string * string * list value)
  : string * data :=
  (snd (fst e),
   {| ttl := TtlInt (default_ttl self);
      type := fst (fst e);
      body := match snd e with
              | [v] => Value v
              | vs => Values vs
              end |}).

(** What [_process_lines] keeps of a raw line: its symbol, its owner name
    relative to the zone and its fields; nothing of a line whose name the
    pattern of the zone rejects. *)
Definition kept_line (zone : Zone.t) (raw : string)
  : option (ascii * string * line) :=
  match raw with
  | EmptyString => None
  | String symbol rest =>
      match fields_of rest with
      | [] => None
      | name :: _ =>
          if NameRe.matches (Zone.name zone) name
          then Some (symbol, Zone.hostname_from_fqdn zone name, fields_of rest)
          else None
      end
  end.

(** The kept lines of a symbol and an owner name, in the order of the file. *)
Definition group_of (zone : Zone.t) (lines : list string) (symbol : ascii)
  (name : string) : list line :=
  flat_map
    (fun raw =>
       match kept_line zone raw with
       | Some (s, n, l) =>
           if Ascii.eqb s symbol && String.eqb n name then [l] else []
       | None => []
       end)
    lines.

(** Every list of a two-level dictionary holds something. *)
Definition no_empty_list {K V : Type} (eqb : K -> K -> bool)
  (d : odict K (odict string (list V))) : Prop :=
  forall k name l, lookup2 eqb d k name = Some l -> l <> [].

(** No list of a two-level dictionary is empty, entry by entry. *)
Definition all_full {K V : Type} (d : odict K (odict string (list V))) : Prop :=
  Forall (fun kv => Forall (fun nv : string * list V => snd nv <> []) (snd kv)) d.


(** Every event of a generator carries at least one value. *)
Definition full_events (g : gen) : Prop :=
  Forall (fun ev : event => snd ev <> []) (fst g).


(** The A event an NS or MX line gives for its host when it carries an
    address: the completed host name relative to the zone, with the address. *)
Definition address_events (zone : Zone.t) (l : line) : list event :=
  match nth_error l 1, nth_error l 2 with
  | Some ip, Some host =>
      if PyStr.truthy ip
      then [("A", Zone.hostname_from_fqdn zone (complete_host zone host), [Str ip])]
      else []
  | _, _ => []
  end.

(** The NS value and the MX value of a line. *)
Definition ns_value (zone : Zone.t) (l : line) : list value :=
  match nth_error l 2 with
  | Some host => [Str (complete_host zone host)]
  | None => []
  end.

Definition mx_value (zone : Zone.t) (l : line) : list value :=
  match nth_error l 2 with
  | Some host => [Mx (distance l) (complete_host zone host)]
  | None => []
  end.

(** The text without the occurrences of a character. *)
Fixpoint without (c : ascii) (s : string) : string :=
  match s with
  | EmptyString => EmptyString
  | String a s' => if Ascii.eqb a c then without c s' else String a (without c s')
  end.

(** A file name that starts with a dot. *)
Definition hidden (filename : string) : bool :=
  match filename with
  | String "." _ => true
  | _ => false
  end.

(** The values of the dictionary of a record, as a list. *)
Definition values_of (d : data) : list value :=
  match body d with
  | Values vs => vs
  | Value v => [v]
  end.

(** The values the events of a list carry for a type and a name, in the
    order of the events. *)
Definition values_for (_type name : string) (evs : list event) : list value :=
  flat_map
    (fun ev : event =>
       if String.eqb (fst (fst ev)) _type && String.eqb (snd (fst ev)) name
       then snd ev else [])
    evs.

(** The events of the handlers over a dictionary of grouped lines, in the
    order in which [_process_symbols] runs them. *)
Definition events_of (map_symbol : ascii -> option (Zone.t -> string -> list line -> bool -> gen))
  (zone : Zone.t) (symbols : symbols_t) : list event :=
  flat_map
    (fun entry : ascii * odict string (list line) =>
       match map_symbol (fst entry) with
       | Some records_for =>
           flat_map (fun nl : string * list line =>
                       fst (records_for zone (fst nl) (snd nl) false))
                    (snd entry)
       | None => []
       end)
    symbols.

(** ** Properties *)

Section Properties.
Variable ucn_getcode : string -> option N.
Variable wrap_words : string -> list string.
Variable ipv6_reverse_pointer : string -> option string.

(** *** The search for a ttl *)

Lemma find_ttl_absent lines i first rest todo d :
  lines = first :: rest -> nth_error first i = None ->
  find_ttl lines i todo d = inr d.
Proof.
  intros -> Hnone. induction todo as [|l todo IH]; simpl.
  - reflexivity.
  - unfold item. simpl. rewrite Hnone. simpl. exact IH.
Qed.

Lemma find_ttl_first lines i d :
  find_ttl lines i lines d =
  match lines with
  | [] => inr d
  | first :: _ =>
      match nth_error first i with
      | None => inr d
      | Some field =>
          match PyLib.int field with
          | Some n => inr n
          | None => inl ValueError
          end
      end
  end.
Proof.
  destruct lines as [|first rest]; [reflexivity|].
  destruct (nth_error first i) as [field|] eqn:Hi.
  - simpl. unfold item. simpl. rewrite Hi. simpl. reflexivity.
  - now apply find_ttl_absent with (first := first) (rest := rest).
Qed.

Lemma find_ttl_readable lines i d :
  ttl_readable i lines = true -> exists n, find_ttl lines i lines d = inr n.
Proof.
  rewrite find_ttl_first. unfold ttl_readable.
  destruct lines as [|first rest]; [now exists d|].
  destruct (nth_error first i) as [field|]; [|now exists d].
  destruct (PyLib.int field) as [n|]; [now exists n|discriminate].
Qed.

Lemma find_ttl_unreadable lines i d :
  ttl_readable i lines = false -> find_ttl lines i lines d = inl ValueError.
Proof.
  rewrite find_ttl_first. unfold ttl_readable.
  destruct lines as [|first rest]; [discriminate|].
  destruct (nth_error first i) as [field|]; [|discriminate].
  destruct (PyLib.int field) as [n|]; [discriminate|reflexivity].
Qed.

(** *** The ttl of the records *)

Lemma ttls_get_empty self _type name :
  ttls_get self [] _type name = default_ttl self.
Proof. reflexivity. Qed.

Lemma normal_names_ttl self _type names next :
  Forall (fun r => ttl (snd r) = TtlInt (default_ttl self)) (fst next) ->
  Forall (fun r => ttl (snd r) = TtlInt (default_ttl self))
         (fst (normal_names self [] _type names next)).
Proof.
  intros Hnext. induction names as [|[name values] names IH]; simpl; [exact Hnext|].
  destruct (1 <? List.length values)%nat.
  - simpl. constructor; [reflexivity|exact IH].
  - destruct (item values 0) as [e|v]; simpl; [constructor|].
    constructor; [reflexivity|exact IH].
Qed.

Lemma normal_types_ttl self types :
  Forall (fun r => ttl (snd r) = TtlInt (default_ttl self))
         (fst (normal_types self [] types)).
Proof.
  induction types as [|[_type names] types IH]; simpl; [constructor|].
  now apply normal_names_ttl.
Qed.

Lemma process_symbols_ttls self zone symbols types ttls :
  _process_symbols ucn_getcode wrap_words self zone symbols = inr (types, ttls) ->
  ttls = [].
Proof.
  unfold _process_symbols, bind.
  destruct (symbols_loop _ _ _ _ _ _) as [e|t]; [discriminate|].
  now intros [= _ <-].
Qed.

Lemma populate_normal_ttl self zone lines :
  Forall (fun r => ttl (snd r) = TtlInt (default_ttl self))
         (fst (_populate_normal ucn_getcode wrap_words self zone lines)).
Proof.
  unfold _populate_normal.
  destruct (_process_lines zone lines) as [e|symbols]; [constructor|].
  destruct (_process_symbols _ _ _ _ _) as [e|[types ttls]] eqn:Hs; [constructor|].
  apply process_symbols_ttls in Hs. subst ttls. apply normal_types_ttl.
Qed.

(** C1.  The ttl a line carries never reaches its record.  Every record of
    the forward path has the default ttl of the source, whatever the lines
    say: the handlers compute a ttl and do not yield it, and no entry is
    ever stored in [ttls].  In the zone [example.com.] with the default
    3600, the line [+www.example.com:1.2.3.4:300] gives an A record with the
    ttl 3600 where the rule of the claim gives 300. *)
Theorem C1_ttl_of_line_is_dropped :
  (forall self zone lines,
      Forall (fun r => ttl (snd r) = TtlInt (default_ttl self))
             (fst (_populate_normal ucn_getcode wrap_words self zone lines)))
  /\ _populate_normal ucn_getcode wrap_words (TinyDnsFileSource 3600)
       (zone_named "example.com.") ["+www.example.com:1.2.3.4:300"]
     = ([("www", {| ttl := TtlInt 3600; type := "A";
                    body := Value (Str "1.2.3.4") |})], None).
Proof.
  split.
  - intros. apply populate_normal_ttl.
  - vm_compute. reflexivity.
Qed.

#[local] Arguments nth_error : simpl never.

(** *** The handler of [^] *)

(** C3, as the code has it.  Called the way the dispatch of
    [_process_symbols] calls every handler, with [in_addr] false, the handler
    of [^] yields nothing and raises nothing, so that the lines of the symbol
    are passed over like those of a symbol without handler; it raises
    [NotImplementedError] when it is called with [in_addr] true. *)
Theorem C3_caret_skipped_by_dispatch :
  forall self zone name lines names types,
    SYMBOL_MAP ucn_getcode wrap_words self "^" = Some _records_for_caret
    /\ _records_for_caret zone name lines false = stop
    /\ names_loop _records_for_caret zone names types = inr types
    /\ symbols_loop ucn_getcode wrap_words self zone [("^"%char, names)] types
       = inr types
    /\ _records_for_caret zone name lines true = raise NotImplementedError.
Proof.
  intros self zone name lines names types.
  assert (Hnames : forall ns, names_loop _records_for_caret zone ns types = inr types).
  { induction ns as [|[n ls] ns IH]; simpl; [reflexivity|exact IH]. }
  repeat split; try reflexivity.
  - apply Hnames.
  - simpl. rewrite Hnames. reflexivity.
Qed.

(** *** The handler of [+] *)

Lemma plus_ips_addresses lines ips :
  plus_ips lines = inr ips ->
  ips = filter (fun ip => negb (placeholder ip)) (addresses lines).
Proof.
  revert ips. induction lines as [|l lines IH]; simpl; intros ips H.
  - now injection H as <-.
  - unfold item, addresses in *. simpl.
    destruct (nth_error l 1) as [ip|]; simpl in *; [|discriminate].
    destruct (plus_ips lines) as [e|ips']; simpl in *; [discriminate|].
    specialize (IH ips' eq_refl). injection H as <-. rewrite <- IH.
    unfold placeholder. now destruct (String.eqb ip "0.0.0.0").
Qed.

Lemma plus_ips_total lines :
  Forall (fun l : line => nth_error l 1 <> None) lines ->
  plus_ips lines = inr (filter (fun ip => negb (placeholder ip)) (addresses lines)).
Proof.
  intros Hall.
  assert (exists ips, plus_ips lines = inr ips) as [ips Hips].
  { induction Hall as [|l lines Hl _ [ips IH]]; simpl; [now eexists|].
    unfold item. destruct (nth_error l 1) as [ip|]; [|contradiction].
    simpl. rewrite IH. simpl. now eexists. }
  rewrite Hips. f_equal. now apply plus_ips_addresses.
Qed.

Lemma filter_not_placeholder ips :
  ~ In (Str "0.0.0.0") (map Str (filter (fun ip => negb (placeholder ip)) ips)).
Proof.
  intros Hin. apply in_map_iff in Hin as [ip [Heq Hin]].
  injection Heq as ->. apply filter_In in Hin as [_ Hin]. discriminate.
Qed.

(** C4.  Whatever the group, an event the handler of [+] yields is the A
    event of the owner name with the addresses of the lines in their order,
    those equal to [0.0.0.0] left out.  A group whose lines all carry
    [0.0.0.0] yields no event and raises nothing.  A group whose lines all
    have an address, one of them not [0.0.0.0], and whose ttl field is absent
    or an integer yields that one event. *)
Theorem C4_placeholder_addresses_dropped :
  forall self zone name lines in_addr,
    let kept := filter (fun ip => negb (placeholder ip)) (addresses lines) in
    let g := _records_for_plus self zone name lines in_addr in
    Forall (fun ev : event =>
              ev = ("A", name, map Str kept) /\ ~ In (Str "0.0.0.0") (snd ev))
           (fst g)
    /\ (Forall (fun l : line => nth_error l 1 = Some "0.0.0.0") lines -> g = stop)
    /\ (in_addr = false ->
        Forall (fun l : line => nth_error l 1 <> None) lines ->
        kept <> [] ->
        ttl_readable 2 lines = true ->
        g = ([("A", name, map Str kept)], None)).
Proof.
  intros self zone name lines in_addr kept g. subst g.
  unfold _records_for_plus. repeat split.
  - destruct in_addr; [constructor|].
    destruct (plus_ips lines) as [e|ips] eqn:Hips; [constructor|].
    apply plus_ips_addresses in Hips. fold kept in Hips. subst ips.
    destruct kept as [|ip kept'] eqn:Hk; [constructor|].
    destruct (find_ttl _ _ _ _); simpl; constructor; [|constructor].
    split; [reflexivity|]. change (~ In (Str "0.0.0.0") (map Str (ip :: kept'))).
    rewrite <- Hk. apply filter_not_placeholder.
  - intros Hall. destruct in_addr; [reflexivity|].
    rewrite plus_ips_total.
    + replace (filter _ (addresses lines)) with (@nil string); [reflexivity|].
      symmetry. induction Hall as [|l ls Hl _ IH]; [reflexivity|].
      unfold addresses in *. simpl. rewrite Hl. simpl. exact IH.
    + eapply Forall_impl; [|exact Hall]. simpl. intros l ->. discriminate.
  - intros -> Hall Hkept Httl. rewrite (plus_ips_total _ Hall). fold kept.
    destruct kept as [|ip kept']; [contradiction|].
    destruct (find_ttl_readable lines 2 (default_ttl self) Httl) as [n ->].
    reflexivity.
Qed.

(** *** The reverse-zone path *)

Lemma lines_not_empty directory :
  Forall (fun raw => raw <> EmptyString) (_lines directory).
Proof.
  apply Forall_forall. intros raw Hin. unfold _lines in Hin.
  apply in_flat_map in Hin as [[fname text] [_ Hin]]. simpl in Hin.
  assert (In raw (filter PyStr.truthy (PyStr.split PyStr.LF text)) -> raw <> "") as Hf.
  { intros H. apply filter_In in H as [_ H]. now destruct raw. }
  destruct fname as [|c fname]; [now apply Hf|].
  destruct (Ascii.ascii_dec c ".") as [->|Hc]; [contradiction|].
  apply Hf. destruct c as [[] [] [] [] [] [] [] []]; try exact Hin.
  now contradiction Hc.
Qed.

Lemma in_addr_without_split_re d zone lines :
  Forall (fun raw => raw <> EmptyString) lines ->
  _populate_in_addr_arpa ipv6_reverse_pointer (TinyDnsFileSource d) zone lines
  = if existsb address_bearing lines then raise AttributeError else stop.
Proof.
  induction 1 as [|raw lines Hraw _ IH]; simpl; [reflexivity|].
  destruct raw as [|c rest]; [contradiction|]. simpl.
  destruct (Ascii.eqb c "=" || Ascii.eqb c "^" || Ascii.eqb c "&"); simpl.
  - reflexivity.
  - exact IH.
Qed.

(** C10.  A source built by the constructors of the module has no attribute
    [split_re].  On the lines of a directory the reverse-zone path therefore
    ends with [AttributeError] as soon as one line starts with [=], [^] or
    [&], and passes over every line otherwise; it never produces a record.
    [populate] takes this path for every zone whose name ends in
    [in-addr.arpa.]. *)
Theorem C10_reverse_path_attribute_error :
  forall d zone directory,
    let run := _populate_in_addr_arpa ipv6_reverse_pointer (TinyDnsFileSource d)
                 zone (_lines directory) in
    split_re (TinyDnsFileSource d) = None
    /\ run = (if existsb address_bearing (_lines directory)
              then raise AttributeError else stop)
    /\ fst run = []
    /\ (PyStr.endswith (Zone.name zone) "in-addr.arpa." = true ->
        populate ucn_getcode wrap_words ipv6_reverse_pointer
          (TinyDnsFileSource d) zone directory = run).
Proof.
  intros d zone directory run. subst run.
  rewrite (in_addr_without_split_re d zone _ (lines_not_empty directory)).
  repeat split.
  - now destruct (existsb address_bearing (_lines directory)).
  - intros Hrev. unfold populate, populate_lines. rewrite Hrev.
    apply in_addr_without_split_re, lines_not_empty.
Qed.

(** C2.  In the zone [2.0.192.in-addr.arpa.] the line
    [=host.example.com:192.0.2.5] ends the run with [AttributeError] at
    [self.split_re], before any record: the PTR record of the claim is not
    produced.  With the tokenizer of [_process_lines] (a split on the colon)
    in the place of the missing attribute, the same line gives the PTR
    record of owner name [5] and value [host.example.com.]. *)
Theorem C2_reverse_ptr_not_produced :
  populate ucn_getcode wrap_words ipv6_reverse_pointer (TinyDnsFileSource 3600)
    (zone_named "2.0.192.in-addr.arpa.") [("zone", "=host.example.com:192.0.2.5")]
  = ([], Some AttributeError)
  /\ populate ucn_getcode wrap_words ipv6_reverse_pointer
       {| default_ttl := 3600; split_re := Some (PyStr.split ":") |}
       (zone_named "2.0.192.in-addr.arpa.")
       [("zone", "=host.example.com:192.0.2.5")]
     = ([("5", {| ttl := TtlInt 3600; type := "PTR";
                  body := Value (Str "host.example.com.") |})], None).
Proof.
  split; vm_compute; reflexivity.
Qed.

(** *** The names of name servers and mail exchangers *)

Lemma last_app_dot p : PyStr.last (p ++ ".") = Some "."%char.
Proof.
  induction p as [|a p IH]; [reflexivity|].
  simpl. rewrite IH. now destruct (p ++ ".")%string eqn:E; [destruct p; discriminate|].
Qed.

Lemma contains_app_dot p : PyStr.contains "." (p ++ ".") = true.
Proof.
  induction p as [|a p IH]; [reflexivity|].
  simpl. rewrite IH. apply orb_true_r.
Qed.

Lemma last_dot_split h :
  PyStr.last h = Some "."%char -> exists p, h = (p ++ ".")%string.
Proof.
  induction h as [|a h IH]; [discriminate|].
  simpl. destruct h as [|b h'].
  - intros [= ->]. now exists EmptyString.
  - intros H. destruct (IH H) as [p Hp]. exists (String a p). simpl. now rewrite <- Hp.
Qed.

Lemma complete_host_short zone h :
  PyStr.contains "." h = false ->
  complete_host zone h = (h ++ ".ns." ++ Zone.name zone)%string.
Proof. intros H. unfold complete_host. now rewrite H. Qed.

Lemma complete_host_dotless_end zone h :
  PyStr.contains "." h = true -> (forall p, h <> (p ++ ".")%string) ->
  complete_host zone h = (h ++ ".")%string.
Proof.
  intros H Hend. unfold complete_host. rewrite H. simpl.
  destruct (PyStr.last h) as [c|] eqn:Hl; [|reflexivity].
  destruct (Ascii.ascii_dec c ".") as [->|Hc].
  - destruct (last_dot_split h Hl) as [p Hp]. now elim (Hend p).
  - destruct c as [[] [] [] [] [] [] [] []]; try reflexivity. now elim Hc.
Qed.

Lemma complete_host_dotted zone p :
  complete_host zone (p ++ ".") = (p ++ ".")%string.
Proof.
  unfold complete_host. now rewrite contains_app_dot, last_app_dot.
Qed.

Lemma dot_loop_values zone name lines hosts values :
  Forall2 (fun (l : line) h => nth_error l 2 = Some h) lines hosts ->
  exists aux,
    dot_loop zone name lines values
    = (aux ++ [("NS", name,
                values ++ map (fun h => Str (complete_host zone h)) hosts)], None)
    /\ Forall (fun ev : event => fst (fst ev) = "A") aux.
Proof.
  intros H. revert values.
  induction H as [|l h lines hosts Hl _ IH]; intros values; simpl.
  - exists []. rewrite app_nil_r. now split.
  - unfold item. rewrite Hl.
    destruct (nth_error l 1) as [ip|] eqn:Hip.
    2:{ destruct l as [|? [|? ?]]; discriminate. }
    destruct (IH (values ++ [Str (complete_host zone h)])) as [aux [Heq Haux]].
    rewrite Heq, <- app_assoc. simpl.
    destruct (PyStr.truthy ip).
    + eexists (_ :: aux). split; [reflexivity|]. constructor; [reflexivity|exact Haux].
    + exists aux. now split.
Qed.

Lemma distance_item (l : line) :
  match item l 3 with
  | inr d => if PyStr.truthy d then PrefStr d else PrefInt 0
  | inl _ => PrefInt 0
  end = distance l.
Proof. unfold item, distance. now destruct (nth_error l 3). Qed.

Lemma at_loop_values zone name lines hosts values :
  Forall2 (fun (l : line) h => nth_error l 2 = Some h) lines hosts ->
  exists aux,
    at_loop zone name lines values
    = (aux ++ [("MX", name,
                values ++ map (fun lh : line * string =>
                                 Mx (distance (fst lh)) (complete_host zone (snd lh)))
                              (combine lines hosts))], None)
    /\ Forall (fun ev : event => fst (fst ev) = "A") aux.
Proof.
  intros H. revert values.
  induction H as [|l h lines hosts Hl _ IH]; intros values; simpl.
  - exists []. rewrite app_nil_r. now split.
  - rewrite distance_item. unfold item. rewrite Hl.
    destruct (nth_error l 1) as [ip|] eqn:Hip.
    2:{ destruct l as [|? [|? ?]]; discriminate. }
    destruct (IH (values ++ [Mx (distance l) (complete_host zone h)])) as [aux [Heq Haux]].
    rewrite Heq, <- app_assoc. simpl.
    destruct (PyStr.truthy ip).
    + eexists (_ :: aux). split; [reflexivity|]. constructor; [reflexivity|exact Haux].
    + exists aux. now split.
Qed.

(** C6.  The host field of a [.], [&] or [@] line is the field of index 2.
    A field without dot becomes [<field>.ns.<zone name>]; a field with a dot
    that does not end in a dot gets one dot at its end; a field that ends in
    a dot stays as it is.  The NS event of a group (for [.] and for [&],
    which share their handler) has these names as its values, and the MX
    event has them as the exchanges of its values, one per line and in the
    order of the lines, when every line has the field and the ttl field of
    the first line is absent or an integer.  The other events of the group
    are the A events for the lines that carry an address. *)
Theorem C6_host_completion :
  forall self zone name lines hosts,
    Forall2 (fun (l : line) h => nth_error l 2 = Some h) lines hosts ->
    (forall h,
        (PyStr.contains "." h = false ->
         complete_host zone h = (h ++ ".ns." ++ Zone.name zone)%string)
        /\ (PyStr.contains "." h = true -> (forall p, h <> (p ++ ".")%string) ->
            complete_host zone h = (h ++ ".")%string)
        /\ (forall p, h = (p ++ ".")%string -> complete_host zone h = h))
    /\ SYMBOL_MAP ucn_getcode wrap_words self "." = Some (_records_for_dot self)
    /\ SYMBOL_MAP ucn_getcode wrap_words self "&" = Some (_records_for_dot self)
    /\ SYMBOL_MAP ucn_getcode wrap_words self "@" = Some (_records_for_at self)
    /\ (ttl_readable 3 lines = true ->
        exists aux,
          _records_for_dot self zone name lines false
          = (aux ++ [("NS", name, map (fun h => Str (complete_host zone h)) hosts)],
             None)
          /\ Forall (fun ev : event => fst (fst ev) = "A") aux)
    /\ (ttl_readable 4 lines = true ->
        exists aux,
          _records_for_at self zone name lines false
          = (aux ++ [("MX", name,
                      map (fun lh : line * string =>
                             Mx (distance (fst lh)) (complete_host zone (snd lh)))
                          (combine lines hosts))], None)
          /\ Forall (fun ev : event => fst (fst ev) = "A") aux).
Proof.
  intros self zone name lines hosts Hhosts. repeat split.
  - apply complete_host_short.
  - apply complete_host_dotless_end.
  - intros p ->. apply complete_host_dotted.
  - intros Httl. unfold _records_for_dot.
    destruct (find_ttl_readable lines 3 (default_ttl self) Httl) as [n ->].
    apply (dot_loop_values zone name lines hosts [] Hhosts).
  - intros Httl. unfold _records_for_at.
    destruct (find_ttl_readable lines 4 (default_ttl self) Httl) as [n ->].
    apply (at_loop_values zone name lines hosts [] Hhosts).
Qed.

(** *** The AAAA values *)

Lemma hex_word_char c :
  PyLib.is_hex c = true -> PyStr.isspace c || Ascii.eqb c "-" = false.
Proof.
  destruct c as [[] [] [] [] [] [] [] []]; vm_compute; intros H;
    try reflexivity; discriminate H.
Qed.

Lemma hex_not_colon c : PyLib.is_hex c = true -> Ascii.eqb c ":" = false.
Proof.
  destruct c as [[] [] [] [] [] [] [] []]; vm_compute; intros H;
    try reflexivity; discriminate H.
Qed.

Lemma hex_one_word s :
  forallb PyLib.is_hex (list_ascii_of_string s) = true -> PyLib.one_word s = true.
Proof.
  unfold PyLib.one_word. intros H. apply negb_true_iff.
  induction s as [|c s IH]; [reflexivity|].
  simpl in *. apply andb_prop in H as [Hc Hs].
  now rewrite (hex_word_char c Hc), IH.
Qed.

Lemma wrap4_hex32 s :
  hex32 s = true ->
  PyLib.wrap4 wrap_words s = groups8 s
  /\ has_double_colon (PyStr.join ":" (groups8 s)) = false
  /\ String.length (PyStr.join ":" (groups8 s)) = 39%nat.
Proof.
  unfold hex32. intros H. apply andb_prop in H as [Hlen Hhex].
  apply Nat.eqb_eq in Hlen. pose proof (hex_one_word s Hhex) as Hword.
  unfold PyLib.wrap4. rewrite Hword. clear Hword.
  do 32 (destruct s as [|? s]; [discriminate Hlen|]).
  destruct s; [|discriminate Hlen]. clear Hlen.
  cbn [list_ascii_of_string forallb] in Hhex.
  repeat (apply andb_prop in Hhex as [? Hhex]).
  repeat split.
  cbn -[Ascii.eqb].
  repeat match goal with
         | Hc : PyLib.is_hex ?c = true |- _ =>
             rewrite (hex_not_colon c Hc); clear Hc
         end.
  reflexivity.
Qed.

Lemma three_ips_hex32 lines addrs :
  Forall2 (fun (l : line) s => nth_error l 1 = Some s /\ hex32 s = true)
          lines addrs ->
  three_ips wrap_words lines = inr (map (fun s => PyStr.join ":" (groups8 s)) addrs).
Proof.
  induction 1 as [|l s lines addrs [Hl Hs] _ IH]; [reflexivity|].
  simpl. unfold three_ip, item. rewrite Hl. simpl.
  destruct (wrap4_hex32 s Hs) as [-> _]. rewrite IH. reflexivity.
Qed.

(** C7.  For a group of [3] lines, or of [6] lines, whose address fields
    are 32 hexadecimal digits each (and whose ttl field, on the first line,
    is absent or an integer), the handler yields one AAAA event whose values
    are, line by line, the eight groups of four digits of the field joined
    by colons: 39 characters, no two colons side by side.  The field
    [20010db8000000000000000000000001] gives
    [2001:0db8:0000:0000:0000:0000:0000:0001]. *)
Theorem C7_ipv6_colon_groups :
  forall self zone name lines addrs,
    Forall2 (fun (l : line) s => nth_error l 1 = Some s /\ hex32 s = true)
            lines addrs ->
    ttl_readable 2 lines = true ->
    let values := map (fun s => Str (PyStr.join ":" (groups8 s))) addrs in
    _records_for_three wrap_words self zone name lines false
    = ([("AAAA", name, values)], None)
    /\ _records_for_six wrap_words self zone name lines false
       = ([("AAAA", name, values)], None)
    /\ Forall (fun s => has_double_colon (PyStr.join ":" (groups8 s)) = false
                        /\ String.length (PyStr.join ":" (groups8 s)) = 39%nat)
              addrs
    /\ PyStr.join ":" (groups8 "20010db8000000000000000000000001")
       = "2001:0db8:0000:0000:0000:0000:0000:0001".
Proof.
  intros self zone name lines addrs Haddrs Httl values.
  assert (Hthree : _records_for_three wrap_words self zone name lines false
                   = ([("AAAA", name, values)], None)).
  { unfold _records_for_three. rewrite (three_ips_hex32 lines addrs Haddrs).
    destruct (find_ttl_readable lines 2 (default_ttl self) Httl) as [n ->].
    unfold values. now rewrite map_map. }
  repeat split.
  - exact Hthree.
  - unfold _records_for_six. now rewrite Hthree.
  - clear Hthree Httl. induction Haddrs as [|l s lines addrs [_ Hs] _ IH];
      constructor; [|exact IH].
    now destruct (wrap4_hex32 s Hs) as [_ [? ?]].
Qed.

(** *** The TXT values *)

Lemma replace_semicolon_escaped t :
  forall b, semicolons_escaped b (PyLib.replace_semicolon t) = true.
Proof.
  induction t as [|ch t IH]; intros b; [reflexivity|].
  unfold PyLib.replace_semicolon in *. cbn [flat_map].
  destruct (ch =? 59)%N eqn:Hch.
  - cbn. apply IH.
  - cbn [app semicolons_escaped]. rewrite Hch. apply IH.
Qed.

Lemma replace_semicolon_app t1 t2 :
  PyLib.replace_semicolon (t1 ++ t2)
  = PyLib.replace_semicolon t1 ++ PyLib.replace_semicolon t2.
Proof. apply flat_map_app. Qed.

Lemma quote_values_escaped lines vs :
  quote_values ucn_getcode lines = inr vs ->
  Forall (fun t => semicolons_escaped false t = true) vs.
Proof.
  revert vs. induction lines as [|l lines IH]; simpl; intros vs H.
  - injection H as <-. constructor.
  - unfold quote_value, bind, item in H.
    destruct (nth_error l 1) as [s|]; [|discriminate].
    destruct (PyLib.unicode_escape ucn_getcode s) as [t|]; [|discriminate].
    destruct (quote_values ucn_getcode lines) as [e|vs']; [discriminate|].
    injection H as <-. constructor; [apply replace_semicolon_escaped|now apply IH].
Qed.

Lemma quote_values_decoded lines texts :
  Forall2 (fun (l : line) t =>
             exists s, nth_error l 1 = Some s
                       /\ PyLib.unicode_escape ucn_getcode s = Some t)
          lines texts ->
  quote_values ucn_getcode lines = inr (map PyLib.replace_semicolon texts).
Proof.
  induction 1 as [|l t lines texts [s [Hl Hs]] _ IH]; [reflexivity|].
  simpl. unfold quote_value, item. rewrite Hl. simpl. rewrite Hs, IH. reflexivity.
Qed.

(** C8.  The text values of any event the handler of ['] yields have no
    semicolon without a backslash right before it.  For a group whose value
    fields all decode (and whose ttl field, on the first line, is absent or
    an integer) the handler yields one TXT event whose values are, line by
    line, the decoded text of the field with every semicolon replaced by a
    backslash and a semicolon, the rest of the text unchanged.  The field
    [a\073b], whose escape is the semicolon in octal, decodes to [a;b] and
    gives the value [a\;b]. *)
Theorem C8_txt_semicolons_escaped :
  forall self zone name lines in_addr,
    Forall (fun ev : event =>
              Forall (fun v => match v with
                               | Text t => semicolons_escaped false t = true
                               | _ => False
                               end) (snd ev))
           (fst (_records_for_quote ucn_getcode self zone name lines in_addr))
    /\ (forall texts,
           Forall2 (fun (l : line) t =>
                      exists s, nth_error l 1 = Some s
                                /\ PyLib.unicode_escape ucn_getcode s = Some t)
                   lines texts ->
           ttl_readable 2 lines = true ->
           _records_for_quote ucn_getcode self zone name lines false
           = ([("TXT", name, map (fun t => Text (PyLib.replace_semicolon t)) texts)],
              None))
    /\ (forall t1 t2,
           PyLib.replace_semicolon (t1 ++ 59%N :: t2)
           = PyLib.replace_semicolon t1 ++ [92%N; 59%N] ++ PyLib.replace_semicolon t2)
    /\ (forall t, ~ In 59%N t -> PyLib.replace_semicolon t = t)
    /\ PyLib.unicode_escape ucn_getcode "a\073b" = Some [97%N; 59%N; 98%N]
    /\ quote_value ucn_getcode ["txt.example.com"; "a\073b"]
       = inr [97%N; 92%N; 59%N; 98%N].
Proof.
  intros self zone name lines in_addr. repeat split.
  - unfold _records_for_quote. destruct in_addr; [constructor|].
    destruct (quote_values ucn_getcode lines) as [e|vs] eqn:Hvs; [constructor|].
    destruct (find_ttl _ _ _ _); simpl; constructor; [|constructor].
    simpl. apply quote_values_escaped in Hvs.
    induction Hvs; simpl; constructor; assumption.
  - intros texts Htexts Httl. unfold _records_for_quote.
    rewrite (quote_values_decoded lines texts Htexts).
    destruct (find_ttl_readable lines 2 (default_ttl self) Httl) as [n ->].
    now rewrite map_map.
  - intros t1 t2. now rewrite replace_semicolon_app.
  - intros t Hno. induction t as [|ch t IH]; [reflexivity|].
    unfold PyLib.replace_semicolon in *. cbn [flat_map].
    destruct (ch =? 59)%N eqn:Hch.
    + apply N.eqb_eq in Hch. subst ch. elim Hno. now left.
    + simpl. f_equal. apply IH. intros Hin. apply Hno. now right.
Qed.

(** *** Strings of DNS characters and the tokenizer *)

Lemma append_empty_r (s : string) : (s ++ "")%string = s.
Proof. induction s as [|a s IH]; [reflexivity|]. simpl. now rewrite IH. Qed.

Lemma append_assoc (a b c : string) : ((a ++ b) ++ c)%string = (a ++ b ++ c)%string.
Proof. induction a as [|x a IH]; [reflexivity|]. simpl. now rewrite IH. Qed.

Lemma length_append (a b : string) :
  String.length (a ++ b) = (String.length a + String.length b)%nat.
Proof. induction a as [|x a IH]; [reflexivity|]. simpl. now rewrite IH. Qed.

Lemma chars_append (a b : string) :
  list_ascii_of_string (a ++ b) = list_ascii_of_string a ++ list_ascii_of_string b.
Proof. induction a as [|x a IH]; [reflexivity|]. simpl. now rewrite IH. Qed.

Lemma rev_onto_twice s : forall acc acc',
  PyStr.rev_onto (PyStr.rev_onto s acc) acc' = PyStr.rev_onto acc (s ++ acc').
Proof.
  induction s as [|a s IH]; intros acc acc'; [reflexivity|].
  simpl. now rewrite IH.
Qed.

Lemma rev_involutive s : PyStr.rev (PyStr.rev s) = s.
Proof. unfold PyStr.rev. rewrite rev_onto_twice. simpl. apply append_empty_r. Qed.

Lemma rev_onto_length s : forall acc,
  String.length (PyStr.rev_onto s acc) = (String.length s + String.length acc)%nat.
Proof.
  induction s as [|a s IH]; intros acc; [reflexivity|].
  simpl. rewrite IH. simpl. lia.
Qed.

Lemma rev_length s : String.length (PyStr.rev s) = String.length s.
Proof. unfold PyStr.rev. rewrite rev_onto_length. simpl. lia. Qed.

Lemma rev_onto_forallb (P : ascii -> bool) s : forall acc,
  forallb P (list_ascii_of_string (PyStr.rev_onto s acc))
  = forallb P (list_ascii_of_string s) && forallb P (list_ascii_of_string acc).
Proof.
  induction s as [|a s IH]; intros acc; [reflexivity|].
  simpl. rewrite IH. simpl. now destruct (P a), (forallb P (list_ascii_of_string s)).
Qed.

Lemma rev_forallb (P : ascii -> bool) s :
  forallb P (list_ascii_of_string (PyStr.rev s)) = forallb P (list_ascii_of_string s).
Proof. unfold PyStr.rev. rewrite rev_onto_forallb. simpl. apply andb_true_r. Qed.

Lemma prefix_length a : forall b,
  prefix a b = true -> (String.length a <= String.length b)%nat.
Proof.
  induction a as [|x a IH]; intros b H; simpl; [lia|].
  destruct b as [|y b]; [discriminate|]. simpl in *.
  destruct (Ascii.ascii_dec x y); [|discriminate]. apply IH in H. lia.
Qed.

Lemma endswith_length s suffix :
  PyStr.endswith s suffix = true -> (String.length suffix <= String.length s)%nat.
Proof.
  unfold PyStr.endswith. intros H. apply prefix_length in H.
  now rewrite !rev_length in H.
Qed.

Lemma lstrip_no_space s :
  forallb (fun c => negb (PyStr.isspace c)) (list_ascii_of_string s) = true ->
  PyStr.lstrip s = s.
Proof.
  destruct s as [|a s]; [reflexivity|]. simpl. intros H.
  apply andb_prop in H as [Ha _]. now destruct (PyStr.isspace a).
Qed.

Lemma strip_no_space s :
  forallb (fun c => negb (PyStr.isspace c)) (list_ascii_of_string s) = true ->
  PyStr.strip s = s.
Proof.
  intros H. unfold PyStr.strip. rewrite (lstrip_no_space s H).
  rewrite lstrip_no_space by now rewrite rev_forallb.
  apply rev_involutive.
Qed.

Lemma before_absent sep s : PyStr.contains sep s = false -> PyStr.before sep s = s.
Proof.
  induction s as [|a s IH]; [reflexivity|]. simpl. intros H.
  apply orb_false_iff in H as [Ha Hs]. rewrite Ha. now rewrite IH.
Qed.

Lemma split_absent sep s : PyStr.contains sep s = false -> PyStr.split sep s = [s].
Proof.
  induction s as [|a s IH]; [reflexivity|]. simpl. intros H.
  apply orb_false_iff in H as [Ha Hs]. rewrite Ha. now rewrite IH.
Qed.

Lemma split_first sep a b :
  PyStr.contains sep a = false ->
  PyStr.split sep (a ++ String sep b) = a :: PyStr.split sep b.
Proof.
  induction a as [|x a IH]; simpl; intros H.
  - now rewrite Ascii.eqb_refl.
  - apply orb_false_iff in H as [Hx Ha]. rewrite Hx. now rewrite IH.
Qed.

Lemma contains_append c a b :
  PyStr.contains c (a ++ b) = PyStr.contains c a || PyStr.contains c b.
Proof.
  induction a as [|x a IH]; [reflexivity|]. simpl. rewrite IH. apply orb_assoc.
Qed.

Lemma dns_char_plain c :
  dns_char c = true ->
  PyStr.isspace c = false /\ Ascii.eqb c "#" = false /\ Ascii.eqb c ":" = false
  /\ Ascii.eqb c PyStr.LF = false.
Proof.
  destruct c as [[] [] [] [] [] [] [] []]; vm_compute; intros H;
    try discriminate H; repeat split.
Qed.

Lemma dns_name_plain s :
  dns_name s = true ->
  forallb (fun c => negb (PyStr.isspace c)) (list_ascii_of_string s) = true
  /\ PyStr.contains "#" s = false /\ PyStr.contains ":" s = false.
Proof.
  unfold dns_name. induction s as [|a s IH]; [now repeat split|].
  simpl. intros H. apply andb_prop in H as [Ha Hs].
  destruct (dns_char_plain a Ha) as [H1 [H2 [H3 _]]].
  destruct (IH Hs) as [I1 [I2 I3]]. now rewrite H1, H2, H3, I1, I2, I3.
Qed.

Lemma dns_name_append a b :
  dns_name (a ++ b) = dns_name a && dns_name b.
Proof. unfold dns_name. now rewrite chars_append, forallb_app. Qed.

(** A line made of a name of DNS characters and of an IPv4 address has these
    two as its fields. *)
Lemma fields_of_name_address owner :
  dns_name owner = true ->
  fields_of (owner ++ ":192.0.2.1") = [owner; "192.0.2.1"].
Proof.
  intros H. destruct (dns_name_plain owner H) as [Hsp [Hhash Hcolon]].
  unfold fields_of, uncomment.
  rewrite before_absent by (rewrite contains_append, Hhash; reflexivity).
  rewrite split_first by exact Hcolon. simpl map.
  rewrite (strip_no_space owner Hsp). reflexivity.
Qed.

(** *** The name pattern *)

Lemma body_same p : forall q s, NameRe.body (p ++ q) (p ++ s) = NameRe.body q s.
Proof.
  induction p as [|c p IH]; intros q s; [reflexivity|].
  simpl. rewrite Ascii.eqb_refl.
  destruct (Ascii.eqb c ".") eqn:Hc; [|apply IH].
  apply Ascii.eqb_eq in Hc. subst c. simpl. apply IH.
Qed.

Lemma body_refl p : NameRe.body p p = Some EmptyString.
Proof.
  rewrite <- (append_empty_r p) at 1 2. now rewrite body_same.
Qed.

Lemma body_dot_wildcard pre post :
  NameRe.body (pre ++ String "." post) (pre ++ String "x" post) = Some EmptyString.
Proof. rewrite body_same. simpl. apply body_refl. Qed.

Lemma matches_of_tail zone_name s :
  NameRe.tail (PyStr.drop_last zone_name) s = true ->
  NameRe.matches zone_name s = true.
Proof.
  intros H. unfold NameRe.matches. rewrite H.
  now destruct (NameRe.plus_group _ _).
Qed.

Lemma contains_first_split c s :
  PyStr.contains c s = true ->
  exists pre post, s = (pre ++ String c post)%string.
Proof.
  induction s as [|a s IH]; [discriminate|]. simpl. intros H.
  destruct (Ascii.eqb a c) eqn:Ha.
  - apply Ascii.eqb_eq in Ha. subst a. now exists EmptyString, s.
  - simpl in H. destruct (IH H) as [pre [post ->]].
    now exists (String a pre), post.
Qed.

Lemma append_inj_l (pre a b : string) :
  (pre ++ a)%string = (pre ++ b)%string -> a = b.
Proof.
  induction pre as [|x pre IH]; [trivial|]. simpl. intros [= H]. now apply IH.
Qed.
Lemma drop_last_length s :
  String.length (PyStr.drop_last s) = pred (String.length s).
Proof.
  induction s as [|a s IH]; [reflexivity|].
  destruct s as [|b s]; [reflexivity|].
  change (PyStr.drop_last (String a (String b s)))
    with (String a (PyStr.drop_last (String b s))).
  simpl String.length in *. now rewrite IH.
Qed.

Lemma drop_last_dns s : dns_name s = true -> dns_name (PyStr.drop_last s) = true.
Proof.
  unfold dns_name. induction s as [|a s IH]; [reflexivity|].
  destruct s as [|b s]; [reflexivity|].
  change (PyStr.drop_last (String a (String b s)))
    with (String a (PyStr.drop_last (String b s))).
  intros H. simpl in H. apply andb_prop in H as [Ha Hs].
  cbn [list_ascii_of_string forallb]. rewrite Ha. simpl. apply IH. exact Hs.
Qed.

(** C9.  The zone name goes into the pattern of [_process_lines] as it is, so
    that a dot of the zone name matches any character.  For a zone whose
    name, made of DNS characters, has a dot before its last character, take
    the zone name without its last character and put an [x] in the place of
    one of its dots.  This owner name is neither the zone name (with or
    without its last dot) nor a name that ends in a dot followed by the zone
    name, and yet the pattern accepts it: the line that gives it an address
    is grouped under the symbol [+] and becomes an A record. *)
Theorem C9_unescaped_zone_dot :
  forall self zone,
    dns_name (Zone.name zone) = true ->
    PyStr.contains "." (PyStr.drop_last (Zone.name zone)) = true ->
    exists pre post,
      PyStr.drop_last (Zone.name zone) = (pre ++ "." ++ post)%string
      /\ let owner := (pre ++ "x" ++ post)%string in
         let raw := String "+" (owner ++ ":192.0.2.1") in
         owner <> Zone.name zone
         /\ owner <> PyStr.drop_last (Zone.name zone)
         /\ PyStr.endswith owner ("." ++ Zone.name zone) = false
         /\ PyStr.endswith owner ("." ++ PyStr.drop_last (Zone.name zone)) = false
         /\ NameRe.matches (Zone.name zone) owner = true
         /\ _process_lines zone [raw]
            = inr [("+"%char, [(Zone.hostname_from_fqdn zone owner,
                                [[owner; "192.0.2.1"]])])]
         /\ _populate_normal ucn_getcode wrap_words self zone [raw]
            = ([(Zone.hostname_from_fqdn zone owner,
                 {| ttl := TtlInt (default_ttl self); type := "A";
                    body := Value (Str "192.0.2.1") |})], None).
Proof.
  intros self zone Hdns Hdot.
  destruct (contains_first_split "." _ Hdot) as [pre [post Hpat]].
  exists pre, post. split; [exact Hpat|]. intros owner raw.
  assert (Hlen : String.length owner = pred (String.length (Zone.name zone))).
  { rewrite <- drop_last_length, Hpat. unfold owner.
    rewrite !length_append. reflexivity. }
  assert (Hpos : (0 < String.length owner)%nat).
  { unfold owner. rewrite !length_append. simpl. lia. }
  assert (Howner : dns_name owner = true).
  { pose proof (drop_last_dns _ Hdns) as H. rewrite Hpat in H.
    rewrite dns_name_append in H. apply andb_prop in H as [H1 H2].
    unfold owner. rewrite dns_name_append, H1. exact H2. }
  assert (Hmatch : NameRe.matches (Zone.name zone) owner = true).
  { apply matches_of_tail. unfold NameRe.tail. rewrite Hpat.
    unfold owner. cbn [append]. now rewrite body_dot_wildcard. }
  assert (Hlines : _process_lines zone [raw]
            = inr [("+"%char, [(Zone.hostname_from_fqdn zone owner,
                                [[owner; "192.0.2.1"]])])]).
  { unfold _process_lines, raw. cbn [_process_lines_from].
    rewrite (fields_of_name_address owner Howner).
    cbv [item nth_error bind]. rewrite Hmatch. reflexivity. }
  repeat split.
  - intros Heq. rewrite <- Heq in Hlen. lia.
  - rewrite Hpat. unfold owner. intros Heq. apply append_inj_l in Heq. discriminate.
  - destruct (PyStr.endswith _ _) eqn:He; [|reflexivity].
    apply endswith_length in He. simpl in He. lia.
  - destruct (PyStr.endswith _ _) eqn:He; [|reflexivity].
    apply endswith_length in He. simpl in He. rewrite drop_last_length in He. lia.
  - exact Hmatch.
  - exact Hlines.
  - unfold _populate_normal. rewrite Hlines. reflexivity.
Qed.

(** *** Dictionaries in insertion order *)

Section OdictFacts.
Context {K V : Type} (eqb : K -> K -> bool).
Hypothesis eqb_eq : forall a b, eqb a b = true <-> a = b.

Lemma od_eqb_same k : eqb k k = true.
Proof. now apply eqb_eq. Qed.

Lemma od_eqb_other a b : a <> b -> eqb a b = false.
Proof.
  intros H. destruct (eqb a b) eqn:E; [|reflexivity]. now apply eqb_eq in E.
Qed.

Lemma od_get_update_same k (f : V -> V) dflt d :
  od_get eqb k (od_update eqb k f dflt d)
  = Some (f (match od_get eqb k d with Some v => v | None => dflt end)).
Proof.
  induction d as [|[k0 v] d IH]; simpl.
  - now rewrite od_eqb_same.
  - destruct (eqb k0 k) eqn:E; simpl; rewrite E; [reflexivity|exact IH].
Qed.

Lemma od_get_update_other k k' (f : V -> V) dflt d :
  k <> k' -> od_get eqb k' (od_update eqb k f dflt d) = od_get eqb k' d.
Proof.
  intros Hne. induction d as [|[k0 v] d IH]; simpl.
  - now rewrite od_eqb_other.
  - destruct (eqb k0 k) eqn:E; simpl.
    + apply eqb_eq in E. subst k0. now rewrite od_eqb_other.
    + now rewrite IH.
Qed.

Lemma od_update_keys k (f : V -> V) dflt d k' :
  In k' (map fst (od_update eqb k f dflt d)) -> k' = k \/ In k' (map fst d).
Proof.
  induction d as [|[k0 v] d IH]; simpl.
  - intros [<-|[]]. now left.
  - destruct (eqb k0 k) eqn:E; simpl.
    + intros H. now right.
    + intros [<-|H]; [right; now left|]. destruct (IH H); [now left|right; now right].
Qed.

Lemma od_update_nodup k (f : V -> V) dflt d :
  NoDup (map fst d) -> NoDup (map fst (od_update eqb k f dflt d)).
Proof.
  induction d as [|[k0 v] d IH]; simpl; intros H.
  - constructor; [intros []|constructor].
  - inversion H as [|? ? Hnin Hd]; subst.
    destruct (eqb k0 k) eqn:E; simpl.
    + now constructor.
    + constructor; [|now apply IH]. intros Hin.
      apply od_update_keys in Hin as [->|Hin]; [|contradiction].
      now rewrite od_eqb_same in E.
Qed.

Lemma od_update_all (Q : V -> Prop) k (f : V -> V) dflt d :
  Q (f dflt) -> (forall v, Q v -> Q (f v)) ->
  Forall (fun kv => Q (snd kv)) d ->
  Forall (fun kv => Q (snd kv)) (od_update eqb k f dflt d).
Proof.
  intros Hd Hf. induction 1 as [|[k0 v] d Hv Hrest IH]; simpl.
  - constructor; [exact Hd|constructor].
  - destruct (eqb k0 k); constructor; simpl in *; auto.
Qed.

Lemma od_get_split k (d : list (K * V)) v :
  od_get eqb k d = Some v ->
  exists d1 d2, d = d1 ++ (k, v) :: d2 /\ ~ In k (map fst d1).
Proof.
  induction d as [|[k0 v0] d IH]; simpl; [discriminate|].
  destruct (eqb k0 k) eqn:E.
  - intros [= ->]. apply eqb_eq in E. subst k0. now exists [], d.
  - intros H. destruct (IH H) as [d1 [d2 [-> Hnin]]].
    exists ((k0, v0) :: d1), d2. split; [reflexivity|].
    simpl. intros [->|Hin]; [|contradiction]. now rewrite od_eqb_same in E.
Qed.

End OdictFacts.

Section Odict2Facts.
Context {K V : Type} (eqb : K -> K -> bool).
Hypothesis eqb_eq : forall a b, eqb a b = true <-> a = b.

Let dict2 : Type := odict K (odict string (list V)).

Lemma lookup2_append2_same k name vs (d : dict2) :
  lookup2 eqb (append2 eqb k name vs d) k name = Some (found (lookup2 eqb d k name) ++ vs).
Proof.
  unfold lookup2, append2. rewrite (od_get_update_same eqb eqb_eq).
  rewrite (od_get_update_same String.eqb String.eqb_eq).
  destruct (od_get eqb k d) as [names|]; [|reflexivity].
  now destruct (od_get String.eqb name names).
Qed.

Lemma lookup2_append2_other k name vs (d : dict2) k' name' :
  (k, name) <> (k', name') ->
  lookup2 eqb (append2 eqb k name vs d) k' name' = lookup2 eqb d k' name'.
Proof.
  intros Hne. unfold lookup2, append2.
  destruct (eqb k k') eqn:E.
  - apply eqb_eq in E. subst k'. rewrite (od_get_update_same eqb eqb_eq).
    assert (name <> name') as Hn by congruence.
    rewrite (od_get_update_other String.eqb String.eqb_eq) by exact Hn.
    now destruct (od_get eqb k d) as [names|].
  - rewrite (od_get_update_other eqb eqb_eq); [reflexivity|].
    intros ->. now rewrite (od_eqb_same eqb eqb_eq) in E.
Qed.

Lemma grows_refl (d : dict2) : grows eqb d d.
Proof. intros k name l H. exists []. now rewrite app_nil_r. Qed.

Lemma grows_trans (d1 d2 d3 : dict2) : grows eqb d1 d2 -> grows eqb d2 d3 -> grows eqb d1 d3.
Proof.
  intros H12 H23 k name l H. destruct (H12 _ _ _ H) as [m1 H1].
  destruct (H23 _ _ _ H1) as [m2 H2]. exists (m1 ++ m2). now rewrite app_assoc.
Qed.

Lemma grows_append2 k name vs (d : dict2) : grows eqb d (append2 eqb k name vs d).
Proof.
  intros k' name' l H.
  destruct (eqb k k') eqn:E; [destruct (String.eqb name name') eqn:En|].
  - apply eqb_eq in E. apply String.eqb_eq in En. subst k' name'.
    exists vs. rewrite lookup2_append2_same, H. reflexivity.
  - exists []. rewrite app_nil_r, lookup2_append2_other; [exact H|].
    apply String.eqb_neq in En. congruence.
  - exists []. rewrite app_nil_r, lookup2_append2_other; [exact H|].
    intros [= -> _]. now rewrite (od_eqb_same eqb eqb_eq) in E.
Qed.

Lemma keys_once_empty : keys_once ([] : dict2).
Proof. split; constructor. Qed.

Lemma keys_once_append2 k name vs (d : dict2) : keys_once d -> keys_once (append2 eqb k name vs d).
Proof.
  intros [H1 H2]. split.
  - now apply od_update_nodup.
  - apply (od_update_all eqb (fun names => NoDup (map fst names))).
    + simpl. constructor; [intros []|constructor].
    + intros names. now apply od_update_nodup, String.eqb_eq.
    + exact H2.
Qed.

Lemma entries_of_lookup2 (d : dict2) k name l :
  keys_once d -> lookup2 eqb d k name = Some l ->
  exists e1 e2,
    entries d = e1 ++ (k, name, l) :: e2
    /\ Forall (fun e => fst e <> (k, name)) (e1 ++ e2).
Proof.
  intros [Hk Hn] H. unfold lookup2 in H.
  destruct (od_get eqb k d) as [names|] eqn:Hd; [|discriminate].
  apply (od_get_split eqb eqb_eq) in Hd as [d1 [d2 [-> Hd1]]].
  apply (od_get_split String.eqb String.eqb_eq) in H as [n1 [n2 [-> Hn1]]].
  rewrite map_app in Hk. simpl in Hk. apply NoDup_remove_2 in Hk.
  apply Forall_app in Hn as [_ Hn]. inversion Hn as [|? ? Hnames _]; subst.
  simpl in Hnames. rewrite map_app in Hnames. simpl in Hnames.
  apply NoDup_remove_2 in Hnames.
  exists (entries d1 ++ map (fun nv => (k, fst nv, snd nv)) n1),
         (map (fun nv => (k, fst nv, snd nv)) n2 ++ entries d2).
  split.
  - unfold entries. rewrite flat_map_app. simpl. rewrite map_app. simpl.
    now rewrite <- !app_assoc.
  - assert (Houter : forall d' : dict2, ~ In k (map fst d') ->
                                Forall (fun e => fst e <> (k, name)) (entries d')).
    { intros d' Hd'. apply Forall_forall. intros [[k' n'] l'] Hin [= -> ->].
      apply Hd'. unfold entries in Hin. apply in_flat_map in Hin as [[k0 names] [Hin0 Hin]].
      apply in_map_iff in Hin as [[n0 l0] [[= -> -> ->] _]].
      apply in_map_iff. now exists (k, names). }
    assert (Hinner : forall n' : odict string (list V), ~ In name (map fst n') ->
                                Forall (fun e => fst e <> (k, name))
                                       (map (fun nv : string * list V => (k, fst nv, snd nv)) n')).
    { intros n' Hn'. apply Forall_forall. intros [[k' nm] l'] Hin [= -> ->].
      apply Hn'. apply in_map_iff in Hin as [[n0 l0] [[= -> ->] Hin]].
      apply in_map_iff. now exists (name, l'). }
    rewrite <- app_assoc. apply Forall_app; split.
    + apply Houter. exact Hd1.
    + apply Forall_app; split.
      * apply Hinner. exact Hn1.
      * apply Forall_app; split.
        -- apply Hinner. intros Hin. apply Hnames. apply in_or_app. now right.
        -- apply Houter. intros Hin. apply Hk. apply in_or_app. now right.
Qed.

End Odict2Facts.

(** *** Grouping the lines *)

Lemma process_lines_app zone a : forall b d,
  _process_lines_from zone (a ++ b) d
  = bind (_process_lines_from zone a d) (_process_lines_from zone b).
Proof.
  induction a as [|raw a IH]; intros b d; [reflexivity|].
  cbn [app _process_lines_from]. destruct raw as [|symbol rest]; [reflexivity|].
  destruct (item (fields_of rest) 0) as [e|name]; [reflexivity|].
  cbn [bind]. destruct (negb _); apply IH.
Qed.

Lemma process_lines_accepted zone symbol rest field0 more lines d :
  fields_of rest = field0 :: more ->
  NameRe.matches (Zone.name zone) field0 = true ->
  _process_lines_from zone (String symbol rest :: lines) d
  = _process_lines_from zone lines
      (append2 Ascii.eqb symbol (Zone.hostname_from_fqdn zone field0)
               [field0 :: more] d).
Proof.
  intros Hf Hm. cbn [_process_lines_from]. rewrite Hf.
  cbv [item nth_error bind]. rewrite Hm. reflexivity.
Qed.

Lemma process_lines_grows zone lines : forall d d',
  _process_lines_from zone lines d = inr d' ->
  grows Ascii.eqb d d' /\ (keys_once d -> keys_once d').
Proof.
  induction lines as [|raw lines IH]; intros d d' H.
  - injection H as <-. split; [apply grows_refl|trivial].
  - cbn [_process_lines_from] in H. destruct raw as [|symbol rest]; [discriminate|].
    destruct (item (fields_of rest) 0) as [e|name]; [discriminate|].
    cbn [bind] in H. destruct (negb _); [now apply IH|].
    apply IH in H as [Hg Hk]. split.
    + eapply grows_trans; [|exact Hg]. apply grows_append2, Ascii.eqb_eq.
    + intros Hd. apply Hk. apply keys_once_append2; [apply Ascii.eqb_eq|exact Hd].
Qed.

Lemma process_lines_two zone pre mid post symbol rest1 rest2 f1 more1 f2 more2 name data :
  fields_of rest1 = f1 :: more1 ->
  NameRe.matches (Zone.name zone) f1 = true ->
  Zone.hostname_from_fqdn zone f1 = name ->
  fields_of rest2 = f2 :: more2 ->
  NameRe.matches (Zone.name zone) f2 = true ->
  Zone.hostname_from_fqdn zone f2 = name ->
  _process_lines zone (pre ++ String symbol rest1 :: mid ++ String symbol rest2 :: post)
  = inr data ->
  keys_once data
  /\ exists g0 g1 g2,
      lookup2 Ascii.eqb data symbol name
      = Some (g0 ++ (f1 :: more1) :: g1 ++ (f2 :: more2) :: g2).
Proof.
  intros Hf1 Hm1 Hn1 Hf2 Hm2 Hn2. unfold _process_lines.
  rewrite process_lines_app.
  destruct (_process_lines_from zone pre []) as [e|d0] eqn:H0; [discriminate|].
  cbn [bind]. rewrite (process_lines_accepted _ _ _ _ _ _ _ Hf1 Hm1), Hn1.
  rewrite process_lines_app.
  destruct (_process_lines_from zone mid _) as [e|d2] eqn:H2; [discriminate|].
  cbn [bind]. rewrite (process_lines_accepted _ _ _ _ _ _ _ Hf2 Hm2), Hn2.
  intros H4.
  apply process_lines_grows in H0 as [_ K0].
  apply process_lines_grows in H2 as [G2 K2].
  apply process_lines_grows in H4 as [G4 K4].
  split.
  - apply K4, keys_once_append2; [apply Ascii.eqb_eq|].
    apply K2, keys_once_append2; [apply Ascii.eqb_eq|].
    apply K0, keys_once_empty.
  - destruct (G2 symbol name _ (lookup2_append2_same Ascii.eqb Ascii.eqb_eq _ _ _ _))
      as [m2 L2].
    pose proof (lookup2_append2_same Ascii.eqb Ascii.eqb_eq symbol name
                  [f2 :: more2] d2) as L3.
    unfold line in *. rewrite L2 in L3. cbn [found] in L3.
    destruct (G4 symbol name _ L3) as [m4 L4].
    exists (found (lookup2 Ascii.eqb d0 symbol name)), m2, m4.
    rewrite L4. f_equal. rewrite <- !app_assoc. reflexivity.
Qed.

(** *** Gathering the values *)

Lemma extend_append2 types _type name values :
  extend types (_type, name, values) = append2 String.eqb _type name values types.
Proof. reflexivity. Qed.

Lemma extend_all_grows evs : forall types,
  grows String.eqb types (fold_left extend evs types)
  /\ (keys_once types -> keys_once (fold_left extend evs types)).
Proof.
  induction evs as [|[[t n] vs] evs IH]; intros types; simpl.
  - split; [apply grows_refl|trivial].
  - destruct (IH (extend types (t, n, vs))) as [G K]. rewrite extend_append2 in *.
    split.
    + eapply grows_trans; [|exact G]. apply grows_append2, String.eqb_eq.
    + intros H. apply K, keys_once_append2; [apply String.eqb_eq|exact H].
Qed.

Lemma names_loop_app records_for zone a : forall b types,
  names_loop records_for zone (a ++ b) types
  = bind (names_loop records_for zone a types) (names_loop records_for zone b).
Proof.
  induction a as [|[name lines] a IH]; intros b types; [reflexivity|].
  cbn [app names_loop]. destruct (snd (records_for zone name lines false));
    [reflexivity|apply IH].
Qed.

Lemma names_loop_grows records_for zone names : forall types types',
  names_loop records_for zone names types = inr types' ->
  grows String.eqb types types' /\ (keys_once types -> keys_once types').
Proof.
  induction names as [|[name lines] names IH]; intros types types' H.
  - injection H as <-. split; [apply grows_refl|trivial].
  - cbn [names_loop] in H.
    destruct (snd (records_for zone name lines false)); [discriminate|].
    apply IH in H as [G K].
    destruct (extend_all_grows (fst (records_for zone name lines false)) types)
      as [G0 K0].
    split; [eapply grows_trans; eassumption|auto].
Qed.

Lemma symbols_loop_app self zone a : forall b types,
  symbols_loop ucn_getcode wrap_words self zone (a ++ b) types
  = bind (symbols_loop ucn_getcode wrap_words self zone a types)
         (symbols_loop ucn_getcode wrap_words self zone b).
Proof.
  induction a as [|[symbol names] a IH]; intros b types; [reflexivity|].
  cbn [app symbols_loop]. destruct (SYMBOL_MAP _ _ _ symbol) as [h|]; [|apply IH].
  destruct (names_loop h zone names types) as [e|t]; [reflexivity|apply IH].
Qed.

Lemma symbols_loop_grows self zone symbols : forall types types',
  symbols_loop ucn_getcode wrap_words self zone symbols types = inr types' ->
  grows String.eqb types types' /\ (keys_once types -> keys_once types').
Proof.
  induction symbols as [|[symbol names] symbols IH]; intros types types' H.
  - injection H as <-. split; [apply grows_refl|trivial].
  - cbn [symbols_loop] in H. destruct (SYMBOL_MAP _ _ _ symbol) as [h|];
      [|now apply IH].
    destruct (names_loop h zone names types) as [e|t] eqn:Hn; [discriminate|].
    cbn [bind] in H. apply IH in H as [G K].
    apply names_loop_grows in Hn as [G0 K0].
    split; [eapply grows_trans; eassumption|auto].
Qed.

Lemma addresses_app a b : addresses (a ++ b) = addresses a ++ addresses b.
Proof. apply flat_map_app. Qed.

Lemma addresses_cons (l : line) ip ls :
  nth_error l 1 = Some ip -> addresses (l :: ls) = ip :: addresses ls.
Proof. intros H. unfold addresses. simpl. now rewrite H. Qed.

(** The A event of a group of [+] lines that holds two lines with an
    address other than the placeholder. *)
Lemma plus_group_two self zone name g0 g1 g2 (l1 l2 : line) ip1 ip2 :
  nth_error l1 1 = Some ip1 -> placeholder ip1 = false ->
  nth_error l2 1 = Some ip2 -> placeholder ip2 = false ->
  let g := _records_for_plus self zone name (g0 ++ l1 :: g1 ++ l2 :: g2) false in
  snd g = None ->
  exists v1 v2 v3,
    fst g = [("A", name, v1 ++ Str ip1 :: v2 ++ Str ip2 :: v3)].
Proof.
  intros Hl1 Hp1 Hl2 Hp2 g Hg. subst g. unfold _records_for_plus in *.
  destruct (plus_ips _) as [e|ips] eqn:Hips; [discriminate|].
  apply plus_ips_addresses in Hips.
  rewrite addresses_app, (addresses_cons l1 ip1 _ Hl1), addresses_app,
    (addresses_cons l2 ip2 _ Hl2) in Hips.
  rewrite filter_app in Hips. cbn [filter] in Hips. rewrite Hp1 in Hips.
  cbn [negb] in Hips. rewrite filter_app in Hips. cbn [filter] in Hips.
  rewrite Hp2 in Hips. cbn [negb] in Hips.
  destruct ips as [|ip ips].
  { symmetry in Hips. apply app_eq_nil in Hips as [_ Hips]. discriminate. }
  destruct (find_ttl _ _ _ _) as [e|n]; [discriminate|].
  rewrite Hips. rewrite !map_app. cbn [map]. rewrite !map_app. cbn [map].
  eexists _, _, _. reflexivity.
Qed.

(** The values under ["A"] and the name of a group of [+] lines, once every
    symbol has been worked through. *)
Lemma process_symbols_plus self zone data name group types v :
  symbols_loop ucn_getcode wrap_words self zone data [] = inr types ->
  lookup2 Ascii.eqb data "+"%char name = Some group ->
  (snd (_records_for_plus self zone name group false) = None ->
   fst (_records_for_plus self zone name group false) = [("A", name, v)]) ->
  keys_once types
  /\ exists v0 v', lookup2 String.eqb types "A" name = Some (v0 ++ v ++ v').
Proof.
  intros Hloop Hgroup Hev. unfold lookup2 in Hgroup.
  destruct (od_get Ascii.eqb "+"%char data) as [names|] eqn:Hd; [|discriminate].
  apply (od_get_split Ascii.eqb Ascii.eqb_eq) in Hd as [da [db [-> _]]].
  apply (od_get_split String.eqb String.eqb_eq) in Hgroup as [na [nb [-> _]]].
  rewrite symbols_loop_app in Hloop.
  destruct (symbols_loop _ _ _ _ da []) as [e|t1] eqn:H1; [discriminate|].
  cbn [bind symbols_loop] in Hloop.
  change (SYMBOL_MAP ucn_getcode wrap_words self "+"%char)
    with (Some (_records_for_plus self)) in Hloop.
  cbv beta iota in Hloop.
  rewrite names_loop_app in Hloop.
  destruct (names_loop _ zone na t1) as [e|t2] eqn:H2; [discriminate|].
  cbn [bind names_loop] in Hloop.
  destruct (snd (_records_for_plus self zone name group false)) eqn:Hsnd;
    [discriminate|].
  rewrite (Hev eq_refl) in Hloop.
  cbn [fold_left] in Hloop. rewrite extend_append2 in Hloop.
  destruct (names_loop _ zone nb _) as [e|t3] eqn:H3; [discriminate|].
  cbn [bind] in Hloop.
  apply symbols_loop_grows in H1 as [_ K1].
  apply names_loop_grows in H2 as [_ K2].
  apply names_loop_grows in H3 as [G3 K3].
  apply symbols_loop_grows in Hloop as [G4 K4].
  split.
  - apply K4, K3, keys_once_append2; [apply String.eqb_eq|].
    apply K2, K1, keys_once_empty.
  - destruct (G3 "A" name _ (lookup2_append2_same String.eqb String.eqb_eq _ _ _ _))
      as [m3 L3].
    destruct (G4 "A" name _ L3) as [m4 L4].
    exists (found (lookup2 String.eqb t2 "A" name)), (m3 ++ m4).
    rewrite L4. f_equal. now rewrite <- !app_assoc.
Qed.

(** *** Making the records *)

Lemma normal_names_records self _type names next recs :
  normal_names self [] _type names next = (recs, None) ->
  exists rest,
    next = (rest, None)
    /\ recs = map (record_of self)
                  (map (fun nv : string * list value => (_type, fst nv, snd nv)) names)
              ++ rest.
Proof.
  revert recs. induction names as [|[name values] names IH]; intros recs H.
  - exists recs. split; [now destruct next as [r [e|]]; inversion H|reflexivity].
  - cbn [normal_names] in H. rewrite ttls_get_empty in H.
    destruct (1 <? List.length values)%nat eqn:Hlen.
    + unfold yield in H. injection H as <- Hs.
      destruct (normal_names self [] _type names next) as [r o] eqn:Hn.
      simpl in Hs. subst o. destruct (IH r eq_refl) as [rest [-> ->]].
      exists rest. split; [reflexivity|]. simpl. f_equal.
      unfold record_of. simpl. destruct values as [|v [|v' vs]]; try discriminate.
      reflexivity.
    + destruct values as [|v [|v' vs]]; try discriminate.
      * cbn in H. unfold yield in H. injection H as <- Hs.
        destruct (normal_names self [] _type names next) as [r o] eqn:Hn.
        simpl in Hs. subst o. destruct (IH r eq_refl) as [rest [-> ->]].
        exists rest. split; reflexivity.
Qed.

Lemma normal_types_records self types recs :
  normal_types self [] types = (recs, None) ->
  recs = map (record_of self) (entries types).
Proof.
  revert recs. induction types as [|[_type names] types IH]; intros recs H.
  - now injection H as <-.
  - cbn [normal_types] in H. apply normal_names_records in H as [rest [Hn ->]].
    rewrite (IH rest Hn). unfold entries. cbn [flat_map fst snd].
    now rewrite map_app.
Qed.

Lemma two_values_body (v1 v2 v3 : list value) a b :
  match v1 ++ a :: v2 ++ b :: v3 with
  | [v] => Value v
  | vs => Values vs
  end = Values (v1 ++ a :: v2 ++ b :: v3).
Proof.
  destruct v1 as [|x [|y v1]]; simpl; try reflexivity.
  now destruct v2.
Qed.

(** C5.  Take two [+] lines of the zone for the same owner name, each with an
    address that is not the placeholder.  Whatever the other lines are, a
    forward run that ends without an exception has made exactly one A record
    for the owner name; it is a record with several values, and the address
    of the first line stands before the address of the second in them
    (other values of the name can stand around them: they are appended, and
    nothing is removed when two are equal).  When the two lines are the
    whole input and the ttl field of the first is absent or an integer, the
    run ends without an exception and the A record with the two addresses
    is its only record. *)
Theorem C5_two_plus_lines_merge :
  forall self zone name rest1 rest2 f1 ip1 more1 f2 ip2 more2,
    fields_of rest1 = f1 :: ip1 :: more1 ->
    fields_of rest2 = f2 :: ip2 :: more2 ->
    NameRe.matches (Zone.name zone) f1 = true ->
    NameRe.matches (Zone.name zone) f2 = true ->
    Zone.hostname_from_fqdn zone f1 = name ->
    Zone.hostname_from_fqdn zone f2 = name ->
    placeholder ip1 = false ->
    placeholder ip2 = false ->
    (forall pre mid post recs,
        _populate_normal ucn_getcode wrap_words self zone
          (pre ++ String "+" rest1 :: mid ++ String "+" rest2 :: post)
        = (recs, None) ->
        exists before after v1 v2 v3,
          recs = before
                 ++ (name, {| ttl := TtlInt (default_ttl self); type := "A";
                              body := Values (v1 ++ Str ip1 :: v2 ++ Str ip2 :: v3) |})
                 :: after
          /\ Forall (fun r : string * data =>
                       ~ (fst r = name /\ type (snd r) = "A"))
                    (before ++ after))
    /\ (ttl_readable 2 [f1 :: ip1 :: more1] = true ->
        _populate_normal ucn_getcode wrap_words self zone
          [String "+" rest1; String "+" rest2]
        = ([(name, {| ttl := TtlInt (default_ttl self); type := "A";
                      body := Values [Str ip1; Str ip2] |})], None)).
Proof.
  intros self zone name rest1 rest2 f1 ip1 more1 f2 ip2 more2
         Hf1 Hf2 Hm1 Hm2 Hn1 Hn2 Hp1 Hp2.
  split.
  - intros pre mid post recs Hrun. unfold _populate_normal in Hrun.
    destruct (_process_lines zone _) as [e|symbols] eqn:Hlines; [discriminate|].
    destruct (_process_symbols _ _ _ _ _) as [e|[types ttls]] eqn:Hsym;
      [discriminate|].
    pose proof (process_symbols_ttls _ _ _ _ _ Hsym) as ->.
    unfold _process_symbols, bind in Hsym.
    destruct (symbols_loop _ _ _ _ _ _) as [e|types'] eqn:Hloop; [discriminate|].
    injection Hsym as ->.
    destruct (process_lines_two _ _ _ _ _ _ _ _ _ _ _ _ _
                Hf1 Hm1 Hn1 Hf2 Hm2 Hn2 Hlines) as [_ [g0 [g1 [g2 Hgroup]]]].
    assert (Hev := plus_group_two self zone name g0 g1 g2
                     (f1 :: ip1 :: more1) (f2 :: ip2 :: more2) ip1 ip2
                     eq_refl Hp1 eq_refl Hp2).
    cbv zeta in Hev.
    destruct (snd (_records_for_plus self zone name
                     (g0 ++ (f1 :: ip1 :: more1) :: g1 ++ (f2 :: ip2 :: more2) :: g2)
                     false)) as [e|] eqn:Hsnd.
    + exfalso.
      assert (Habs := process_symbols_plus self zone symbols name _ types [] Hloop Hgroup).
      unfold lookup2 in Hgroup.
      destruct (od_get Ascii.eqb "+"%char symbols) as [names|] eqn:Hd; [|discriminate].
      apply (od_get_split Ascii.eqb Ascii.eqb_eq) in Hd as [da [db [-> _]]].
      apply (od_get_split String.eqb String.eqb_eq) in Hgroup as [na [nb [-> _]]].
      rewrite symbols_loop_app in Hloop.
      destruct (symbols_loop _ _ _ _ da []) as [e'|t1]; [discriminate|].
      cbn [bind symbols_loop] in Hloop.
      change (SYMBOL_MAP ucn_getcode wrap_words self "+"%char)
        with (Some (_records_for_plus self)) in Hloop.
      cbv beta iota in Hloop. rewrite names_loop_app in Hloop.
      destruct (names_loop _ zone na t1) as [e'|t2]; [discriminate|].
      cbn [bind names_loop] in Hloop. rewrite Hsnd in Hloop. discriminate.
    + destruct (Hev Hsnd) as [v1 [v2 [v3 Hfst]]].
      destruct (process_symbols_plus self zone symbols name _ types _ Hloop Hgroup
                  (fun _ => Hfst)) as [Hkeys [v0 [v' Hvalues]]].
      destruct (entries_of_lookup2 String.eqb String.eqb_eq types "A" name _
                  Hkeys Hvalues) as [e1 [e2 [Hentries Hothers]]].
      apply normal_types_records in Hrun. rewrite Hentries, map_app in Hrun.
      cbn [map] in Hrun.
      exists (map (record_of self) e1), (map (record_of self) e2),
        (v0 ++ v1), v2, (v3 ++ v').
      split.
      * rewrite Hrun. f_equal. f_equal. unfold record_of. cbn [fst snd].
        f_equal. f_equal.
        replace (v0 ++ (v1 ++ Str ip1 :: v2 ++ Str ip2 :: v3) ++ v')
          with ((v0 ++ v1) ++ Str ip1 :: v2 ++ Str ip2 :: v3 ++ v').
        { apply two_values_body. }
        rewrite <- !app_assoc. cbn [app]. rewrite <- !app_assoc. reflexivity.
      * rewrite <- map_app. apply Forall_forall. intros r Hin [Hname Htype].
        apply in_map_iff in Hin as [[[t n] vs] [<- Hin]].
        rewrite Forall_forall in Hothers. apply (Hothers _ Hin).
        cbn in Hname, Htype. cbn. congruence.
  - intros Httl. unfold _populate_normal, _process_lines.
    rewrite (process_lines_accepted _ _ _ _ _ _ _ Hf1 Hm1), Hn1.
    rewrite (process_lines_accepted _ _ _ _ _ _ _ Hf2 Hm2), Hn2.
    cbn [_process_lines_from]. unfold append2. cbn [od_update].
    rewrite Ascii.eqb_refl. cbn [od_update]. rewrite String.eqb_refl.
    unfold _process_symbols. cbn [symbols_loop].
    change (SYMBOL_MAP ucn_getcode wrap_words self "+"%char)
      with (Some (_records_for_plus self)).
    cbv beta iota. cbn [names_loop].
    cbn [app].
    assert (Hplus : _records_for_plus self zone name
                      [f1 :: ip1 :: more1; f2 :: ip2 :: more2] false
                    = ([("A", name, [Str ip1; Str ip2])], None)).
    { unfold _records_for_plus. cbn [plus_ips]. cbv [item nth_error bind].
      unfold placeholder in Hp1, Hp2. rewrite Hp1, Hp2.
      rewrite find_ttl_first. unfold ttl_readable in Httl.
      destruct (nth_error (f1 :: ip1 :: more1) 2) as [field|]; [|reflexivity].
      destruct (PyLib.int field); [reflexivity|discriminate]. }
    rewrite Hplus. reflexivity.
Qed.

(** *** The grouping of the lines, beyond the claims *)

Lemma split_not_empty sep s : PyStr.split sep s <> [].
Proof.
  destruct s as [|a s]; simpl; [discriminate|].
  destruct (Ascii.eqb a sep); [discriminate|].
  now destruct (PyStr.split sep s).
Qed.

Lemma fields_of_not_empty rest : fields_of rest <> [].
Proof.
  unfold fields_of. intros H. apply map_eq_nil in H.
  now apply split_not_empty in H.
Qed.

(** One turn of the loop of [_process_lines] on a line that is not empty. *)
Lemma process_lines_step zone symbol rest lines d :
  _process_lines_from zone (String symbol rest :: lines) d
  = _process_lines_from zone lines
      (match kept_line zone (String symbol rest) with
       | Some (s, n, l) => append2 Ascii.eqb s n [l] d
       | None => d
       end).
Proof.
  cbn [_process_lines_from kept_line].
  destruct (fields_of rest) as [|name more] eqn:Hf.
  { now apply fields_of_not_empty in Hf. }
  cbv [item nth_error bind].
  now destruct (NameRe.matches (Zone.name zone) name).
Qed.

Lemma group_of_app zone a b symbol name :
  group_of zone (a ++ b) symbol name
  = group_of zone a symbol name ++ group_of zone b symbol name.
Proof. apply flat_map_app. Qed.

Lemma no_empty_list_append2 {K V : Type} (eqb : K -> K -> bool)
  (eqb_eq : forall a b, eqb a b = true <-> a = b)
  k name (vs : list V) (d : odict K (odict string (list V))) :
  vs <> [] -> no_empty_list eqb d -> no_empty_list eqb (append2 eqb k name vs d).
Proof.
  intros Hvs Hd k' name' l Hl.
  destruct (eqb k k') eqn:E; [destruct (String.eqb name name') eqn:En|].
  - apply eqb_eq in E. apply String.eqb_eq in En. subst k' name'.
    rewrite (lookup2_append2_same eqb eqb_eq) in Hl. injection Hl as <-.
    intros H. apply app_eq_nil in H as [_ H]. contradiction.
  - rewrite (lookup2_append2_other eqb eqb_eq) in Hl; [now apply Hd in Hl|].
    apply String.eqb_neq in En. congruence.
  - rewrite (lookup2_append2_other eqb eqb_eq) in Hl; [now apply Hd in Hl|].
    intros [= -> _]. now rewrite (od_eqb_same eqb eqb_eq) in E.
Qed.

Lemma found_append2 symbol name l (d : symbols_t) symbol' name' :
  found (lookup2 Ascii.eqb (append2 Ascii.eqb symbol name [l] d) symbol' name')
  = found (lookup2 Ascii.eqb d symbol' name')
    ++ (if Ascii.eqb symbol symbol' && String.eqb name name' then [l] else []).
Proof.
  destruct (Ascii.eqb symbol symbol') eqn:E;
    [destruct (String.eqb name name') eqn:En|]; simpl.
  - apply Ascii.eqb_eq in E. apply String.eqb_eq in En. subst symbol' name'.
    now rewrite (lookup2_append2_same Ascii.eqb Ascii.eqb_eq).
  - rewrite app_nil_r, (lookup2_append2_other Ascii.eqb Ascii.eqb_eq); [reflexivity|].
    apply String.eqb_neq in En. congruence.
  - rewrite app_nil_r, (lookup2_append2_other Ascii.eqb Ascii.eqb_eq); [reflexivity|].
    intros [= -> _]. now rewrite Ascii.eqb_refl in E.
Qed.

Lemma process_lines_groups zone lines : forall d,
  ~ In EmptyString lines ->
  exists d',
    _process_lines_from zone lines d = inr d'
    /\ (keys_once d -> keys_once d')
    /\ (no_empty_list Ascii.eqb d -> no_empty_list Ascii.eqb d')
    /\ forall symbol name,
        found (lookup2 Ascii.eqb d' symbol name)
        = found (lookup2 Ascii.eqb d symbol name) ++ group_of zone lines symbol name.
Proof.
  induction lines as [|raw lines IH]; intros d Hne.
  - exists d. split; [reflexivity|]. split; [trivial|]. split; [trivial|].
    intros. symmetry. apply app_nil_r.
  - destruct raw as [|symbol rest]; [elim Hne; now left|].
    rewrite process_lines_step.
    assert (Hne' : ~ In EmptyString lines) by (intros H; apply Hne; now right).
    change (group_of zone (String symbol rest :: lines))
      with (group_of zone ([String symbol rest] ++ lines)).
    destruct (kept_line zone (String symbol rest)) as [[[s n] l]|] eqn:Hk.
    + destruct (IH (append2 Ascii.eqb s n [l] d) Hne') as [d' [Hrun [Hkeys [Hfull Hg]]]].
      exists d'. split; [exact Hrun|]. split; [|split].
      * intros H. apply Hkeys, keys_once_append2; [apply Ascii.eqb_eq|exact H].
      * intros H. apply Hfull, no_empty_list_append2;
          [apply Ascii.eqb_eq|discriminate|exact H].
      * intros symbol' name'. rewrite Hg, found_append2, group_of_app, <- app_assoc.
        f_equal. f_equal. unfold group_of. cbn [flat_map]. rewrite Hk.
        now rewrite app_nil_r.
    + destruct (IH d Hne') as [d' [Hrun [Hkeys [Hfull Hg]]]].
      exists d'. split; [exact Hrun|]. split; [exact Hkeys|]. split; [exact Hfull|].
      intros symbol' name'. rewrite Hg, group_of_app. f_equal.
      unfold group_of. cbn [flat_map]. now rewrite Hk.
Qed.

Lemma process_lines_empty_line zone lines : forall d,
  In EmptyString lines -> _process_lines_from zone lines d = inl IndexError.
Proof.
  induction lines as [|raw lines IH]; intros d Hin; [contradiction|].
  destruct raw as [|symbol rest]; [reflexivity|].
  rewrite process_lines_step. apply IH. now destruct Hin.
Qed.

Lemma lines_without_empty directory : ~ In EmptyString (_lines directory).
Proof.
  intros H. pose proof (lines_not_empty directory) as Hall.
  rewrite Forall_forall in Hall. now apply (Hall _ H).
Qed.

(** X1.  [_process_lines] fails on an empty line only, with [IndexError]
    (the symbol is read from the first character), and so never on the lines
    [_lines] returns.  When it succeeds, the list stored under a symbol and
    an owner name is made of the fields of the kept lines of that symbol and
    name, in the order of the input; no key is stored twice and no stored
    list is empty. *)
Theorem X1_process_lines_groups :
  forall zone lines,
    (In EmptyString lines -> _process_lines zone lines = inl IndexError)
    /\ (~ In EmptyString lines ->
        exists data,
          _process_lines zone lines = inr data
          /\ keys_once data
          /\ no_empty_list Ascii.eqb data
          /\ forall symbol name,
              found (lookup2 Ascii.eqb data symbol name)
              = group_of zone lines symbol name)
    /\ (forall directory, lines = _lines directory -> ~ In EmptyString lines).
Proof.
  intros zone lines. split; [|split].
  - apply process_lines_empty_line.
  - intros Hne. destruct (process_lines_groups zone lines [] Hne)
      as [data [Hrun [Hkeys [Hfull Hg]]]].
    exists data. split; [exact Hrun|]. split; [|split].
    + apply Hkeys, keys_once_empty.
    + apply Hfull. intros k name l H. discriminate.
    + intros symbol name. now rewrite Hg.
  - intros directory ->. apply lines_without_empty.
Qed.

(** *** Lines that are passed over *)

Section OdictFilter.
Context {K V : Type} (eqb : K -> K -> bool).
Hypothesis eqb_eq : forall a b, eqb a b = true <-> a = b.
Variable keep : K -> bool.

Lemma filter_update_out k (f : V -> V) dflt (d : odict K V) :
  keep k = false ->
  filter (fun kv => keep (fst kv)) (od_update eqb k f dflt d)
  = filter (fun kv => keep (fst kv)) d.
Proof.
  intros Hk. induction d as [|[k0 v] d IH]; simpl.
  - now rewrite Hk.
  - destruct (eqb k0 k) eqn:E; simpl.
    + apply eqb_eq in E. subst k0. now rewrite Hk.
    + now rewrite IH.
Qed.

Lemma filter_update_in k (f : V -> V) dflt (d : odict K V) :
  keep k = true ->
  filter (fun kv => keep (fst kv)) (od_update eqb k f dflt d)
  = od_update eqb k f dflt (filter (fun kv => keep (fst kv)) d).
Proof.
  intros Hk. induction d as [|[k0 v] d IH]; simpl.
  - now rewrite Hk.
  - destruct (eqb k0 k) eqn:E; simpl.
    + pose proof E as E'. apply eqb_eq in E'. subst k0. rewrite Hk. simpl.
      now rewrite E.
    + destruct (keep k0); simpl; [rewrite E|]; now rewrite IH.
Qed.

End OdictFilter.

Lemma symbols_loop_supported self zone symbols : forall types,
  symbols_loop ucn_getcode wrap_words self zone symbols types
  = symbols_loop ucn_getcode wrap_words self zone
      (filter (fun kv => match SYMBOL_MAP ucn_getcode wrap_words self (fst kv) with
                         | Some _ => true
                         | None => false
                         end) symbols)
      types.
Proof.
  induction symbols as [|[symbol names] symbols IH]; intros types; [reflexivity|].
  cbn [symbols_loop filter fst].
  destruct (SYMBOL_MAP _ _ _ symbol) as [h|] eqn:Hs; [|apply IH].
  cbn [symbols_loop]. rewrite Hs.
  destruct (names_loop h zone names types); [reflexivity|apply IH].
Qed.

Lemma kept_line_symbol zone symbol rest s n l :
  kept_line zone (String symbol rest) = Some (s, n, l) -> s = symbol.
Proof.
  cbn [kept_line]. destruct (fields_of rest) as [|name more]; [discriminate|].
  destruct (NameRe.matches _ _); [|discriminate]. now intros [= <- _ _].
Qed.

Lemma process_lines_supported (keep : ascii -> bool) zone lines : forall d1 d2,
  filter (fun kv => keep (fst kv)) d1 = filter (fun kv => keep (fst kv)) d2 ->
  match _process_lines_from zone lines d1, _process_lines_from zone lines d2 with
  | inl e1, inl e2 => e1 = e2
  | inr a, inr b =>
      filter (fun kv => keep (fst kv)) a = filter (fun kv => keep (fst kv)) b
  | _, _ => False
  end.
Proof.
  induction lines as [|raw lines IH]; intros d1 d2 H; [exact H|].
  destruct raw as [|symbol rest]; [reflexivity|].
  rewrite !process_lines_step.
  destruct (kept_line zone (String symbol rest)) as [[[s n] l]|]; [|now apply IH].
  apply IH. unfold append2. destruct (keep s) eqn:Hs.
  - rewrite !(filter_update_in Ascii.eqb Ascii.eqb_eq keep) by exact Hs.
    now rewrite H.
  - now rewrite !(filter_update_out Ascii.eqb Ascii.eqb_eq keep) by exact Hs.
Qed.

(** X2.  A line that is passed over leaves no trace: taking away a line
    whose owner name the pattern of the zone rejects, or a line whose symbol
    has no handler in [SYMBOL_MAP], changes neither the records of the
    forward path nor the exception it ends with. *)
Theorem X2_skipped_line_leaves_no_trace :
  forall self zone pre symbol rest post,
    kept_line zone (String symbol rest) = None
    \/ SYMBOL_MAP ucn_getcode wrap_words self symbol = None ->
    _populate_normal ucn_getcode wrap_words self zone
      (pre ++ String symbol rest :: post)
    = _populate_normal ucn_getcode wrap_words self zone (pre ++ post).
Proof.
  intros self zone pre symbol rest post Hskip.
  unfold _populate_normal, _process_lines. rewrite !process_lines_app.
  destruct (_process_lines_from zone pre []) as [e|d0]; [reflexivity|].
  cbn [bind]. rewrite process_lines_step.
  destruct (kept_line zone (String symbol rest)) as [[[s n] l]|] eqn:Hk;
    [|reflexivity].
  destruct Hskip as [Hnone|Hsym]; [discriminate|].
  apply kept_line_symbol in Hk. subst s.
  set (keep := fun c => match SYMBOL_MAP ucn_getcode wrap_words self c with
                        | Some _ => true
                        | None => false
                        end).
  assert (Hout : keep symbol = false) by (unfold keep; now rewrite Hsym).
  pose proof (process_lines_supported keep zone post
                (append2 Ascii.eqb symbol n [l] d0) d0
                (filter_update_out Ascii.eqb Ascii.eqb_eq keep symbol _ _ d0 Hout))
    as Hrel.
  destruct (_process_lines_from zone post (append2 Ascii.eqb symbol n [l] d0))
    as [e1|a]; destruct (_process_lines_from zone post d0) as [e2|b];
    try contradiction; [now subst|].
  unfold _process_symbols.
  rewrite (symbols_loop_supported self zone a), (symbols_loop_supported self zone b).
  unfold keep in Hrel. cbv beta in Hrel. now rewrite Hrel.
Qed.

(** *** What the handlers yield for a group that is not empty *)

Lemma all_full_append2 {K V : Type} (eqb : K -> K -> bool) k name (vs : list V)
  (d : odict K (odict string (list V))) :
  vs <> [] -> all_full d -> all_full (append2 eqb k name vs d).
Proof.
  intros Hvs Hd. unfold all_full, append2.
  apply (od_update_all eqb (fun names => Forall (fun nv : string * list V => snd nv <> []) names)).
  - simpl. constructor; [exact Hvs|constructor].
  - intros names Hn.
    apply (od_update_all String.eqb (fun l : list V => l <> [])); trivial.
    intros l _ H. apply app_eq_nil in H as [_ H]. contradiction.
  - exact Hd.
Qed.

Lemma process_lines_all_full zone lines : forall d d',
  _process_lines_from zone lines d = inr d' -> all_full d -> all_full d'.
Proof.
  induction lines as [|raw lines IH]; intros d d' H Hd.
  - now injection H as <-.
  - destruct raw as [|symbol rest]; [discriminate|].
    rewrite process_lines_step in H. apply IH in H; [exact H|].
    destruct (kept_line zone (String symbol rest)) as [[[s n] l]|]; [|exact Hd].
    apply all_full_append2; [discriminate|exact Hd].
Qed.

Lemma full_events_yield_from g : full_events g -> full_events (yield_from g stop).
Proof.
  unfold full_events, yield_from. intros H.
  destruct (snd g); [exact H|]. simpl. now rewrite app_nil_r.
Qed.

Lemma dot_loop_full zone name todo : forall values,
  values <> [] \/ todo <> [] -> full_events (dot_loop zone name todo values).
Proof.
  induction todo as [|l todo IH]; intros values Hv; simpl.
  - constructor; [|constructor]. simpl. now destruct Hv.
  - destruct (item l 2) as [e|ns]; [constructor|].
    destruct (item l 1) as [e|ip]; [constructor|].
    assert (Hrest : full_events (dot_loop zone name todo
                                   (values ++ [Str (complete_host zone ns)]))).
    { apply IH. left. intros H. apply app_eq_nil in H as [_ H]. discriminate. }
    destruct (PyStr.truthy ip); [|exact Hrest].
    constructor; [discriminate|exact Hrest].
Qed.

Lemma at_loop_full zone name todo : forall values,
  values <> [] \/ todo <> [] -> full_events (at_loop zone name todo values).
Proof.
  induction todo as [|l todo IH]; intros values Hv; simpl.
  - constructor; [|constructor]. simpl. now destruct Hv.
  - destruct (item l 2) as [e|mx]; [constructor|].
    destruct (item l 1) as [e|ip]; [constructor|].
    match goal with
    | |- context [at_loop zone name todo ?vs] =>
        assert (Hrest : full_events (at_loop zone name todo vs))
    end.
    { apply IH. left. intros H. apply app_eq_nil in H as [_ H]. discriminate. }
    destruct (PyStr.truthy ip); [|exact Hrest].
    constructor; [discriminate|exact Hrest].
Qed.

Lemma quote_values_length lines vs :
  quote_values ucn_getcode lines = inr vs -> List.length vs = List.length lines.
Proof.
  revert vs. induction lines as [|l lines IH]; simpl; intros vs H.
  - now injection H as <-.
  - destruct (quote_value ucn_getcode l); [discriminate|]. simpl in H.
    destruct (quote_values ucn_getcode lines) as [e|vs']; [discriminate|].
    injection H as <-. simpl. now rewrite (IH vs' eq_refl).
Qed.

Lemma three_ips_length lines ips :
  three_ips wrap_words lines = inr ips -> List.length ips = List.length lines.
Proof.
  revert ips. induction lines as [|l lines IH]; simpl; intros ips H.
  - now injection H as <-.
  - destruct (three_ip wrap_words l); [discriminate|]. simpl in H.
    destruct (three_ips wrap_words lines) as [e|ips']; [discriminate|].
    injection H as <-. simpl. now rewrite (IH ips' eq_refl).
Qed.

Lemma plus_full self zone name lines :
  full_events (_records_for_plus self zone name lines false).
Proof.
  unfold _records_for_plus.
  destruct (plus_ips lines) as [e|[|ip ips]]; try constructor.
  destruct (find_ttl _ _ _ _); constructor; [discriminate|constructor].
Qed.

Lemma three_full self zone name lines :
  lines <> [] -> full_events (_records_for_three wrap_words self zone name lines false).
Proof.
  intros Hl. unfold _records_for_three.
  destruct (three_ips wrap_words lines) as [e|ips] eqn:Hips; [constructor|].
  destruct (find_ttl _ _ _ _); constructor; [|constructor].
  simpl. apply three_ips_length in Hips.
  destruct ips; [|discriminate]. now destruct lines.
Qed.

Lemma handler_full self zone symbol h name lines :
  SYMBOL_MAP ucn_getcode wrap_words self symbol = Some h ->
  lines <> [] -> full_events (h zone name lines false).
Proof.
  unfold SYMBOL_MAP. intros Hh Hl.
  repeat match type of Hh with
         | (if ?c then _ else _) = _ => destruct c
         end;
    try discriminate; injection Hh as <-.
  - apply full_events_yield_from, plus_full.
  - constructor.
  - unfold _records_for_dot. destruct (find_ttl _ _ _ _); [constructor|].
    apply dot_loop_full. now right.
  - unfold _records_for_C.
    destruct (first <- item lines 0;; item first 1) as [e|value]; [constructor|].
    destruct (PyStr.last value); [|constructor].
    destruct (find_ttl _ _ _ _); constructor; [discriminate|constructor].
  - apply plus_full.
  - unfold _records_for_at. destruct (find_ttl _ _ _ _); [constructor|].
    apply at_loop_full. now right.
  - unfold _records_for_amp, _records_for_dot.
    destruct (find_ttl _ _ _ _); [constructor|]. apply dot_loop_full. now right.
  - unfold _records_for_quote.
    destruct (quote_values ucn_getcode lines) as [e|vs] eqn:Hvs; [constructor|].
    destruct (find_ttl _ _ _ _); constructor; [|constructor].
    simpl. apply quote_values_length in Hvs.
    destruct vs; [|discriminate]. now destruct lines.
  - now apply three_full.
  - now apply full_events_yield_from, three_full.
Qed.

(** *** The records of a run *)

Lemma extend_all_full evs : forall types,
  Forall (fun ev : event => snd ev <> []) evs -> all_full types ->
  all_full (fold_left extend evs types).
Proof.
  induction evs as [|[[t n] vs] evs IH]; intros types Hevs Ht; [exact Ht|].
  inversion Hevs as [|? ? Hv Hrest]; subst. cbn [fold_left].
  apply IH; [exact Hrest|]. rewrite extend_append2.
  now apply all_full_append2.
Qed.

Lemma names_loop_all_full self zone symbol h names : forall types types',
  SYMBOL_MAP ucn_getcode wrap_words self symbol = Some h ->
  Forall (fun nv : string * list line => snd nv <> []) names ->
  names_loop h zone names types = inr types' ->
  all_full types -> all_full types'.
Proof.
  intros types types' Hh Hnames. revert types.
  induction Hnames as [|[name lines] names Hl _ IH]; intros types H Ht.
  - now injection H as <-.
  - cbn [names_loop] in H.
    destruct (snd (h zone name lines false)); [discriminate|].
    apply IH in H; [exact H|]. apply extend_all_full; [|exact Ht].
    apply (handler_full self zone symbol h name lines Hh Hl).
Qed.

Lemma symbols_loop_all_full self zone symbols : forall types types',
  all_full symbols ->
  symbols_loop ucn_getcode wrap_words self zone symbols types = inr types' ->
  all_full types -> all_full types'.
Proof.
  induction symbols as [|[symbol names] symbols IH]; intros types types' Hs H Ht.
  - now injection H as <-.
  - inversion Hs as [|? ? Hnames Hrest]; subst. cbn [symbols_loop] in H.
    destruct (SYMBOL_MAP _ _ _ symbol) as [h|] eqn:Hh; [|now apply (IH types)].
    destruct (names_loop h zone names types) as [e|t] eqn:Hn; [discriminate|].
    cbn [bind] in H. apply (IH t); trivial.
    apply (names_loop_all_full self zone symbol h names types t Hh Hnames Hn Ht).
Qed.

Lemma normal_names_no_raise self ttls _type names next :
  Forall (fun nv : string * list value => snd nv <> []) names ->
  snd next = None ->
  snd (normal_names self ttls _type names next) = None.
Proof.
  intros Hnames Hnext. induction Hnames as [|[name values] names Hv _ IH];
    [exact Hnext|].
  cbn [normal_names]. destruct (1 <? List.length values)%nat; [exact IH|].
  destruct values as [|v values]; [now elim Hv|]. exact IH.
Qed.

Lemma normal_types_no_raise self ttls types :
  all_full types -> snd (normal_types self ttls types) = None.
Proof.
  induction 1 as [|[_type names] types Hn _ IH]; [reflexivity|].
  cbn [normal_types]. now apply normal_names_no_raise.
Qed.

Lemma entries_nodup {K V : Type} (d : odict K (odict string (list V))) :
  keys_once d -> NoDup (map fst (entries d)).
Proof.
  intros [Hk Hn]. induction d as [|[k names] d IH]; [constructor|].
  inversion Hk as [|? ? Hnin Hk']; subst. inversion Hn as [|? ? Hnames Hn']; subst.
  unfold entries. cbn [flat_map fst snd]. rewrite map_app. apply NoDup_app.
  - rewrite map_map. cbn [fst]. simpl in Hnames.
    clear - Hnames. induction names as [|[n l] names IHn]; [constructor|].
    inversion Hnames as [|? ? Hnin Hrest]; subst. cbn [map fst snd].
    constructor; [|now apply IHn].
    intros Hin. apply in_map_iff in Hin as [[n' l'] [[= ->] Hin]].
    apply Hnin. apply in_map_iff. now exists (n, l').
  - now apply IH.
  - intros [k' n'] Hin1 Hin2.
    apply in_map_iff in Hin1 as [[[k1 n1] l1] [E1 Hin1]].
    apply in_map_iff in Hin1 as [[n0 l0] [E0 _]].
    apply in_map_iff in Hin2 as [[[k2 n2] l2] [E2 Hin2]].
    unfold entries in Hin2.
    apply in_flat_map in Hin2 as [[k0 names0] [Hin0 Hin2]].
    apply in_map_iff in Hin2 as [[n3 l3] [E3 _]].
    cbn [fst snd] in *. injection E0 as E0 _ _. injection E1 as E1 _.
    injection E2 as E2 _. injection E3 as E3 _ _.
    apply Hnin. apply in_map_iff. exists (k0, names0). split; [|exact Hin0].
    cbn [fst]. congruence.
Qed.

Lemma normal_names_body self ttls _type names next :
  Forall (fun r : string * data =>
            match body (snd r) with
            | Value _ => True
            | Values vs => (2 <= List.length vs)%nat
            end) (fst next) ->
  Forall (fun r : string * data =>
            match body (snd r) with
            | Value _ => True
            | Values vs => (2 <= List.length vs)%nat
            end) (fst (normal_names self ttls _type names next)).
Proof.
  intros Hnext. induction names as [|[name values] names IH]; [exact Hnext|].
  cbn [normal_names]. destruct (1 <? List.length values)%nat eqn:Hlen.
  - constructor; [|exact IH]. simpl. now apply Nat.ltb_lt in Hlen.
  - destruct (item values 0); [constructor|]. constructor; [exact I|exact IH].
Qed.

Lemma normal_types_body self ttls types :
  Forall (fun r : string * data =>
            match body (snd r) with
            | Value _ => True
            | Values vs => (2 <= List.length vs)%nat
            end) (fst (normal_types self ttls types)).
Proof.
  induction types as [|[_type names] types IH]; [constructor|].
  cbn [normal_types]. now apply normal_names_body.
Qed.

(** The state of the forward path before the records are made. *)
Lemma populate_normal_cases self zone lines :
  (exists e, _populate_normal ucn_getcode wrap_words self zone lines = raise e)
  \/ exists types,
      keys_once types /\ all_full types
      /\ _populate_normal ucn_getcode wrap_words self zone lines
         = (map (record_of self) (entries types), None).
Proof.
  unfold _populate_normal, _process_lines.
  destruct (_process_lines_from zone lines []) as [e|symbols] eqn:Hl;
    [left; now exists e|].
  unfold _process_symbols.
  destruct (symbols_loop _ _ _ _ symbols []) as [e|types] eqn:Hs;
    [left; now exists e|].
  right. exists types. cbn [bind].
  assert (Hfull : all_full types).
  { apply (symbols_loop_all_full self zone symbols [] types); trivial.
    - apply (process_lines_all_full zone lines [] symbols Hl). constructor.
    - constructor. }
  assert (Hkeys : keys_once types).
  { apply symbols_loop_grows in Hs as [_ K]. apply K, keys_once_empty. }
  split; [exact Hkeys|]. split; [exact Hfull|].
  pose proof (normal_types_no_raise self [] types Hfull) as Hnone.
  destruct (normal_types self [] types) as [recs o] eqn:Hn. simpl in Hnone. subst o.
  now rewrite (normal_types_records self types recs Hn).
Qed.


(** X4.  The forward path makes at most one record for a type and an owner
    name, whatever the lines; a record with a list of values has at least
    two of them, a single value being stored as a single value. *)
Theorem X4_one_record_per_type_and_name :
  forall self zone lines,
    let recs := fst (_populate_normal ucn_getcode wrap_words self zone lines) in
    NoDup (map (fun r : string * data => (type (snd r), fst r)) recs)
    /\ Forall (fun r : string * data =>
                 match body (snd r) with
                 | Value _ => True
                 | Values vs => (2 <= List.length vs)%nat
                 end) recs.
Proof.
  intros self zone lines recs. subst recs. split.
  - destruct (populate_normal_cases self zone lines)
      as [[e ->]|[types [Hkeys [_ ->]]]]; [constructor|].
    cbn [fst]. rewrite map_map.
    replace (map (fun e => (type (snd (record_of self e)), fst (record_of self e)))
                 (entries types))
      with (map fst (entries types)).
    + now apply entries_nodup.
    + apply map_ext. now intros [[t n] vs].
  - unfold _populate_normal.
    destruct (_process_lines zone lines) as [e|symbols]; [constructor|].
    destruct (_process_symbols _ _ _ _ _) as [e|[types ttls]]; [constructor|].
    apply normal_types_body.
Qed.

(** *** The exceptions of the forward path *)

Lemma item_forward {A : Type} (l : list A) i e : item l i = inl e -> e = IndexError.
Proof. unfold item. destruct (nth_error l i); [discriminate|]. now intros [= <-]. Qed.















(** *** The events of the NS and MX handlers *)

Lemma nth_error_1_of_2 (l : line) host :
  nth_error l 2 = Some host -> exists ip, nth_error l 1 = Some ip.
Proof. destruct l as [|a [|b l]]; try discriminate. now exists b. Qed.

Lemma dot_loop_events zone name good : forall values bad,
  Forall (fun l : line => nth_error l 2 <> None) good ->
  dot_loop zone name (good ++ bad) values
  = (flat_map (address_events zone) good
       ++ fst (dot_loop zone name bad (values ++ flat_map (ns_value zone) good)),
     snd (dot_loop zone name bad (values ++ flat_map (ns_value zone) good))).
Proof.
  induction good as [|l good IH]; intros values bad Hgood.
  - cbn [app flat_map]. rewrite app_nil_r. now destruct (dot_loop zone name bad values).
  - inversion Hgood as [|? ? Hl Hrest]; subst.
    destruct (nth_error l 2) as [host|] eqn:H2; [|contradiction].
    destruct (nth_error_1_of_2 l host H2) as [ip H1].
    cbn [app dot_loop flat_map]. unfold item. rewrite H2, H1.
    rewrite (IH _ bad Hrest). unfold address_events, ns_value. rewrite H1, H2.
    rewrite <- !app_assoc. cbn [app].
    destruct (PyStr.truthy ip); reflexivity.
Qed.

Lemma at_loop_events zone name good : forall values bad,
  Forall (fun l : line => nth_error l 2 <> None) good ->
  at_loop zone name (good ++ bad) values
  = (flat_map (address_events zone) good
       ++ fst (at_loop zone name bad (values ++ flat_map (mx_value zone) good)),
     snd (at_loop zone name bad (values ++ flat_map (mx_value zone) good))).
Proof.
  induction good as [|l good IH]; intros values bad Hgood.
  - cbn [app flat_map]. rewrite app_nil_r. now destruct (at_loop zone name bad values).
  - inversion Hgood as [|? ? Hl Hrest]; subst.
    destruct (nth_error l 2) as [host|] eqn:H2; [|contradiction].
    destruct (nth_error_1_of_2 l host H2) as [ip H1].
    cbn [app at_loop flat_map]. rewrite distance_item. unfold item. rewrite H2, H1.
    rewrite (IH _ bad Hrest). unfold address_events, mx_value. rewrite H1, H2.
    rewrite <- !app_assoc. cbn [app].
    destruct (PyStr.truthy ip); reflexivity.
Qed.

(** X6.  For a group of [.] (or [&]) lines, and for a group of [@] lines,
    whose first line has an absent or integer ttl field: when every line has
    a host field, the handler yields, line by line, an A event for the
    completed host name relative to the zone for each line that carries an
    address, and then the one NS (MX) event with a value per line.  When a
    line lacks the host field, the A events of the lines before it are
    yielded, then the handler ends with [IndexError] and no NS (MX) event. *)
Theorem X6_ns_mx_events :
  forall self zone name good,
    Forall (fun l : line => nth_error l 2 <> None) good ->
    (ttl_readable 3 good = true ->
     _records_for_dot self zone name good false
     = (flat_map (address_events zone) good
          ++ [("NS", name, flat_map (ns_value zone) good)], None))
    /\ (ttl_readable 4 good = true ->
        _records_for_at self zone name good false
        = (flat_map (address_events zone) good
             ++ [("MX", name, flat_map (mx_value zone) good)], None))
    /\ (forall bad rest,
           nth_error bad 2 = None ->
           (ttl_readable 3 (good ++ bad :: rest) = true ->
            _records_for_dot self zone name (good ++ bad :: rest) false
            = (flat_map (address_events zone) good, Some IndexError))
           /\ (ttl_readable 4 (good ++ bad :: rest) = true ->
               _records_for_at self zone name (good ++ bad :: rest) false
               = (flat_map (address_events zone) good, Some IndexError))).
Proof.
  intros self zone name good Hgood. split; [|split].
  - intros Httl. unfold _records_for_dot.
    destruct (find_ttl_readable good 3 (default_ttl self) Httl) as [n ->].
    rewrite <- (app_nil_r good) at 1. now rewrite dot_loop_events.
  - intros Httl. unfold _records_for_at.
    destruct (find_ttl_readable good 4 (default_ttl self) Httl) as [n ->].
    rewrite <- (app_nil_r good) at 1. now rewrite at_loop_events.
  - intros bad rest Hbad. split; intros Httl.
    + unfold _records_for_dot.
      destruct (find_ttl_readable _ 3 (default_ttl self) Httl) as [n ->].
      rewrite dot_loop_events by exact Hgood. cbn [dot_loop]. unfold item.
      rewrite Hbad. cbn. now rewrite app_nil_r.
    + unfold _records_for_at.
      destruct (find_ttl_readable _ 4 (default_ttl self) Httl) as [n ->].
      rewrite at_loop_events by exact Hgood. cbn [at_loop]. unfold item.
      rewrite Hbad. cbn. now rewrite app_nil_r.
Qed.

(** *** The CNAME handler and the handlers in [in_addr] mode *)

Lemma last_append_char s c : PyStr.last (s ++ String c EmptyString) = Some c.
Proof.
  induction s as [|a s IH]; [reflexivity|].
  simpl. rewrite IH. now destruct (s ++ String c "")%string eqn:E; [destruct s|].
Qed.

Lemma last_none s : PyStr.last s = None -> s = EmptyString.
Proof.
  induction s as [|a s IH]; [reflexivity|].
  simpl. destruct s as [|b s]; [discriminate|].
  intros H. apply IH in H. discriminate.
Qed.

(** X7.  Of a group of [C] lines only the first counts: the lines after it
    change nothing.  The handler yields at most one event, a CNAME event
    with one value that ends in a dot: the target of the first line, with a
    dot added when it has none.  It ends with [IndexError] when the first
    line has no target or an empty one. *)
Theorem X7_cname_first_line :
  forall self zone name l rest in_addr,
    _records_for_C self zone name (l :: rest) in_addr
    = _records_for_C self zone name [l] in_addr
    /\ Forall (fun ev : event =>
                 exists target, ev = ("CNAME", name, [Str target])
                                /\ PyStr.last target = Some "."%char)
              (fst (_records_for_C self zone name (l :: rest) in_addr))
    /\ (nth_error l 1 = None \/ nth_error l 1 = Some EmptyString ->
        _records_for_C self zone name (l :: rest) false = raise IndexError)
    /\ (forall target,
           nth_error l 1 = Some target -> target <> EmptyString ->
           ttl_readable 2 [l] = true ->
           _records_for_C self zone name (l :: rest) false
           = ([("CNAME", name,
                [Str (match PyStr.last target with
                      | Some "."%char => target
                      | _ => (target ++ ".")%string
                      end)])], None)).
Proof.
  intros self zone name l rest in_addr.
  assert (Hsame : _records_for_C self zone name (l :: rest) in_addr
                  = _records_for_C self zone name [l] in_addr).
  { unfold _records_for_C. now rewrite !find_ttl_first. }
  split; [exact Hsame|]. split; [|split].
  - unfold _records_for_C. destruct in_addr; [constructor|].
    cbv [item nth_error bind]. fold (@nth_error string).
    destruct l as [|f0 [|target l']]; try constructor.
    destruct (PyStr.last target) as [c|] eqn:Hlast; [|constructor].
    destruct (find_ttl _ _ _ _); constructor; [|constructor].
    destruct (Ascii.eqb c ".") eqn:Hc.
    + apply Ascii.eqb_eq in Hc. subst c. now exists target.
    + exists (target ++ ".")%string. split; [reflexivity|apply last_append_char].
  - unfold _records_for_C. intros [H|H].
    + destruct l as [|f0 [|target l']]; try reflexivity. discriminate.
    + destruct l as [|f0 [|target l']]; try discriminate.
      injection H as ->. reflexivity.
  - intros target Ht Hne Httl. destruct l as [|f0 [|t l']]; try discriminate.
    injection Ht as ->. unfold _records_for_C. cbv [item bind nth_error].
    destruct (PyStr.last target) as [c|] eqn:Hlast.
    2:{ apply last_none in Hlast. contradiction. }
    rewrite find_ttl_first. unfold ttl_readable in Httl.
    assert (Hval : (if Ascii.eqb c "." then target else (target ++ ".")%string)
                   = match Some c with
                     | Some "."%char => target
                     | _ => (target ++ ".")%string
                     end).
    { destruct (Ascii.eqb c ".") eqn:Hc.
      - apply Ascii.eqb_eq in Hc. now subst c.
      - destruct c as [[] [] [] [] [] [] [] []]; try reflexivity. discriminate. }
    rewrite Hval.
    destruct (nth_error (f0 :: target :: l') 2) as [field|]; [|reflexivity].
    destruct (PyLib.int field); [reflexivity|discriminate].
Qed.

Lemma yield_from_stop (g : gen) : yield_from g stop = g.
Proof.
  unfold yield_from. destruct g as [evs [e|]]; [reflexivity|].
  simpl. now rewrite app_nil_r.
Qed.

(** X8.  In [in_addr] mode no handler yields an event: the handlers of [=],
    [^] and [6] end with [NotImplementedError], the others return at once.
    In forward mode the handler of [=] is the handler of [+] and the handler
    of [6] is the handler of [3]: same events, same ending. *)
Theorem X8_handlers_in_addr_mode :
  forall self zone name lines symbol h,
    SYMBOL_MAP ucn_getcode wrap_words self symbol = Some h ->
    h zone name lines true
    = (if Ascii.eqb symbol "=" || Ascii.eqb symbol "^" || Ascii.eqb symbol "6"
       then raise NotImplementedError else stop)
    /\ _records_for_equal self zone name lines false
       = _records_for_plus self zone name lines false
    /\ _records_for_six wrap_words self zone name lines false
       = _records_for_three wrap_words self zone name lines false.
Proof.
  intros self zone name lines symbol h Hh. split; [|split].
  - unfold SYMBOL_MAP in Hh.
    destruct (Ascii.eqb symbol "=") eqn:E1; [now injection Hh as <-|].
    destruct (Ascii.eqb symbol "^") eqn:E2; [now injection Hh as <-|].
    destruct (Ascii.eqb symbol "6") eqn:E3.
    + apply Ascii.eqb_eq in E3. subst symbol. cbn in Hh. now injection Hh as <-.
    + repeat match type of Hh with
             | (if ?c then _ else _) = _ => destruct c
             end;
        try discriminate; injection Hh as <-; reflexivity.
  - unfold _records_for_equal. cbn [_records_for_caret negb]. apply yield_from_stop.
  - unfold _records_for_six. cbn [_records_for_caret negb]. apply yield_from_stop.
Qed.

(** *** The names the pattern accepts *)






(** *** Completed host names *)

Lemma last_append_nonempty a b :
  b <> EmptyString -> PyStr.last (a ++ b) = PyStr.last b.
Proof.
  intros Hb. induction a as [|c a IH]; [reflexivity|].
  cbn [append PyStr.last]. rewrite IH.
  destruct (a ++ b)%string eqn:E; [|reflexivity].
  destruct a; [now elim Hb|discriminate].
Qed.

Lemma last_contains s c : PyStr.last s = Some c -> PyStr.contains c s = true.
Proof.
  induction s as [|a s IH]; [discriminate|].
  simpl. destruct s as [|b s].
  - intros [= ->]. now rewrite Ascii.eqb_refl.
  - intros H. rewrite (IH H). apply orb_true_r.
Qed.

(** X10.  In a zone whose name ends in a dot, every completed host name
    ends in a dot, and completing it again changes nothing: the values of NS
    records and the exchanges of MX records are always fully qualified. *)
Theorem X10_completed_host_is_qualified :
  forall zone host,
    PyStr.last (Zone.name zone) = Some "."%char ->
    PyStr.last (complete_host zone host) = Some "."%char
    /\ complete_host zone (complete_host zone host) = complete_host zone host.
Proof.
  intros zone host Hz.
  assert (Hlast : PyStr.last (complete_host zone host) = Some "."%char).
  { unfold complete_host. destruct (PyStr.contains "." host); simpl.
    - destruct (PyStr.last host) as [c|] eqn:Hl; [|apply last_append_char].
      destruct (Ascii.ascii_dec c ".") as [->|Hc]; [exact Hl|].
      destruct c as [[] [] [] [] [] [] [] []]; try apply last_append_char.
      now elim Hc.
    - rewrite last_append_nonempty by discriminate.
      change (".ns." ++ Zone.name zone)%string
        with (String "." (String "n" (String "s" (String "." (Zone.name zone))))).
      destruct (Zone.name zone) as [|a z] eqn:Ez; [discriminate|].
      exact Hz. }
  split; [exact Hlast|].
  unfold complete_host at 1. rewrite (last_contains _ _ Hlast), Hlast. reflexivity.
Qed.

(** *** The pieces of an AAAA value *)

Lemma without_append c a b : without c (a ++ b) = (without c a ++ without c b)%string.
Proof.
  induction a as [|x a IH]; [reflexivity|].
  simpl. destruct (Ascii.eqb x c); simpl; now rewrite IH.
Qed.

Lemma without_absent c s : PyStr.contains c s = false -> without c s = s.
Proof.
  induction s as [|a s IH]; [reflexivity|]. simpl. intros H.
  apply orb_false_iff in H as [Ha Hs]. rewrite Ha. now rewrite IH.
Qed.

Lemma pieces4_join_upto n : forall s,
  (String.length s <= n)%nat ->
  PyStr.contains ":" s = false ->
  without ":" (PyStr.join ":" (PyLib.pieces4 s)) = s
  /\ Forall (fun p => (1 <= String.length p <= 4)%nat) (PyLib.pieces4 s).
Proof.
  induction n as [|n IH]; intros s Hlen Hcolon.
  - destruct s; [split; [reflexivity|constructor]|simpl in Hlen; lia].
  - destruct s as [|a [|b [|c [|d [|e r]]]]];
      try (split; [exact (without_absent ":" _ Hcolon)
                  |constructor; [simpl; lia|constructor]]).
    + split; [reflexivity|constructor].
    + simpl in Hcolon.
      apply orb_false_iff in Hcolon as [Ha Hcolon].
      apply orb_false_iff in Hcolon as [Hb Hcolon].
      apply orb_false_iff in Hcolon as [Hc Hcolon].
      apply orb_false_iff in Hcolon as [Hd Hrest].
      change (PyStr.contains ":" (String e r) = false) in Hrest.
      destruct (IH (String e r)) as [Hjoin Hall]; [simpl in *; lia|exact Hrest|].
      change (PyLib.pieces4 (String a (String b (String c (String d (String e r))))))
        with (String a (String b (String c (String d EmptyString)))
              :: PyLib.pieces4 (String e r)).
      split.
      * unfold PyStr.join in *. cbn [String.concat].
        destruct (PyLib.pieces4 (String e r)) as [|p ps] eqn:Hp.
        { cbn in Hjoin. discriminate. }
        rewrite !without_append, Hjoin.
        cbn. now rewrite Ha, Hb, Hc, Hd.
      * constructor; [simpl; lia|exact Hall].
Qed.

(** X11.  Nothing of the address field of a [3] line is lost or changed:
    for a field without whitespace, hyphen and colon, of any length, taking
    the colons out of the value gives the field back, and every group
    between two colons has one to four characters. *)
Theorem X11_aaaa_value_keeps_the_field :
  forall (l : line) field,
    nth_error l 1 = Some field ->
    PyLib.one_word field = true ->
    PyStr.contains ":" field = false ->
    exists value,
      three_ip wrap_words l = inr value
      /\ without ":" value = field
      /\ value = PyStr.join ":" (PyLib.pieces4 field)
      /\ Forall (fun p => (1 <= String.length p <= 4)%nat) (PyLib.pieces4 field).
Proof.
  intros l field Hl Hword Hcolon.
  destruct (pieces4_join_upto (String.length field) field (le_n _) Hcolon)
    as [Hjoin Hall].
  exists (PyStr.join ":" (PyLib.pieces4 field)).
  split; [|split; [exact Hjoin|split; [reflexivity|exact Hall]]].
  unfold three_ip, item. rewrite Hl. cbn [bind]. unfold PyLib.wrap4.
  now rewrite Hword.
Qed.

(** *** The lines of the files *)

Lemma split_pieces sep s :
  Forall (fun p => PyStr.contains sep p = false) (PyStr.split sep s).
Proof.
  induction s as [|a s IH]; simpl; [now repeat constructor|].
  destruct (Ascii.eqb a sep) eqn:Ha; [now constructor|].
  destruct (PyStr.split sep s) as [|p ps]; [now repeat constructor; simpl; rewrite Ha|].
  inversion IH as [|? ? Hp Hps]; subst. constructor; [|exact Hps].
  simpl. now rewrite Ha.
Qed.

Lemma split_join sep pieces :
  pieces <> [] ->
  Forall (fun p => PyStr.contains sep p = false) pieces ->
  PyStr.split sep (PyStr.join (String sep EmptyString) pieces) = pieces.
Proof.
  intros Hne Hall. induction Hall as [|p pieces Hp Hrest IH]; [now elim Hne|].
  unfold PyStr.join in *. cbn [String.concat].
  destruct pieces as [|q pieces]; [now apply split_absent|].
  cbn [append]. rewrite split_first by exact Hp. f_equal. apply IH. discriminate.
Qed.

Lemma lines_of_file filename text :
  _lines [(filename, text)]
  = if hidden filename then []
    else filter PyStr.truthy (PyStr.split PyStr.LF text).
Proof.
  unfold _lines. cbn [flat_map fst snd]. rewrite app_nil_r.
  destruct filename as [|c filename]; [reflexivity|].
  unfold hidden. destruct c as [[] [] [] [] [] [] [] []]; reflexivity.
Qed.

Lemma lines_app d1 d2 : _lines (d1 ++ d2) = _lines d1 ++ _lines d2.
Proof. apply flat_map_app. Qed.

(** X12.  [_lines] returns the lines of the files in the order of the
    directory listing and, within a file, in the order of the text.  A file
    whose name starts with a dot adds nothing.  A visible file whose text is
    made of pieces joined by newlines adds exactly its pieces that are not
    empty, so that blank lines and a newline at the end of the file leave no
    trace.  No line returned is empty or holds a newline. *)
Theorem X12_lines_of_the_directory :
  forall before filename text after,
    (hidden filename = true ->
     _lines (before ++ (filename, text) :: after) = _lines (before ++ after))
    /\ (forall pieces,
           hidden filename = false ->
           pieces <> [] ->
           Forall (fun p => PyStr.contains PyStr.LF p = false) pieces ->
           text = PyStr.join (String PyStr.LF EmptyString) pieces ->
           _lines (before ++ (filename, text) :: after)
           = _lines before ++ filter PyStr.truthy pieces ++ _lines after)
    /\ Forall (fun raw => raw <> EmptyString /\ PyStr.contains PyStr.LF raw = false)
              (_lines (before ++ (filename, text) :: after)).
Proof.
  intros before filename text after.
  assert (Hcut : _lines (before ++ (filename, text) :: after)
                 = _lines before ++ _lines [(filename, text)] ++ _lines after).
  { change ((filename, text) :: after) with ([(filename, text)] ++ after).
    now rewrite !lines_app. }
  split; [|split].
  - intros Hh. rewrite Hcut, lines_of_file, Hh, lines_app. reflexivity.
  - intros pieces Hh Hne Hall ->. rewrite Hcut, lines_of_file, Hh.
    now rewrite split_join.
  - apply Forall_forall. intros raw Hin. unfold _lines in Hin.
    apply in_flat_map in Hin as [[fname t] [_ Hin]]. cbn [fst snd] in Hin.
    assert (Hf : In raw (filter PyStr.truthy (PyStr.split PyStr.LF t)) ->
                 raw <> EmptyString /\ PyStr.contains PyStr.LF raw = false).
    { intros H. apply filter_In in H as [Hsplit Ht]. split; [now destruct raw|].
      pose proof (split_pieces PyStr.LF t) as Hp. rewrite Forall_forall in Hp.
      now apply Hp. }
    destruct fname as [|c fname]; [now apply Hf|].
    destruct (Ascii.ascii_dec c ".") as [->|Hc]; [contradiction|].
    apply Hf. destruct c as [[] [] [] [] [] [] [] []]; try exact Hin.
    now elim Hc.
Qed.

(** *** The fields of a line *)

Lemma before_append sep a b :
  PyStr.contains sep a = false ->
  PyStr.before sep (a ++ b) = (a ++ PyStr.before sep b)%string.
Proof.
  induction a as [|x a IH]; [reflexivity|]. simpl. intros H.
  apply orb_false_iff in H as [Hx Ha]. rewrite Hx. now rewrite IH.
Qed.

Lemma before_cut sep a c :
  PyStr.contains sep a = false ->
  PyStr.before sep (a ++ String sep c) = a.
Proof.
  intros H. rewrite before_append by exact H. simpl.
  rewrite Ascii.eqb_refl. apply append_empty_r.
Qed.

(** X13.  The fields of a line: everything from the first [#] on is left
    out; the text before the first colon, stripped of the whitespace around
    it, is the first field, and the rest of the text gives the other fields
    in the same way, so that two colons side by side give an empty field;
    there is always a first field. *)
Theorem X13_fields_of_a_line :
  forall a b,
    PyStr.contains "#" a = false ->
    fields_of (a ++ String "#" b) = fields_of a
    /\ fields_of a <> []
    /\ (PyStr.contains ":" a = false ->
        fields_of a = [PyStr.strip a]
        /\ fields_of (a ++ String ":" b) = PyStr.strip a :: fields_of b).
Proof.
  intros a b Hhash. split; [|split].
  - unfold fields_of, uncomment.
    rewrite before_cut by exact Hhash. now rewrite before_absent.
  - apply fields_of_not_empty.
  - intros Hcolon. unfold fields_of, uncomment. split.
    + rewrite before_absent by exact Hhash. now rewrite split_absent.
    + rewrite before_append by exact Hhash.
      change (PyStr.before "#" (String ":" b)) with (String ":" (PyStr.before "#" b)).
      now rewrite split_first.
Qed.

(** *** Text without escapes *)

Lemma decode_plain s :
  PyStr.contains "\" s = false ->
  PyLib.decode_from ucn_getcode PyLib.Plain s
  = Some (map PyStr.code (list_ascii_of_string s)).
Proof.
  induction s as [|c s IH]; [reflexivity|]. simpl. intros H.
  apply orb_false_iff in H as [Hc Hs]. rewrite Hc, (IH Hs). reflexivity.
Qed.

(** X14.  A TXT value without backslash goes through the decoder
    unchanged, character by character; only its semicolons get a backslash
    before them. *)
Theorem X14_plain_txt_value :
  forall (l : line) field,
    nth_error l 1 = Some field ->
    PyStr.contains "\" field = false ->
    quote_value ucn_getcode l
    = inr (PyLib.replace_semicolon (map PyStr.code (list_ascii_of_string field)))
    /\ (PyStr.contains ";" field = false ->
        quote_value ucn_getcode l
        = inr (map PyStr.code (list_ascii_of_string field))).
Proof.
  intros l field Hl Hplain.
  assert (Hq : quote_value ucn_getcode l
               = inr (PyLib.replace_semicolon
                        (map PyStr.code (list_ascii_of_string field)))).
  { unfold quote_value, item. rewrite Hl. cbn [bind].
    unfold PyLib.unicode_escape. now rewrite decode_plain. }
  split; [exact Hq|]. intros Hsemi. rewrite Hq. f_equal.
  clear - Hsemi. induction field as [|c s IH]; [reflexivity|].
  simpl in Hsemi. apply orb_false_iff in Hsemi as [Hc Hs].
  unfold PyLib.replace_semicolon in *. cbn [list_ascii_of_string map flat_map].
  rewrite (IH Hs).
  destruct (PyStr.code c =? 59)%N eqn:E; [|reflexivity].
  apply N.eqb_eq in E. unfold PyStr.code in E.
  assert (c = ";"%char) as ->.
  { rewrite <- (ascii_N_embedding c), E. reflexivity. }
  discriminate.
Qed.

(** *** The [_data_for_*] methods and the handlers *)

Lemma item_tl (l : line) : item (tl l) 0 = item l 1.
Proof. now destruct l as [|a [|b l]]. Qed.

Lemma data_A_values_tl lines : data_A_values (map (@tl string) lines) = plus_ips lines.
Proof.
  induction lines as [|l lines IH]; [reflexivity|].
  cbn [map data_A_values plus_ips]. now rewrite item_tl, IH.
Qed.

Lemma data_AAAA_values_tl lines :
  data_AAAA_values wrap_words (map (@tl string) lines) = three_ips wrap_words lines.
Proof.
  induction lines as [|l lines IH]; [reflexivity|].
  cbn [map data_AAAA_values three_ips]. unfold three_ip. rewrite item_tl, IH.
  now destruct (item l 1).
Qed.

Lemma data_TXT_values_tl lines :
  data_TXT_values ucn_getcode (map (@tl string) lines) = quote_values ucn_getcode lines.
Proof.
  induction lines as [|l lines IH]; [reflexivity|].
  cbn [map data_TXT_values quote_values]. unfold quote_value. rewrite item_tl, IH.
  destruct (item l 1) as [e|s]; [reflexivity|]. cbn [bind].
  now destruct (PyLib.unicode_escape ucn_getcode s).
Qed.

(** X15.  The methods [_data_for_A], [_data_for_AAAA] and [_data_for_TXT],
    given the fields of the lines of a group without their first field,
    build the values the handlers of [+], [3] and ['] yield for the group,
    and fail where they fail with the same exception: the same addresses
    with the placeholders dropped (and nothing at all when none is left),
    the same colon groups, the same decoded texts.  (The ttl field of the
    first line is taken absent or an integer, the handlers reading it.) *)
Theorem X15_data_methods_agree_with_handlers :
  forall self zone name lines,
    ttl_readable 2 lines = true ->
    match _data_for_A self "A" (map (@tl string) lines) with
    | inl e => _records_for_plus self zone name lines false = raise e
    | inr None => _records_for_plus self zone name lines false = stop
    | inr (Some d) =>
        _records_for_plus self zone name lines false
        = ([("A", name, values_of d)], None)
        /\ values_of d <> [] /\ ~ In (Str "0.0.0.0") (values_of d)
    end
    /\ match _data_for_AAAA wrap_words self "AAAA" (map (@tl string) lines) with
       | inl e => _records_for_three wrap_words self zone name lines false = raise e
       | inr d =>
           _records_for_three wrap_words self zone name lines false
           = ([("AAAA", name, values_of d)], None)
       end
    /\ match _data_for_TXT ucn_getcode self "TXT" (map (@tl string) lines) with
       | inl e => _records_for_quote ucn_getcode self zone name lines false = raise e
       | inr d =>
           _records_for_quote ucn_getcode self zone name lines false
           = ([("TXT", name, values_of d)], None)
       end.
Proof.
  intros self zone name lines Httl.
  destruct (find_ttl_readable lines 2 (default_ttl self) Httl) as [n Hn].
  split; [|split].
  - unfold _data_for_A, _records_for_plus. rewrite data_A_values_tl.
    destruct (plus_ips lines) as [e|ips] eqn:Hips; [reflexivity|]. cbn [bind].
    destruct ips as [|ip ips]; [reflexivity|]. rewrite Hn.
    split; [reflexivity|]. split; [discriminate|].
    unfold values_of. cbn [body]. apply plus_ips_addresses in Hips. rewrite Hips.
    apply filter_not_placeholder.
  - unfold _data_for_AAAA, _records_for_three. rewrite data_AAAA_values_tl.
    destruct (three_ips wrap_words lines) as [e|ips]; [reflexivity|].
    cbn [bind]. now rewrite Hn.
  - unfold _data_for_TXT, _records_for_quote. rewrite data_TXT_values_tl.
    destruct (quote_values ucn_getcode lines) as [e|vs]; [reflexivity|].
    cbn [bind]. now rewrite Hn.
Qed.

Lemma append_length_neq (a b : string) : b <> EmptyString -> (a ++ b)%string <> a.
Proof.
  intros Hb H. assert (Hl := f_equal String.length H).
  rewrite length_append in Hl. destruct b; [now elim Hb|simpl in Hl; lia].
Qed.

Lemma data_NS_values_hosts records hosts :
  Forall2 (fun (r : line) h => nth_error r 0 = Some h) records hosts ->
  data_NS_values records = inr (map (fun h => (h ++ ".")%string) hosts).
Proof.
  induction 1 as [|r h records hosts Hr _ IH]; [reflexivity|].
  cbn [data_NS_values map]. unfold item. rewrite Hr. cbn [bind]. now rewrite IH.
Qed.

(** X16.  [_data_for_NS] gives every host of its records with a dot put
    after it, whatever the host, and fails with [IndexError] on an empty
    record.  The handler of [.] completes the host instead: the two give the
    same name exactly for the hosts that have a dot and do not end in one.
    In the same way [_data_for_CNAME] puts a dot after the target of the
    first record, which is the value of the handler of [C] exactly when the
    target does not end in a dot. *)
Theorem X16_data_for_NS_and_CNAME_append_a_dot :
  forall self zone _type records hosts,
    Forall2 (fun (r : line) h => nth_error r 0 = Some h) records hosts ->
    _data_for_NS self _type records
    = inr {| ttl := first_ttl self records 1; type := _type;
             body := Values (map (fun h => Str (h ++ ".")) hosts) |}
    /\ (forall before after, _data_for_NS self _type (before ++ [] :: after)
                             = inl IndexError)
    /\ (forall h, (h ++ ".")%string = complete_host zone h
                  <-> PyStr.contains "." h = true /\ PyStr.last h <> Some "."%char)
    /\ (forall target more rest,
           _data_for_CNAME self _type ((target :: more) :: rest)
           = inr {| ttl := first_ttl self ((target :: more) :: rest) 1;
                    type := _type; body := Value (Str (target ++ ".")) |})
    /\ _data_for_CNAME self _type [] = inl IndexError.
Proof.
  intros self zone _type records hosts Hhosts. split; [|split; [|split; [|split]]].
  - unfold _data_for_NS. rewrite (data_NS_values_hosts records hosts Hhosts).
    cbn [bind]. now rewrite map_map.
  - intros before after. unfold _data_for_NS.
    assert (H : data_NS_values (before ++ [] :: after) = inl IndexError).
    { induction before as [|r before IH]; [reflexivity|].
      cbn [app data_NS_values]. destruct (item r 0) as [e|host] eqn:Hr.
      - cbn [bind]. now rewrite (item_forward _ _ _ Hr).
      - cbn [bind]. now rewrite IH. }
    now rewrite H.
  - intros h. unfold complete_host. split.
    + destruct (PyStr.contains "." h); simpl.
      * destruct (PyStr.last h) as [c|] eqn:Hl.
        -- destruct (Ascii.ascii_dec c ".") as [->|Hc].
           ++ intros H. now apply append_length_neq in H.
           ++ intros _. split; [reflexivity|]. congruence.
        -- intros _. split; [reflexivity|discriminate].
      * intros H. apply append_inj_l in H. discriminate.
    + intros [Hc Hl]. rewrite Hc. simpl.
      destruct (PyStr.last h) as [c|]; [|reflexivity].
      destruct (Ascii.ascii_dec c ".") as [->|Hne]; [now elim Hl|].
      destruct c as [[] [] [] [] [] [] [] []]; try reflexivity. now elim Hne.
  - reflexivity.
  - reflexivity.
Qed.

(** *** The values gathered under a type and a name *)

Lemma values_for_app t n a b :
  values_for t n (a ++ b) = values_for t n a ++ values_for t n b.
Proof. apply flat_map_app. Qed.

Lemma found_extend (types : types_t) ev t n :
  found (lookup2 String.eqb (extend types ev) t n)
  = found (lookup2 String.eqb types t n) ++ values_for t n [ev].
Proof.
  destruct ev as [[t' n'] vs]. rewrite extend_append2.
  unfold values_for. cbn [flat_map fst snd]. rewrite app_nil_r.
  destruct (String.eqb t' t) eqn:Et; [destruct (String.eqb n' n) eqn:En|]; simpl.
  - apply String.eqb_eq in Et. apply String.eqb_eq in En. subst t' n'.
    now rewrite (lookup2_append2_same String.eqb String.eqb_eq).
  - rewrite app_nil_r, (lookup2_append2_other String.eqb String.eqb_eq);
      [reflexivity|]. apply String.eqb_neq in En. congruence.
  - rewrite app_nil_r, (lookup2_append2_other String.eqb String.eqb_eq);
      [reflexivity|]. apply String.eqb_neq in Et. congruence.
Qed.

Lemma found_extend_all evs : forall (types : types_t) t n,
  found (lookup2 String.eqb (fold_left extend evs types) t n)
  = found (lookup2 String.eqb types t n) ++ values_for t n evs.
Proof.
  induction evs as [|ev evs IH]; intros types t n.
  - cbn. now rewrite app_nil_r.
  - cbn [fold_left]. rewrite IH, found_extend.
    change (ev :: evs) with ([ev] ++ evs).
    now rewrite values_for_app, app_assoc.
Qed.

Lemma found_names_loop h zone names : forall types types' t n,
  names_loop h zone names types = inr types' ->
  found (lookup2 String.eqb types' t n)
  = found (lookup2 String.eqb types t n)
    ++ values_for t n
         (flat_map (fun nl : string * list line => fst (h zone (fst nl) (snd nl) false))
                   names).
Proof.
  induction names as [|[name lines] names IH]; intros types types' t n H.
  - injection H as <-. cbn. now rewrite app_nil_r.
  - cbn [names_loop] in H. destruct (snd (h zone name lines false)); [discriminate|].
    rewrite (IH _ _ t n H), found_extend_all. cbn [flat_map fst snd].
    now rewrite values_for_app, app_assoc.
Qed.

Lemma found_symbols_loop self zone symbols : forall types types' t n,
  symbols_loop ucn_getcode wrap_words self zone symbols types = inr types' ->
  found (lookup2 String.eqb types' t n)
  = found (lookup2 String.eqb types t n)
    ++ values_for t n (events_of (SYMBOL_MAP ucn_getcode wrap_words self) zone symbols).
Proof.
  induction symbols as [|[symbol names] symbols IH]; intros types types' t n H.
  - injection H as <-. cbn. now rewrite app_nil_r.
  - cbn [symbols_loop] in H. unfold events_of in *. cbn [flat_map fst snd].
    destruct (SYMBOL_MAP _ _ _ symbol) as [h|]; [|now apply IH].
    destruct (names_loop h zone names types) as [e|t1] eqn:Hn; [discriminate|].
    cbn [bind] in H. rewrite (IH _ _ t n H), (found_names_loop h zone names _ _ t n Hn).
    now rewrite values_for_app, app_assoc.
Qed.

(** X17.  When no handler raises, the values [_process_symbols] gathers
    under a type and a name are the values of all the events of that type
    and name put one after the other, in the order in which the handlers ran
    (symbol by symbol, then name by name): events of different symbols merge
    under the same type and name, nothing is dropped or reordered, and no
    key is stored twice.  The second result, [ttls], is always empty. *)
Theorem X17_values_gathered_in_event_order :
  forall self zone symbols types ttls,
    _process_symbols ucn_getcode wrap_words self zone symbols = inr (types, ttls) ->
    ttls = []
    /\ keys_once types
    /\ forall _type name,
        found (lookup2 String.eqb types _type name)
        = values_for _type name
            (events_of (SYMBOL_MAP ucn_getcode wrap_words self) zone symbols).
Proof.
  intros self zone symbols types ttls H. split; [|split].
  - now apply process_symbols_ttls in H.
  - unfold _process_symbols, bind in H.
    destruct (symbols_loop _ _ _ _ symbols []) as [e|t] eqn:Hs; [discriminate|].
    injection H as <- _. apply symbols_loop_grows in Hs as [_ K].
    apply K, keys_once_empty.
  - intros _type name. unfold _process_symbols, bind in H.
    destruct (symbols_loop _ _ _ _ symbols []) as [e|t] eqn:Hs; [discriminate|].
    injection H as <- _. now rewrite (found_symbols_loop self zone symbols _ _ _ _ Hs).
Qed.

(** *** The ttl search, as it is written *)

(** X18.  The search for a ttl reads the first line of the group at every
    turn of its loop: the other lines play no part.  It gives the default
    when the first line has no ttl field, the integer of that field when
    [int] accepts it, and ends with [ValueError] otherwise, also when a
    later line carries an integer.  So a group of [+] lines with an address
    to keep yields its A event or ends with [ValueError] according to the
    first line alone. *)
Theorem X18_ttl_search_reads_first_line :
  forall self zone name first rest i d,
    find_ttl (first :: rest) i (first :: rest) d = find_ttl [first] i [first] d
    /\ (nth_error first i = None -> find_ttl (first :: rest) i (first :: rest) d = inr d)
    /\ (forall field n, nth_error first i = Some field -> PyLib.int field = Some n ->
                        find_ttl (first :: rest) i (first :: rest) d = inr n)
    /\ (forall field, nth_error first i = Some field -> PyLib.int field = None ->
                      find_ttl (first :: rest) i (first :: rest) d = inl ValueError)
    /\ (forall ips,
           plus_ips (first :: rest) = inr ips -> ips <> [] ->
           _records_for_plus self zone name (first :: rest) false
           = if ttl_readable 2 [first]
             then ([("A", name, map Str ips)], None)
             else raise ValueError).
Proof.
  intros self zone name first rest i d. rewrite !find_ttl_first.
  split; [reflexivity|]. split; [now intros ->|]. split; [now intros field n -> ->|].
  split; [now intros field -> ->|].
  intros ips Hips Hne. unfold _records_for_plus. rewrite Hips.
  destruct ips as [|ip ips]; [now elim Hne|].
  rewrite find_ttl_first. unfold ttl_readable.
  destruct (nth_error first 2) as [field|]; [|reflexivity].
  now destruct (PyLib.int field).
Qed.

Lemma item_skipn (l : line) k : item (skipn 2 l) k = item l (2 + k).
Proof. unfold item. now rewrite nth_error_skipn. Qed.

(** X19.  [_data_for_MX], given the fields of [@] lines from the host on,
    builds the values of the MX event of the handler when every line has a
    distance that is not empty and a host with a dot inside and none at its
    end: the distance as it is written and the host followed by a dot.  On a
    line without distance field the method fails with [IndexError] where the
    handler takes the distance 0. *)
Theorem X19_data_for_MX_and_the_handler :
  forall self zone _type lines,
    Forall (fun l : line =>
              exists host dist,
                nth_error l 2 = Some host /\ nth_error l 3 = Some dist
                /\ PyStr.truthy dist = true
                /\ (host ++ ".")%string = complete_host zone host) lines ->
    _data_for_MX self _type (map (skipn 2) lines)
    = inr {| ttl := first_ttl self (map (skipn 2) lines) 2; type := _type;
             body := Values (flat_map (mx_value zone) lines) |}
    /\ (forall (l : line) rest host,
           nth_error l 2 = Some host -> nth_error l 3 = None ->
           _data_for_MX self _type (map (skipn 2) (l :: rest)) = inl IndexError
           /\ mx_value zone l = [Mx (PrefInt 0) (complete_host zone host)]).
Proof.
  intros self zone _type lines Hall. split.
  - unfold _data_for_MX.
    assert (H : data_MX_values (map (skipn 2) lines)
                = inr (flat_map (mx_value zone) lines)).
    { induction Hall as [|l lines (host & dist & H2 & H3 & Hd & Hc) _ IH];
        [reflexivity|].
      cbn [map data_MX_values flat_map]. rewrite !item_skipn. unfold item.
      cbn [Nat.add]. rewrite H2, H3. cbn [bind]. rewrite IH. cbn [bind].
      unfold mx_value, distance. now rewrite H2, H3, Hd, Hc. }
    now rewrite H.
  - intros l rest host H2 H3. split.
    + unfold _data_for_MX. cbn [map data_MX_values]. rewrite item_skipn.
      unfold item. cbn [Nat.add]. now rewrite H3.
    + unfold mx_value, distance. now rewrite H2, H3.
Qed.

End Properties.

(** ** The statements at concrete inputs *)

(** C3 fails as it is stated: in the forward zone [example.com.] a [^] line
    that belongs to the zone goes through the dispatch, and the run ends
    without an exception and without a record. *)
Lemma C3_caret_line_raises_nothing :
  populate no_ucn no_wrap no_ipv6 (TinyDnsFileSource 3600)
    (zone_named "example.com.") [("zone", "^www.example.com:host.example.net")]
  = stop
  /\ snd (populate no_ucn no_wrap no_ipv6 (TinyDnsFileSource 3600)
            (zone_named "example.com.")
            [("zone", "^www.example.com:host.example.net")])
     <> Some NotImplementedError.
Proof.
  split; [vm_compute; reflexivity|vm_compute; discriminate].
Qed.

(** C4 at two groups: one with a placeholder and an address, one with
    placeholders only. *)
Lemma C4_placeholder_addresses_dropped_witness :
  _records_for_plus (TinyDnsFileSource 3600) (zone_named "example.com.") "www"
    [["www.example.com"; "0.0.0.0"]; ["www.example.com"; "192.0.2.1"; "300"]]
    false
  = ([("A", "www", [Str "192.0.2.1"])], None)
  /\ _records_for_plus (TinyDnsFileSource 3600) (zone_named "example.com.") "www"
       [["www.example.com"; "0.0.0.0"]; ["www.example.com"; "0.0.0.0"]] false
     = stop.
Proof.
  split.
  - pose proof (C4_placeholder_addresses_dropped (TinyDnsFileSource 3600)
                  (zone_named "example.com.") "www"
                  [["www.example.com"; "0.0.0.0"];
                   ["www.example.com"; "192.0.2.1"; "300"]] false) as H.
    cbv zeta in H. destruct H as (_ & _ & H). apply H.
    + reflexivity.
    + repeat constructor; discriminate.
    + discriminate.
    + reflexivity.
  - pose proof (C4_placeholder_addresses_dropped (TinyDnsFileSource 3600)
                  (zone_named "example.com.") "www"
                  [["www.example.com"; "0.0.0.0"]; ["www.example.com"; "0.0.0.0"]]
                  false) as H.
    cbv zeta in H. destruct H as (_ & H & _). apply H. repeat constructor.
Defined.

(** C5 at two [+] lines of [www.example.com]: alone, and among a TXT line, an
    [=] line of the same name and a line of another kind. *)
Lemma C5_two_plus_lines_merge_witness :
  _populate_normal no_ucn no_wrap (TinyDnsFileSource 3600)
    (zone_named "example.com.")
    ["+www.example.com:192.0.2.1:300"; "+www.example.com:192.0.2.2"]
  = ([("www", {| ttl := TtlInt 3600; type := "A";
                 body := Values [Str "192.0.2.1"; Str "192.0.2.2"] |})], None)
  /\ exists before after v1 v2 v3,
      [("www", {| ttl := TtlInt 3600; type := "TXT";
                  body := Value (Text [104; 101; 108; 108; 111]%N) |});
       ("www", {| ttl := TtlInt 3600; type := "A";
                  body := Values [Str "192.0.2.1"; Str "192.0.2.2";
                                  Str "192.0.2.3"] |})]
      = before
        ++ ("www", {| ttl := TtlInt 3600; type := "A";
                      body := Values (v1 ++ Str "192.0.2.1" :: v2
                                         ++ Str "192.0.2.2" :: v3) |})
        :: after
      /\ Forall (fun r : string * data => ~ (fst r = "www" /\ type (snd r) = "A"))
                (before ++ after).
Proof.
  pose proof (C5_two_plus_lines_merge no_ucn no_wrap (TinyDnsFileSource 3600)
                (zone_named "example.com.") "www"
                "www.example.com:192.0.2.1:300" "www.example.com:192.0.2.2"
                "www.example.com" "192.0.2.1" ["300"]
                "www.example.com" "192.0.2.2" []
                eq_refl eq_refl eq_refl eq_refl eq_refl eq_refl eq_refl eq_refl)
    as [Hamong Halone].
  split.
  - apply Halone. reflexivity.
  - apply (Hamong ["'www.example.com:hello"] ["=www.example.com:192.0.2.3"] ["#c"]).
    vm_compute. reflexivity.
Defined.

(** C6 at a group of two [.] lines, one with a short name and an address, one
    with a full name without its last dot. *)
Lemma C6_host_completion_witness :
  exists aux,
    _records_for_dot (TinyDnsFileSource 3600) (zone_named "example.com.") ""
      [["example.com"; "192.0.2.53"; "a"; "3600"];
       ["example.com"; ""; "ns.example.net"]] false
    = (aux ++ [("NS", "", [Str "a.ns.example.com."; Str "ns.example.net."])], None)
    /\ Forall (fun ev : event => fst (fst ev) = "A") aux.
Proof.
  destruct (C6_host_completion no_ucn no_wrap (TinyDnsFileSource 3600)
              (zone_named "example.com.") ""
              [["example.com"; "192.0.2.53"; "a"; "3600"];
               ["example.com"; ""; "ns.example.net"]]
              ["a"; "ns.example.net"])
    as (_ & _ & _ & _ & Hdot & _).
  - repeat constructor.
  - apply Hdot. reflexivity.
Defined.

(** C7 at the address of the specification. *)
Lemma C7_ipv6_colon_groups_witness :
  _records_for_three no_wrap (TinyDnsFileSource 3600) (zone_named "example.com.")
    "v6" [["v6.example.com"; "20010db8000000000000000000000001"]] false
  = ([("AAAA", "v6", [Str "2001:0db8:0000:0000:0000:0000:0000:0001"])], None).
Proof.
  pose proof (C7_ipv6_colon_groups no_wrap (TinyDnsFileSource 3600)
                (zone_named "example.com.") "v6"
                [["v6.example.com"; "20010db8000000000000000000000001"]]
                ["20010db8000000000000000000000001"]) as H.
  cbv zeta in H. apply H.
  - repeat constructor.
  - reflexivity.
Defined.

(** C8 at a value with a semicolon written in octal. *)
Lemma C8_txt_semicolons_escaped_witness :
  _records_for_quote no_ucn (TinyDnsFileSource 3600) (zone_named "example.com.")
    "txt" [["txt.example.com"; "a\073b"]] false
  = ([("TXT", "txt", [Text [97; 92; 59; 98]%N])], None).
Proof.
  destruct (C8_txt_semicolons_escaped no_ucn (TinyDnsFileSource 3600)
              (zone_named "example.com.") "txt"
              [["txt.example.com"; "a\073b"]] false) as (_ & H & _).
  apply (H [[97; 59; 98]%N]).
  - constructor; [|constructor]. exists "a\073b". split; reflexivity.
  - reflexivity.
Defined.

(** C9 at the zone [example.com.]. *)
Lemma C9_unescaped_zone_dot_witness :
  exists owner,
    owner <> "example.com." /\ owner <> "example.com"
    /\ PyStr.endswith owner ".example.com." = false
    /\ PyStr.endswith owner ".example.com" = false
    /\ NameRe.matches "example.com." owner = true
    /\ exists name,
        _populate_normal no_ucn no_wrap (TinyDnsFileSource 3600)
          (zone_named "example.com.") [String "+" (owner ++ ":192.0.2.1")]
        = ([(name, {| ttl := TtlInt 3600; type := "A";
                      body := Value (Str "192.0.2.1") |})], None).
Proof.
  destruct (C9_unescaped_zone_dot no_ucn no_wrap (TinyDnsFileSource 3600)
              (zone_named "example.com.") eq_refl eq_refl)
    as (pre & post & _ & H).
  cbv zeta in H. destruct H as (H1 & H2 & H3 & H4 & H5 & _ & H7).
  exists (pre ++ "x" ++ post)%string. repeat split; try assumption.
  eexists. exact H7.
Defined.

(** C10 at a reverse zone and a directory of two files. *)
Lemma C10_reverse_path_attribute_error_witness :
  populate no_ucn no_wrap no_ipv6 (TinyDnsFileSource 3600)
    (zone_named "2.0.192.in-addr.arpa.")
    [("hosts", "+a.example.com:192.0.2.1");
     ("reverse", "^5.2.0.192.in-addr.arpa:host.example.com")]
  = raise AttributeError.
Proof.
  pose proof (C10_reverse_path_attribute_error no_ucn no_wrap no_ipv6 3600%Z
                (zone_named "2.0.192.in-addr.arpa.")
                [("hosts", "+a.example.com:192.0.2.1");
                 ("reverse", "^5.2.0.192.in-addr.arpa:host.example.com")]) as H.
  cbv zeta in H. destruct H as (_ & Hrun & _ & Hpopulate).
  rewrite (Hpopulate eq_refl). exact Hrun.
Defined.


(** ** The further properties at concrete inputs *)

Lemma X1_process_lines_groups_witness :
  exists data,
    _process_lines (zone_named "example.com.")
      ["+www.example.com:192.0.2.1"; "+mail.example.org:192.0.2.9";
       "+www.example.com:192.0.2.2"]
    = inr data
    /\ found (lookup2 Ascii.eqb data "+"%char "www")
       = [["www.example.com"; "192.0.2.1"]; ["www.example.com"; "192.0.2.2"]].
Proof.
  destruct (X1_process_lines_groups (zone_named "example.com.")
              ["+www.example.com:192.0.2.1"; "+mail.example.org:192.0.2.9";
               "+www.example.com:192.0.2.2"]) as (_ & H & _).
  destruct H as (data & Hrun & _ & _ & Hg).
  - intros [H|[H|[H|[]]]]; discriminate H.
  - exists data. split; [exact Hrun|]. rewrite Hg. reflexivity.
Defined.

Lemma X2_skipped_line_leaves_no_trace_witness :
  _populate_normal no_ucn no_wrap (TinyDnsFileSource 3600)
    (zone_named "example.com.")
    ["+www.example.com:192.0.2.1"; "Sservice.example.com:192.0.2.7";
     "+www.example.com:192.0.2.2"]
  = _populate_normal no_ucn no_wrap (TinyDnsFileSource 3600)
      (zone_named "example.com.")
      ["+www.example.com:192.0.2.1"; "+www.example.com:192.0.2.2"].
Proof.
  apply (X2_skipped_line_leaves_no_trace no_ucn no_wrap (TinyDnsFileSource 3600)
           (zone_named "example.com.") ["+www.example.com:192.0.2.1"]
           "S"%char "service.example.com:192.0.2.7" ["+www.example.com:192.0.2.2"]).
  right. reflexivity.
Defined.


Lemma X6_ns_mx_events_witness :
  _records_for_dot (TinyDnsFileSource 3600) (zone_named "example.com.") ""
    [["example.com"; "192.0.2.53"; "a"]; ["example.com"; ""; "ns.example.net"]]
    false
  = ([("A", "a.ns", [Str "192.0.2.53"]);
      ("NS", "", [Str "a.ns.example.com."; Str "ns.example.net."])], None).
Proof.
  destruct (X6_ns_mx_events (TinyDnsFileSource 3600) (zone_named "example.com.") ""
              [["example.com"; "192.0.2.53"; "a"];
               ["example.com"; ""; "ns.example.net"]]) as (Hdot & _ & _).
  - repeat constructor; discriminate.
  - apply Hdot. reflexivity.
Defined.

Lemma X7_cname_first_line_witness :
  _records_for_C (TinyDnsFileSource 3600) (zone_named "example.com.") "www"
    [["www.example.com"; "host.example.net"];
     ["www.example.com"; "other.example.net"]] false
  = ([("CNAME", "www", [Str "host.example.net."])], None).
Proof.
  destruct (X7_cname_first_line (TinyDnsFileSource 3600) (zone_named "example.com.")
              "www" ["www.example.com"; "host.example.net"]
              [["www.example.com"; "other.example.net"]] false)
    as (_ & _ & _ & H).
  apply (H "host.example.net"); [reflexivity|discriminate|reflexivity].
Defined.

Lemma X8_handlers_in_addr_mode_witness :
  _records_for_equal (TinyDnsFileSource 3600) (zone_named "example.com.") "www"
    [["www.example.com"; "192.0.2.1"]] true
  = raise NotImplementedError.
Proof.
  destruct (X8_handlers_in_addr_mode no_ucn no_wrap (TinyDnsFileSource 3600)
              (zone_named "example.com.") "www" [["www.example.com"; "192.0.2.1"]]
              "="%char (_records_for_equal (TinyDnsFileSource 3600)) eq_refl)
    as (H & _ & _).
  exact H.
Defined.


Lemma X10_completed_host_is_qualified_witness :
  PyStr.last (complete_host (zone_named "example.com.") "a") = Some "."%char.
Proof.
  apply (X10_completed_host_is_qualified (zone_named "example.com.") "a").
  reflexivity.
Defined.

Lemma X11_aaaa_value_keeps_the_field_witness :
  exists value,
    three_ip no_wrap ["v6.example.com"; "20010db8"] = inr value
    /\ without ":" value = "20010db8".
Proof.
  destruct (X11_aaaa_value_keeps_the_field no_wrap ["v6.example.com"; "20010db8"]
              "20010db8" eq_refl eq_refl eq_refl) as (value & H1 & H2 & _).
  exists value. split; assumption.
Defined.

Lemma X12_lines_of_the_directory_witness :
  _lines [("zone", PyStr.join (String PyStr.LF EmptyString)
                     ["+a.example.com:192.0.2.1"; ""; "+b.example.com:192.0.2.2"; ""])]
  = ["+a.example.com:192.0.2.1"; "+b.example.com:192.0.2.2"].
Proof.
  destruct (X12_lines_of_the_directory [] "zone"
              (PyStr.join (String PyStr.LF EmptyString)
                 ["+a.example.com:192.0.2.1"; ""; "+b.example.com:192.0.2.2"; ""])
              []) as (_ & H & _).
  apply (H ["+a.example.com:192.0.2.1"; ""; "+b.example.com:192.0.2.2"; ""]).
  - reflexivity.
  - discriminate.
  - repeat constructor.
  - reflexivity.
Defined.

Lemma X13_fields_of_a_line_witness :
  fields_of "www.example.com:192.0.2.1 # web" = fields_of "www.example.com:192.0.2.1 ".
Proof.
  apply (X13_fields_of_a_line "www.example.com:192.0.2.1 " " web"). reflexivity.
Defined.

Lemma X14_plain_txt_value_witness :
  quote_value no_ucn ["txt.example.com"; "hello"]
  = inr [104; 101; 108; 108; 111]%N.
Proof.
  destruct (X14_plain_txt_value no_ucn ["txt.example.com"; "hello"] "hello"
              eq_refl eq_refl) as (_ & H).
  apply H. reflexivity.
Defined.

Lemma X15_data_methods_agree_with_handlers_witness :
  _records_for_plus (TinyDnsFileSource 3600) (zone_named "example.com.") "www"
    [["www.example.com"; "0.0.0.0"]; ["www.example.com"; "192.0.2.1"]] false
  = ([("A", "www", [Str "192.0.2.1"])], None).
Proof.
  pose proof (X15_data_methods_agree_with_handlers no_ucn no_wrap
                (TinyDnsFileSource 3600) (zone_named "example.com.") "www"
                [["www.example.com"; "0.0.0.0"]; ["www.example.com"; "192.0.2.1"]]
                eq_refl) as H.
  cbn in H. destruct H as ((H & _) & _). exact H.
Defined.

Lemma X16_data_for_NS_and_CNAME_append_a_dot_witness :
  _data_for_NS (TinyDnsFileSource 3600) "NS" [["a"]; ["ns.example.net"; "3600"]]
  = inr {| ttl := TtlInt 3600; type := "NS";
           body := Values [Str "a."; Str "ns.example.net."] |}.
Proof.
  destruct (X16_data_for_NS_and_CNAME_append_a_dot (TinyDnsFileSource 3600)
              (zone_named "example.com.") "NS"
              [["a"]; ["ns.example.net"; "3600"]] ["a"; "ns.example.net"])
    as (H & _).
  - repeat constructor.
  - exact H.
Defined.

Lemma X17_values_gathered_in_event_order_witness :
  found (lookup2 String.eqb
           [("A", [("www", [Str "192.0.2.1"; Str "192.0.2.53"])]);
            ("NS", [("", [Str "www.example.com."])])] "A" "www")
  = values_for "A" "www"
      (events_of (SYMBOL_MAP no_ucn no_wrap (TinyDnsFileSource 3600))
         (zone_named "example.com.")
         [("+"%char, [("www", [["www.example.com"; "192.0.2.1"]])]);
          ("."%char, [("", [["example.com"; "192.0.2.53"; "www.example.com"]])])]).
Proof.
  destruct (X17_values_gathered_in_event_order no_ucn no_wrap
              (TinyDnsFileSource 3600) (zone_named "example.com.")
              [("+"%char, [("www", [["www.example.com"; "192.0.2.1"]])]);
               ("."%char, [("", [["example.com"; "192.0.2.53"; "www.example.com"]])])]
              [("A", [("www", [Str "192.0.2.1"; Str "192.0.2.53"])]);
               ("NS", [("", [Str "www.example.com."])])]
              [] eq_refl) as (_ & _ & H).
  apply H.
Defined.

Lemma X18_ttl_search_reads_first_line_witness :
  _records_for_plus (TinyDnsFileSource 3600) (zone_named "example.com.") "www"
    [["www.example.com"; "192.0.2.1"; ""]; ["www.example.com"; "192.0.2.2"; "300"]]
    false
  = raise ValueError.
Proof.
  destruct (X18_ttl_search_reads_first_line (TinyDnsFileSource 3600)
              (zone_named "example.com.") "www"
              ["www.example.com"; "192.0.2.1"; ""]
              [["www.example.com"; "192.0.2.2"; "300"]] 2%nat 3600%Z)
    as (_ & _ & _ & _ & H).
  apply (H ["192.0.2.1"; "192.0.2.2"]); [reflexivity|discriminate].
Defined.

Lemma X19_data_for_MX_and_the_handler_witness :
  _data_for_MX (TinyDnsFileSource 3600) "MX"
    (map (skipn 2)
       [["example.com"; ""; "mx.example.net"; "10"; "300"];
        ["example.com"; ""; "mail.example.com"; "20"]])
  = inr {| ttl := TtlStr "300"; type := "MX";
           body := Values [Mx (PrefStr "10") "mx.example.net.";
                           Mx (PrefStr "20") "mail.example.com."] |}.
Proof.
  destruct (X19_data_for_MX_and_the_handler (TinyDnsFileSource 3600)
              (zone_named "example.com.") "MX"
              [["example.com"; ""; "mx.example.net"; "10"; "300"];
               ["example.com"; ""; "mail.example.com"; "20"]]) as (H & _).
  - constructor; [|constructor; [|constructor]].
    + exists "mx.example.net", "10". repeat split; reflexivity.
    + exists "mail.example.com", "20". repeat split; reflexivity.
  - exact H.
Defined.
